(** * Chatapp: write-behind message buffer, circuit breaker, read receipts
      and group ownership.

    A shallow embedding of
      - src/core/message_buffer.py  (CircuitBreaker, MessageBuffer),
      - src/core/database.py        (get_messages_collection),
      - src/main.py                 (mark_read),
      - src/routes/group_routes.py  (delete_group, remove_from_group),
    with the properties of the specification stated over it. *)

From Stdlib Require Import ZArith Bool List Ascii String Lia.
From stdpp Require Import base numbers option list strings pretty gmap.

Local Open Scope Z_scope.

(** ** Python values shared by all modules *)

(** Wall-clock instants ([datetime.now(UTC)]) are counted in microseconds,
    the resolution of [datetime]; a [timedelta] is a difference of two. *)
Definition datetime := Z.

Definition usec_per_sec : Z := 1000000.

(** [(later - earlier).total_seconds() > secs] for an integer [secs].
    [total_seconds()] is the microsecond count divided by 10^6, so the
    comparison is the one on microseconds. *)
Definition total_seconds_gt (later earlier : datetime) (secs : Z) : bool :=
  secs * usec_per_sec <? later - earlier.

(** [(later - earlier).total_seconds() >= secs]. *)
Definition total_seconds_ge (later earlier : datetime) (secs : Z) : bool :=
  secs * usec_per_sec <=? later - earlier.

(** Exception classes that can reach the buffer: the pymongo hierarchy
    below [ConnectionFailure] and [OperationFailure], pymongo and bson
    errors outside of it, and the builtins the code itself can raise. *)
Inductive exn : Type :=
  | ConnectionFailure
  | AutoReconnect
  | ServerSelectionTimeoutError
  | NetworkTimeout
  | NotPrimaryError
  | OperationFailure
  | BulkWriteError
  | WriteError
  | DuplicateKeyError
  | ExecutionTimeout
  | WTimeoutError
  | InvalidOperation
  | InvalidDocument
  | DocumentTooLarge
  | ConnectionError      (* builtin, raised by get_messages_collection *)
  | TypeError
  | KeyError
  | InvalidId             (* bson.errors.InvalidId *)
  | HTTPException (status_code : Z) (detail : string).   (* fastapi *)

(** [isinstance(e, ConnectionFailure)] *)
Definition is_ConnectionFailure (e : exn) : bool :=
  match e with
  | ConnectionFailure | AutoReconnect | ServerSelectionTimeoutError
  | NetworkTimeout | NotPrimaryError => true
  | _ => false
  end.

(** [isinstance(e, OperationFailure)] *)
Definition is_OperationFailure (e : exn) : bool :=
  match e with
  | OperationFailure | BulkWriteError | WriteError | DuplicateKeyError
  | ExecutionTimeout | WTimeoutError => true
  | _ => false
  end.

(** The outcome of awaiting a coroutine: it returns, it raises, or it
    never resumes (it waits for a lock that is not released). *)
Inductive result (A : Type) : Type :=
  | Ret (a : A)
  | Raise (e : exn)
  | Blocked.
Arguments Ret {A} a.
Arguments Raise {A} e.
Arguments Blocked {A}.

(** Coroutines over a state [S]: explicit state passing, with Python's
    [raise] and [try ... except Exception]. *)
Definition St (S A : Type) : Type := S -> result A * S.

Definition ret {S A} (a : A) : St S A := fun s => (Ret a, s).

Definition bind {S A B} (m : St S A) (f : A -> St S B) : St S B :=
  fun s =>
    match m s with
    | (Ret a, s') => f a s'
    | (Raise e, s') => (Raise e, s')
    | (Blocked, s') => (Blocked, s')
    end.

Definition raise {S A} (e : exn) : St S A := fun s => (Raise e, s).

(** [try: m  except Exception as e: h e] *)
Definition try_except {S A} (m : St S A) (h : exn -> St S A) : St S A :=
  fun s =>
    match m s with
    | (Raise e, s') => h e s'
    | r => r
    end.

Definition get {S} : St S S := fun s => (Ret s, s).
Definition modify {S} (f : S -> S) : St S unit := fun s => (Ret tt, f s).

(** A coroutine of a component [T] of the state, run inside [S]. *)
Definition lift {S T A} (proj : S -> T) (inj : T -> S -> S) (m : St T A) : St S A :=
  fun s => let '(r, t') := m (proj s) in (r, inj t' s).

Declare Scope py_scope.
Delimit Scope py_scope with py.
Notation "'let*' x := m 'in' k" := (bind m (fun x => k))
  (at level 10, x name, m at level 100, k at level 200) : py_scope.
Notation "m ;; k" := (bind m (fun _ => k))
  (at level 100, k at level 200, right associativity) : py_scope.
Local Open Scope py_scope.

(** [for x in xs: body x] *)
Fixpoint for_each {S A} (xs : list A) (body : A -> St S unit) : St S unit :=
  match xs with
  | [] => ret tt
  | x :: xs' => body x ;; for_each xs' body
  end.

(** [range(0, n, step)] for a positive [step]. *)
Definition range_step (n step : nat) : list nat :=
  map (fun k => (k * step)%nat) (seq 0 ((n + step - 1) / step)).

(** ** CircuitBreaker (message_buffer.py, lines 16-43) *)
Module CircuitBreaker.

Record t : Type := mk {
  failure_count : Z;
  failure_threshold : Z;
  reset_timeout : Z;                  (* seconds *)
  last_failure_time : option datetime;
  is_open : bool
}.

(** [__init__(failure_threshold=5, reset_timeout=30)] *)
Definition init (failure_threshold reset_timeout : Z) : t :=
  {| failure_count := 0;
     failure_threshold := failure_threshold;
     reset_timeout := reset_timeout;
     last_failure_time := None;
     is_open := false |}.

(** [record_failure]; [now] is the reading of [datetime.now(UTC)]. *)
Definition record_failure (now : datetime) (cb : t) : t :=
  let count := failure_count cb + 1 in
  {| failure_count := count;
     failure_threshold := failure_threshold cb;
     reset_timeout := reset_timeout cb;
     last_failure_time := Some now;
     is_open := if failure_threshold cb <=? count then true else is_open cb |}.

Definition record_success (cb : t) : t :=
  {| failure_count := 0;
     failure_threshold := failure_threshold cb;
     reset_timeout := reset_timeout cb;
     last_failure_time := last_failure_time cb;
     is_open := false |}.

(** [can_proceed]: the answer and the breaker afterwards.  Subtracting
    [None] from a datetime raises [TypeError]. *)
Definition can_proceed (now : datetime) (cb : t) : result bool * t :=
  if negb (is_open cb) then (Ret true, cb)
  else
    match last_failure_time cb with
    | None => (Raise TypeError, cb)
    | Some last =>
        if total_seconds_gt now last (reset_timeout cb) then
          (Ret true,
           {| failure_count := 0;
              failure_threshold := failure_threshold cb;
              reset_timeout := reset_timeout cb;
              last_failure_time := last_failure_time cb;
              is_open := false |})
        else (Ret false, cb)
    end.

(** An open breaker has seen a failure: the only assignment of
    [is_open = True] follows one of [last_failure_time]. *)
Definition wf (cb : t) : Prop :=
  is_open cb = true -> last_failure_time cb <> None.

End CircuitBreaker.

(** ** Message dicts (core/models.py, [Message.dict()] plus the routing key
    added by [send_message]).  The media fields, which no operation below
    reads, and the [_id] key the driver adds on insertion are left out: a
    stored dict is found under its [_id] in the collection. *)
Module Message.

Record t : Type := mk {
  content : string;
  type : string;                 (* "direct" or "group" *)
  content_type : string;
  from_user_id : string;
  timestamp : datetime;
  id : string;
  status : string;               (* "sent", "delivered", "read" *)
  read_by : list string;
  deleted_for : list string;
  group_id : option string;      (* ObjectId of the group, group messages *)
  to_user_id : option string     (* recipient, direct messages *)
}.

End Message.

(** ** The environment of the buffer: clock, database module, store *)
Module World.

(** What one awaited store call does: how long it takes and whether it
    raises. *)
Record reply : Type := mk_reply {
  reply_delay : Z;                (* microseconds *)
  reply_error : option exn
}.

Record t : Type := mk {
  now : datetime;                 (* the wall clock *)
  is_initialized : bool;          (* database.py global *)
  replies : list reply;           (* outcomes of the store calls to come *)
  draws : list Z;                 (* random draws to come, in millionths *)
  insert_log : list (list Message.t * option exn)
                                  (* insert_many calls issued, oldest first *)
}.

Definition advance (d : Z) (w : t) : t :=
  {| now := now w + d; is_initialized := is_initialized w;
     replies := replies w; draws := draws w; insert_log := insert_log w |}.

Definition set_is_initialized (b : bool) (w : t) : t :=
  {| now := now w; is_initialized := b;
     replies := replies w; draws := draws w; insert_log := insert_log w |}.

Definition log_insert (chunk : list Message.t) (r : option exn) (w : t) : t :=
  {| now := now w; is_initialized := is_initialized w;
     replies := replies w; draws := draws w;
     insert_log := insert_log w ++ [(chunk, r)] |}.

(** The next store call: an exhausted script answers at once, with
    success. *)
Definition next_reply (w : t) : reply * t :=
  match replies w with
  | [] => (mk_reply 0 None, w)
  | r :: rs =>
      (r, {| now := now w; is_initialized := is_initialized w;
             replies := rs; draws := draws w; insert_log := insert_log w |})
  end.

Definition next_draw (w : t) : Z * t :=
  match draws w with
  | [] => (0, w)
  | u :: us =>
      (u, {| now := now w; is_initialized := is_initialized w;
             replies := replies w; draws := us; insert_log := insert_log w |})
  end.

(** One awaited round trip to the store. *)
Definition store_call : St t unit :=
  fun w =>
    let '(r, w') := next_reply w in
    let w'' := advance (reply_delay r) w' in
    match reply_error r with
    | None => (Ret tt, w'')
    | Some e => (Raise e, w'')
    end.

(** database.py, [init_db] (lines 62-123): client set-up, ping and index
    creation, taken as one round trip; on any exception the globals are
    reset and the exception is re-raised. *)
Definition init_db : St t unit :=
  let* w := get in
  if is_initialized w then ret tt
  else
    try_except
      (store_call ;; modify (set_is_initialized true))
      (fun e => modify (set_is_initialized false) ;; raise e).

(** database.py, [get_messages_collection] (lines 44-51).  The collection
    global is set exactly when [is_initialized] is. *)
Definition get_messages_collection : St t unit :=
  let* w := get in
  (if is_initialized w then ret tt else init_db) ;;
  let* w := get in
  if is_initialized w then ret tt else raise ConnectionError.

(** database.py, [get_groups_collection] (lines 53-60). *)
Definition get_groups_collection : St t unit :=
  let* w := get in
  (if is_initialized w then ret tt else init_db) ;;
  let* w := get in
  if is_initialized w then ret tt else raise ConnectionError.

(** [await collection.with_options(...).insert_many(chunk, ordered=False)] *)
Definition insert_many (chunk : list Message.t) : St t unit :=
  fun w =>
    let '(r, w') := next_reply w in
    let w'' := log_insert chunk (reply_error r) (advance (reply_delay r) w') in
    match reply_error r with
    | None => (Ret tt, w'')
    | Some e => (Raise e, w'')
    end.

(** [datetime.now(UTC)] *)
Definition datetime_now : St t datetime := let* w := get in ret (now w).

(** [await asyncio.sleep(d)]: a non-positive delay resumes at once. *)
Definition sleep (d : Z) : St t unit := modify (advance (Z.max 0 d)).

(** [random.uniform(0, value)], in microseconds for [value] in seconds. *)
Definition random_uniform (value : Z) : St t Z :=
  fun w => let '(u, w') := next_draw w in
           (Ret (value * Z.max 0 (Z.min usec_per_sec u)), w').

End World.

(** ** backoff.on_exception (third-party decorator, as the buffer uses it) *)
Module Backoff.

(** [backoff.expo()]: 1, 2, 4, ... seconds. *)
Definition expo (n : nat) : Z := 2 ^ Z.of_nat n.

(** [backoff.full_jitter(value)] *)
Definition full_jitter (value : Z) : St World.t Z := World.random_uniform value.

Section Retry.
Context {X A : Type}.
(* clock, sleep and randomness of the caller's state *)
Variable world : forall B, St World.t B -> St X B.
Variable retry_on : exn -> bool.               (* the [exception] tuple *)
Variable max_time : Z.                         (* seconds *)
Variable target : St X A.

(** [_next_wait] and the sleep that follows: the next value of the wait
    generator, with jitter, but no longer than what is left of
    [max_time]. *)
Definition pause (start now : datetime) (waits : nat) : St World.t unit :=
  let* seconds := full_jitter (expo waits) in
  World.sleep (Z.min seconds (max_time * usec_per_sec - (now - start))).

(** The loop of the decorator.  [left] is [max_tries - tries] inside the
    loop body, [waits] the number of values already taken from the wait
    generator; [elapsed] is read before the call.  An exception outside
    [retry_on] is not caught; a caught one is re-raised when
    [tries == max_tries] or [elapsed >= max_time]; otherwise the loop
    pauses and goes round. *)
Fixpoint retry_loop (start : datetime) (waits : nat) (left : nat) : St X A :=
  let* now := world _ World.datetime_now in
  try_except target (fun e =>
    if negb (retry_on e) then raise e
    else
      match left with
      | O => raise e
      | S left' =>
          if total_seconds_ge now start max_time then raise e
          else
            world _ (pause start now waits) ;;
            retry_loop start (S waits) left'
      end).

(** [max_tries] is at least 1 (with 0 the library never gives up). *)
Definition on_exception (max_tries : nat) : St X A :=
  let* start := world _ World.datetime_now in
  retry_loop start 0 (Nat.pred max_tries).
End Retry.

End Backoff.

(** ** MessageBuffer (message_buffer.py, lines 45-161) *)
Module MessageBuffer.

Record Stats : Type := mk_stats {
  total_messages : Z;
  successful_flushes : Z;
  failed_flushes : Z;
  retry_count : Z;
  circuit_breaker_trips : Z
}.

Record t : Type := mk {
  messages : list Message.t;
  batch_size : Z;
  flush_interval : Z;             (* microseconds *)
  lock : bool;                    (* asyncio.Lock: True while held *)
  last_flush : datetime;
  max_retries : Z;
  circuit_breaker : CircuitBreaker.t;
  stats : Stats
}.

(** [MessageBuffer.__init__], constructed at the instant [now]. *)
Definition init (batch_size flush_interval max_retries : Z) (now : datetime) : t :=
  {| messages := [];
     batch_size := batch_size;
     flush_interval := flush_interval;
     lock := false;
     last_flush := now;
     max_retries := max_retries;
     circuit_breaker := CircuitBreaker.init 3 60;
     stats := mk_stats 0 0 0 0 0 |}.

(** The module-level instance (lines 156-161). *)
Definition message_buffer (now : datetime) : t := init 10 (2 * usec_per_sec) 2 now.

(** *** Field updates *)
Definition set_messages (l : list Message.t) (b : t) : t :=
  mk l (batch_size b) (flush_interval b) (lock b) (last_flush b)
     (max_retries b) (circuit_breaker b) (stats b).
Definition set_batch_size (n : Z) (b : t) : t :=
  mk (messages b) n (flush_interval b) (lock b) (last_flush b)
     (max_retries b) (circuit_breaker b) (stats b).
Definition set_lock (l : bool) (b : t) : t :=
  mk (messages b) (batch_size b) (flush_interval b) l (last_flush b)
     (max_retries b) (circuit_breaker b) (stats b).
Definition set_last_flush (d : datetime) (b : t) : t :=
  mk (messages b) (batch_size b) (flush_interval b) (lock b) d
     (max_retries b) (circuit_breaker b) (stats b).
Definition set_circuit_breaker (cb : CircuitBreaker.t) (b : t) : t :=
  mk (messages b) (batch_size b) (flush_interval b) (lock b) (last_flush b)
     (max_retries b) cb (stats b).
Definition set_stats (s : Stats) (b : t) : t :=
  mk (messages b) (batch_size b) (flush_interval b) (lock b) (last_flush b)
     (max_retries b) (circuit_breaker b) s.

Definition incr_total_messages (s : Stats) : Stats :=
  mk_stats (total_messages s + 1) (successful_flushes s) (failed_flushes s)
           (retry_count s) (circuit_breaker_trips s).
Definition incr_successful_flushes (s : Stats) : Stats :=
  mk_stats (total_messages s) (successful_flushes s + 1) (failed_flushes s)
           (retry_count s) (circuit_breaker_trips s).
Definition incr_failed_flushes (s : Stats) : Stats :=
  mk_stats (total_messages s) (successful_flushes s) (failed_flushes s + 1)
           (retry_count s) (circuit_breaker_trips s).
Definition incr_circuit_breaker_trips (s : Stats) : Stats :=
  mk_stats (total_messages s) (successful_flushes s) (failed_flushes s)
           (retry_count s) (circuit_breaker_trips s + 1).

(** *** Coroutines of the buffer: the instance and its environment *)
Definition State : Type := t * World.t.
Definition M (A : Type) : Type := St State A.

Definition get_self : M t := fun s => (Ret (fst s), s).
Definition update_self (f : t -> t) : M unit := fun s => (Ret tt, (f (fst s), snd s)).
Definition in_world {A} (m : St World.t A) : M A :=
  lift snd (fun w s => (fst s, w)) m.

(** [async with self.lock: body].  [asyncio.Lock] is not reentrant:
    acquiring a held lock waits for its release, and the holder releases
    it only when [body] has finished. *)
Definition with_lock {A} (body : M A) : M A :=
  fun s =>
    if lock (fst s) then (Blocked, s)
    else
      match body (set_lock true (fst s), snd s) with
      | (Blocked, s') => (Blocked, s')
      | (r, s') => (r, (set_lock false (fst s'), snd s'))
      end.

(** *** The breaker, as the buffer calls it *)
Definition breaker_can_proceed : M bool :=
  fun s =>
    let '(r, cb) :=
      CircuitBreaker.can_proceed (World.now (snd s)) (circuit_breaker (fst s)) in
    (r, (set_circuit_breaker cb (fst s), snd s)).

Definition breaker_record_success : M unit :=
  update_self (fun b =>
    set_circuit_breaker (CircuitBreaker.record_success (circuit_breaker b)) b).

Definition breaker_record_failure : M unit :=
  let* now := in_world World.datetime_now in
  update_self (fun b =>
    set_circuit_breaker (CircuitBreaker.record_failure now (circuit_breaker b)) b).

(** *** _perform_bulk_insert (lines 72-102) *)
Definition chunk_size : nat := 5.

(** Lines 84-95: the collection handle, then one [insert_many] per slice
    [messages_to_flush[i:i + chunk_size]]. *)
Definition insert_chunks (messages_to_flush : list Message.t) : St World.t unit :=
  World.get_messages_collection ;;
  for_each (range_step (length messages_to_flush) chunk_size)
    (fun i => World.insert_many (take chunk_size (drop i messages_to_flush))).

(** The function under the decorator: one attempt. *)
Definition bulk_insert_attempt (messages_to_flush : list Message.t) : M bool :=
  let* ok := breaker_can_proceed in
  if negb ok then ret false
  else
    try_except
      (in_world (insert_chunks messages_to_flush) ;;
       breaker_record_success ;;
       ret true)
      (fun e =>
         breaker_record_failure ;;
         update_self (fun b => set_stats (incr_circuit_breaker_trips (stats b)) b) ;;
         raise e).

(** The exception tuple given to the decorator (line 74). *)
Definition transient (e : exn) : bool :=
  is_ConnectionFailure e || is_OperationFailure e
  || match e with ServerSelectionTimeoutError => true | _ => false end
  || match e with NetworkTimeout => true | _ => false end.

Definition _perform_bulk_insert (messages_to_flush : list Message.t) : M bool :=
  Backoff.on_exception (@in_world) transient 10
    (bulk_insert_attempt messages_to_flush) 2.

(** *** flush (lines 104-131) *)

(** Lines 121-123 and 126-129: count the failure, put the snapshot back. *)
Definition requeue (messages_to_flush : list Message.t) : M unit :=
  update_self (fun b => set_stats (incr_failed_flushes (stats b)) b) ;;
  update_self (fun b => set_messages (messages b ++ messages_to_flush) b).

Definition flush : M unit :=
  with_lock (
    let* self := get_self in
    match messages self with
    | [] => ret tt
    | _ :: _ =>
        let messages_to_flush := messages self in
        try_except
          (update_self (set_messages []) ;;
           let* success := _perform_bulk_insert messages_to_flush in
           if success then
             let* now := in_world World.datetime_now in
             update_self (set_last_flush now) ;;
             update_self (fun b => set_stats (incr_successful_flushes (stats b)) b)
           else requeue messages_to_flush)
          (fun _ =>
             requeue messages_to_flush ;;
             update_self (fun b => set_batch_size (Z.max 10 (batch_size b / 2)) b))
    end).

(** *** add_message (lines 63-70) *)
Definition add_message (message : Message.t) : M unit :=
  with_lock (
    update_self (fun b => set_messages (messages b ++ [message]) b) ;;
    update_self (fun b => set_stats (incr_total_messages (stats b)) b) ;;
    let* self := get_self in
    if batch_size self <=? Z.of_nat (length (messages self)) then flush
    else ret tt).

(** *** start_periodic_flush (lines 133-143) *)

(** One round of the [while True] body. *)
Definition periodic_round : M unit :=
  try_except
    (let* self := get_self in
     in_world (World.sleep (flush_interval self)) ;;
     let* ok := breaker_can_proceed in
     if ok then
       flush ;;
       let* self := get_self in
       if 5 <? successful_flushes (stats self) then
         update_self (fun b => set_batch_size (Z.min 50 (batch_size b + 5)) b)
       else ret tt
     else ret tt)
    (fun _ => ret tt).

(** The first [rounds] rounds of the loop, which has no exit. *)
Fixpoint start_periodic_flush (rounds : nat) : M unit :=
  match rounds with
  | O => ret tt
  | S rounds' => periodic_round ;; start_periodic_flush rounds'
  end.

(** *** get_stats (lines 145-154) *)
Record StatsView : Type := mk_view {
  view_stats : Stats;
  current_buffer_size : Z;
  current_batch_size : Z;
  view_last_flush : datetime;
  circuit_breaker_status : string;
  view_failure_count : Z
}.

Definition get_stats (self : t) : StatsView :=
  {| view_stats := stats self;
     current_buffer_size := Z.of_nat (length (messages self));
     current_batch_size := batch_size self;
     view_last_flush := last_flush self;
     circuit_breaker_status :=
       if CircuitBreaker.is_open (circuit_breaker self) then "open" else "closed";
     view_failure_count := CircuitBreaker.failure_count (circuit_breaker self) |}.

(** *** Callers of the buffer (main.py: send_message, lifespan) *)
Inductive call : Type :=
  | AddMessage (message : Message.t)
  | Flush
  | PeriodicRound.

Definition run_call (c : call) : M unit :=
  match c with
  | AddMessage message => add_message message
  | Flush => flush
  | PeriodicRound => periodic_round
  end.

(** The buffers the module-level instance can become: between two calls
    the environment is arbitrary. *)
Inductive reachable : t -> Prop :=
  | reachable_init (now : datetime) : reachable (message_buffer now)
  | reachable_call (b : t) (w : World.t) (c : call) :
      reachable b -> reachable (fst (snd (run_call c (b, w)))).

(** Successive [add_message] calls, one per element. *)
Fixpoint add_messages (l : list Message.t) : M unit :=
  match l with
  | [] => ret tt
  | m :: l' => add_message m ;; add_messages l'
  end.

End MessageBuffer.

(** ** bson.ObjectId *)

Definition is_hex_digit (a : ascii) : bool :=
  let n := Ascii.nat_of_ascii a in
  ((48 <=? n) && (n <=? 57) || (97 <=? n) && (n <=? 102)
   || (65 <=? n) && (n <=? 70))%nat.

Definition lower_ascii (a : ascii) : ascii :=
  let n := Ascii.nat_of_ascii a in
  if ((65 <=? n) && (n <=? 90))%nat then Ascii.ascii_of_nat (n + 32) else a.

(** ASCII whitespace as [bytes.fromhex] takes it: tab, line feed, vertical
    tab, form feed, carriage return and the blank. *)
Definition is_space (a : ascii) : bool :=
  let n := Ascii.nat_of_ascii a in
  ((9 <=? n) && (n <=? 13) || (n =? 32))%nat.

(** [bytes.fromhex(s)], the bytes written as [hexlify] prints them, two
    lower-case digits each.  Whitespace is skipped before a pair of digits
    and at the end, never inside a pair; any other character, and a digit
    without its second, is a [ValueError]. *)
Fixpoint fromhex (s : string) : option string :=
  match s with
  | EmptyString => Some EmptyString
  | String a s' =>
      if is_space a then fromhex s'
      else if is_hex_digit a then
        match s' with
        | EmptyString => None
        | String b s'' =>
            if is_hex_digit b then
              match fromhex s'' with
              | Some bytes =>
                  Some (String (lower_ascii a) (String (lower_ascii b) bytes))
              | None => None
              end
            else None
        end
      else None
  end.

(** [ObjectId(s)] for a [str]: a string of 24 characters that
    [bytes.fromhex] accepts, or [InvalidId].  An ObjectId is kept as the
    text [str(oid)] gives back, the bytes in lower-case hexadecimal, so
    that two spellings of one id are one key of a collection.  24 digits
    give 12 bytes; whitespace among the 24 characters gives fewer. *)
Definition ObjectId (s : string) : option string :=
  if (String.length s =? 24)%nat then fromhex s else None.

(** [str(e)]: fastapi's [HTTPException] prints as "status: detail"; the
    message of a library exception is represented by its class name. *)
Definition str_exn (e : exn) : string :=
  match e with
  | HTTPException status_code detail => pretty status_code +:+ ": " +:+ detail
  | ConnectionFailure => "ConnectionFailure"
  | AutoReconnect => "AutoReconnect"
  | ServerSelectionTimeoutError => "ServerSelectionTimeoutError"
  | NetworkTimeout => "NetworkTimeout"
  | NotPrimaryError => "NotPrimaryError"
  | OperationFailure => "OperationFailure"
  | BulkWriteError => "BulkWriteError"
  | WriteError => "WriteError"
  | DuplicateKeyError => "DuplicateKeyError"
  | ExecutionTimeout => "ExecutionTimeout"
  | WTimeoutError => "WTimeoutError"
  | InvalidOperation => "InvalidOperation"
  | InvalidDocument => "InvalidDocument"
  | DocumentTooLarge => "DocumentTooLarge"
  | ConnectionError => "Database not properly initialized"
  | TypeError => "TypeError"
  | KeyError => "KeyError"
  | InvalidId => "InvalidId"
  end.

(** ** Group documents (routes/group_routes.py, [create_group]) *)
Module Group.

Record t : Type := mk {
  name : string;
  member_ids : list string;
  created_by : string;
  created_at : datetime
}.

Definition set_member_ids (l : list string) (g : t) : t :=
  mk (name g) l (created_by g) (created_at g).

End Group.

(** ** The socket and HTTP handlers over the store *)
Module Server.

Inductive payload : Type :=
  | ReadReceipt (message_id : string) (read_by : list string)
  | GroupNotification (content : string) (group_id : string)
      (timestamp : datetime).

(** One [sio.emit(event, data, room=room)]. *)
Record emission : Type := mk_emission {
  event : string;
  data : payload;
  room : string
}.

Record t : Type := mk {
  world : World.t;
  messages_collection : gmap string Message.t;   (* by [_id] *)
  groups_collection : gmap string Group.t;       (* by [_id] *)
  sessions : gmap string (gmap string string);   (* by sid *)
  emitted : list emission                        (* oldest first *)
}.

Definition set_world (w : World.t) (s : t) : t :=
  mk w (messages_collection s) (groups_collection s) (sessions s) (emitted s).
Definition set_messages_collection (c : gmap string Message.t) (s : t) : t :=
  mk (world s) c (groups_collection s) (sessions s) (emitted s).
Definition set_groups_collection (c : gmap string Group.t) (s : t) : t :=
  mk (world s) (messages_collection s) c (sessions s) (emitted s).
Definition set_emitted (l : list emission) (s : t) : t :=
  mk (world s) (messages_collection s) (groups_collection s) (sessions s) l.

Definition in_world {A} (m : St World.t A) : St t A := lift world set_world m.

(** [await sio.get_session(sid)] *)
Definition get_session (sid : string) : St t (gmap string string) :=
  let* s := get in ret (default ∅ (sessions s !! sid)).

(** [await sio.emit(event, data, room=room)] *)
Definition emit (event : string) (data : payload) (room : string) : St t unit :=
  modify (fun s => set_emitted (emitted s ++ [mk_emission event data room]) s).

(** [d[key]] on a dict *)
Definition getitem {V} (d : gmap string V) (key : string) : St t V :=
  match d !! key with
  | Some v => ret v
  | None => raise KeyError
  end.

(** [ObjectId(s)] *)
Definition to_ObjectId (s : string) : St t string :=
  match ObjectId s with
  | Some oid => ret oid
  | None => raise InvalidId
  end.

(** MongoDB [$addToSet] on an array field. *)
Definition add_to_set (x : string) (l : list string) : list string :=
  if bool_decide (x ∈ l) then l else l ++ [x].

(** MongoDB [$pull] of a value from an array field. *)
Definition pull (x : string) (l : list string) : list string :=
  filter (fun y => y <> x) l.

Definition set_status_read_by (status : string) (read_by : list string)
    (m : Message.t) : Message.t :=
  Message.mk (Message.content m) (Message.type m) (Message.content_type m)
    (Message.from_user_id m) (Message.timestamp m) (Message.id m)
    status read_by (Message.deleted_for m)
    (Message.group_id m) (Message.to_user_id m).

(** [messages_collection.update_one({"_id": oid},
      {"$set": {"status": "read"}, "$addToSet": {"read_by": user_id}})] *)
Definition update_one_read (oid user_id : string) : St t unit :=
  in_world World.store_call ;;
  modify (fun s =>
    set_messages_collection
      (alter (fun m => set_status_read_by "read"
                         (add_to_set user_id (Message.read_by m)) m)
             oid (messages_collection s)) s).

(** [messages_collection.find_one({"_id": oid})] *)
Definition find_one_message (oid : string) : St t (option Message.t) :=
  in_world World.store_call ;;
  let* s := get in ret (messages_collection s !! oid).

(** [groups_collection.find_one({"_id": oid})] *)
Definition find_one_group (oid : string) : St t (option Group.t) :=
  in_world World.store_call ;;
  let* s := get in ret (groups_collection s !! oid).

(** [groups_collection.delete_one({"_id": oid})] *)
Definition delete_one_group (oid : string) : St t unit :=
  in_world World.store_call ;;
  modify (fun s => set_groups_collection (delete oid (groups_collection s)) s).

(** [messages_collection.delete_many({"type": "group", "to": group_id})]:
    the filter asks for a key "to", which no stored message dict has
    (they carry "group_id" or "to_user_id"), so nothing matches. *)
Definition delete_many_group_messages (group_id : string) : St t unit :=
  in_world World.store_call.

(** [groups_collection.update_one({"_id": oid},
      {"$pull": {"member_ids": user_id}})], giving [modified_count]. *)
Definition update_one_pull (oid user_id : string) : St t Z :=
  in_world World.store_call ;;
  let* s := get in
  match groups_collection s !! oid with
  | None => ret 0
  | Some g =>
      let members := pull user_id (Group.member_ids g) in
      if bool_decide (members = Group.member_ids g) then ret 0
      else
        modify (set_groups_collection
                  (<[oid := Group.set_member_ids members g]> (groups_collection s))) ;;
        ret 1
  end.

(** *** main.py, mark_read (lines 267-302) *)
Definition mark_read (sid : string) (data : gmap string string) : St t unit :=
  try_except
    (let* session := get_session sid in
     match session !! "user_id" with
     | None => ret tt
     | Some user_id =>
         in_world World.get_messages_collection ;;
         let* message_id := getitem data "message_id" in
         let* msg_id := to_ObjectId message_id in
         update_one_read msg_id user_id ;;
         let* found := find_one_message msg_id in
         match found with
         | None => ret tt
         | Some message =>
             let update := ReadReceipt msg_id (Message.read_by message) in
             if bool_decide (Message.type message = "group") then
               match Message.group_id message with
               | None => raise KeyError
               | Some gid => emit "message_update" update ("group_" +:+ gid)
               end
             else
               emit "message_update" update
                 ("user_" +:+ Message.from_user_id message)
         end
     end)
    (fun _ => ret tt).

(** *** group_routes.py, delete_group (lines 90-110) *)
Definition delete_group (group_id : string) : St t string :=
  try_except
    (in_world World.get_groups_collection ;;
     in_world World.get_messages_collection ;;
     let* group_oid := to_ObjectId group_id in
     let* group := find_one_group group_oid in
     match group with
     | None => raise (HTTPException 404 "Group not found")
     | Some _ =>
         delete_one_group group_oid ;;
         delete_many_group_messages group_id ;;
         ret "Group deleted successfully"
     end)
    (fun e => raise (HTTPException 500 (str_exn e))).

(** *** group_routes.py, remove_from_group (lines 112-167) *)
Record removal : Type := mk_removal {
  removal_group_id : string;
  removed_user_id : string;
  removed_by : string
}.

(** [if admin_id:] on an [Optional[str]] *)
Definition truthy (admin_id : option string) : option string :=
  match admin_id with
  | Some a => if bool_decide (a = "") then None else Some a
  | None => None
  end.

Definition remove_from_group (group_id user_id : string)
    (admin_id : option string) : St t removal :=
  try_except
    (in_world World.get_groups_collection ;;
     let* group_oid := to_ObjectId group_id in
     let* found := find_one_group group_oid in
     match found with
     | None => raise (HTTPException 404 "Group not found")
     | Some group =>
         if negb (bool_decide (user_id ∈ Group.member_ids group)) then
           raise (HTTPException 404 "User is not in this group")
         else
           let* admin_id :=
             match truthy admin_id with
             | Some a =>
                 if negb (bool_decide (a = Group.created_by group)) then
                   raise (HTTPException 403 "Only group creator can remove members")
                 else ret a
             | None =>
                 if bool_decide (user_id = Group.created_by group) then
                   raise (HTTPException 400
                     "Group creator cannot leave the group. Please delete the group instead.")
                 else ret user_id
             end in
           let* modified_count := update_one_pull group_oid user_id in
           if modified_count =? 0 then
             raise (HTTPException 400 "Failed to remove user from group")
           else
             let* now := in_world World.datetime_now in
             let notification :=
               GroupNotification
                 (if negb (bool_decide (admin_id = user_id))
                  then "User has been removed from the group '"
                         +:+ Group.name group +:+ "'"
                  else "User has left the group '" +:+ Group.name group +:+ "'")
                 group_id now in
             for_each (Group.member_ids group) (fun member_id =>
               if negb (bool_decide (member_id = user_id)) then
                 emit "notification" notification ("user_" +:+ member_id)
               else ret tt) ;;
             ret (mk_removal group_id user_id admin_id)
     end)
    (fun e => raise (HTTPException 500 (str_exn e))).

End Server.


(** ** database.py: connecting and closing *)
Module Database.

Definition max_retries : nat := 3.
Definition retry_delay : Z := 2.        (* seconds *)

(** [connect_db] (lines 174-188): the rounds of
    [for attempt in range(max_retries)] from [attempt] on, [left] of them.
    A round returns from the function when [init_db] returns; when it
    raises, the last round re-raises and the others sleep
    [retry_delay * (attempt + 1)] seconds and go on. *)
Fixpoint connect_db_from (attempt left : nat) : St World.t unit :=
  match left with
  | O => ret tt
  | S left' =>
      try_except World.init_db
        (fun e =>
           if (attempt =? max_retries - 1)%nat then raise e
           else
             World.sleep (retry_delay * Z.of_nat (attempt + 1) * usec_per_sec) ;;
             connect_db_from (S attempt) left')
  end.

Definition connect_db : St World.t unit := connect_db_from 0 max_retries.

(** [close_db] (lines 190-200).  The [client] global is set exactly when
    [is_initialized] is, outside of a running [init_db]. *)
Definition close_db : St World.t unit :=
  let* w := get in
  if World.is_initialized w then modify (World.set_is_initialized false)
  else ret tt.

End Database.

(** ** main.py: the socket handlers for sessions, rooms, edits and
    deletions *)
Module Chat.

(** The dicts these handlers emit. *)
Inductive payload : Type :=
  | Notice (message : string)               (* {"message": ...} *)
  | MessageEdit (message_id new_content : string) (edited_at : datetime)
  | MessageDeleted (message_id chat_type : string) (deleted_at : datetime)
  | MessageHidden (message_id : string).

Record emission : Type := mk_emission {
  event : string;
  data : payload;
  room : string
}.

Record t : Type := mk {
  server : Server.t;                      (* store, sessions *)
  rooms : gmap string (list string);      (* the rooms each sid is in *)
  sent : list emission                    (* oldest first *)
}.

Definition set_server (s : Server.t) (c : t) : t := mk s (rooms c) (sent c).
Definition set_rooms (r : gmap string (list string)) (c : t) : t :=
  mk (server c) r (sent c).
Definition set_sent (l : list emission) (c : t) : t := mk (server c) (rooms c) l.

Definition in_server {A} (m : St Server.t A) : St t A := lift server set_server m.

(** [await sio.emit(event, data, room=room)] *)
Definition emit (event : string) (data : payload) (room : string) : St t unit :=
  modify (fun c => set_sent (sent c ++ [mk_emission event data room]) c).

(** [await sio.save_session(sid, session)] *)
Definition save_session (sid : string) (session : gmap string string) : St t unit :=
  modify (fun c =>
    set_server
      (Server.mk (Server.world (server c))
         (Server.messages_collection (server c))
         (Server.groups_collection (server c))
         (<[sid := session]> (Server.sessions (server c)))
         (Server.emitted (server c))) c).

(** [sio.rooms(sid)] *)
Definition rooms_of (sid : string) (c : t) : list string :=
  default [] (rooms c !! sid).

(** [await sio.enter_room(sid, room)]: entering a room twice is entering it
    once. *)
Definition enter_room (sid room : string) : St t unit :=
  modify (fun c =>
    set_rooms (<[sid := Server.add_to_set room (rooms_of sid c)]> (rooms c)) c).

(** [await sio.leave_room(sid, room)] *)
Definition leave_room (sid room : string) : St t unit :=
  modify (fun c =>
    set_rooms (<[sid := filter (fun r => r <> room) (rooms_of sid c)]> (rooms c)) c).

(** *** connect (lines 84-107) *)
Definition connect (sid : string) (auth : option (gmap string string)) : St t bool :=
  try_except
    (match auth with
     | None => ret false
     | Some a =>
         match a !! "user_id" with
         | None => ret false
         | Some user_id =>
             save_session sid {[ "user_id" := user_id ]} ;;
             enter_room sid ("user_" +:+ user_id) ;;
             ret true
         end
     end)
    (fun _ => ret false).

(** *** disconnect (lines 110-119) *)
Definition disconnect (sid : string) : St t unit :=
  let* session := in_server (Server.get_session sid) in
  match session !! "user_id" with
  | None => ret tt
  | Some _ =>
      let* c := get in
      for_each (rooms_of sid c) (fun room => leave_room sid room)
  end.

(** *** join_group (lines 162-180) *)
Definition join_group (sid group_id : string) : St t unit :=
  try_except
    (let* session := in_server (Server.get_session sid) in
     match session !! "user_id" with
     | None => ret tt
     | Some user_id =>
         in_server (Server.in_world World.get_groups_collection) ;;
         let* oid := in_server (Server.to_ObjectId group_id) in
         let* found := in_server (Server.find_one_group oid) in
         match found with
         | None => ret tt
         | Some group =>
             if negb (bool_decide (user_id ∈ Group.member_ids group)) then ret tt
             else enter_room sid ("group_" +:+ group_id)
         end
     end)
    (fun _ => ret tt).

(** *** leave_group (lines 184-186) *)
Definition leave_group (sid group_id : string) : St t unit :=
  leave_room sid ("group_" +:+ group_id).

(** *** Store operations of edit_message and delete_message *)

Definition set_content (content : string) (m : Message.t) : Message.t :=
  Message.mk content (Message.type m) (Message.content_type m)
    (Message.from_user_id m) (Message.timestamp m) (Message.id m)
    (Message.status m) (Message.read_by m) (Message.deleted_for m)
    (Message.group_id m) (Message.to_user_id m).

Definition set_deleted_for (deleted_for : list string) (m : Message.t) : Message.t :=
  Message.mk (Message.content m) (Message.type m) (Message.content_type m)
    (Message.from_user_id m) (Message.timestamp m) (Message.id m)
    (Message.status m) (Message.read_by m) deleted_for
    (Message.group_id m) (Message.to_user_id m).

(** [messages_collection.update_one({"_id": oid},
      {"$set": {"content": new_content}})], giving [modified_count]: a
    document that already has the content is matched but not modified. *)
Definition update_one_content (oid new_content : string) : St Server.t Z :=
  Server.in_world World.store_call ;;
  let* s := get in
  match Server.messages_collection s !! oid with
  | None => ret 0
  | Some m =>
      if bool_decide (Message.content m = new_content) then ret 0
      else
        modify (Server.set_messages_collection
                  (<[oid := set_content new_content m]>
                     (Server.messages_collection s))) ;;
        ret 1
  end.

(** [messages_collection.delete_one({"_id": oid})] *)
Definition delete_one_message (oid : string) : St Server.t unit :=
  Server.in_world World.store_call ;;
  modify (fun s =>
    Server.set_messages_collection (delete oid (Server.messages_collection s)) s).

(** [messages_collection.update_one({"_id": oid},
      {"$addToSet": {"deleted_for": user_id}})] *)
Definition update_one_deleted_for (oid user_id : string) : St Server.t unit :=
  Server.in_world World.store_call ;;
  modify (fun s =>
    Server.set_messages_collection
      (alter (fun m => set_deleted_for
                         (Server.add_to_set user_id (Message.deleted_for m)) m)
             oid (Server.messages_collection s)) s).

(** [message[key]] for the routing keys, which a stored dict may lack. *)
Definition field (v : option string) : St t string :=
  match v with
  | Some x => ret x
  | None => raise KeyError
  end.

(** *** edit_message (lines 306-362) *)
Definition edit_message (sid : string) (data : gmap string string) : St t unit :=
  try_except
    (let* session := in_server (Server.get_session sid) in
     match session !! "user_id" with
     | None => emit "error" (Notice "Not authenticated") sid
     | Some user_id =>
         in_server (Server.in_world World.get_messages_collection) ;;
         let* message_id := in_server (Server.getitem data "message_id") in
         let* msg_id := in_server (Server.to_ObjectId message_id) in
         let* new_content := in_server (Server.getitem data "content") in
         let* found := in_server (Server.find_one_message msg_id) in
         match found with
         | None => emit "error" (Notice "Message not found") sid
         | Some message =>
             if negb (bool_decide (Message.from_user_id message = user_id)) then
               emit "error" (Notice "Not authorized to edit this message") sid
             else
               let* modified_count :=
                 in_server (update_one_content msg_id new_content) in
               if 0 <? modified_count then
                 let* now := in_server (Server.in_world World.datetime_now) in
                 let update := MessageEdit msg_id new_content now in
                 if bool_decide (Message.type message = "group") then
                   let* gid := field (Message.group_id message) in
                   emit "message_update" update ("group_" +:+ gid)
                 else
                   emit "message_update" update
                     ("user_" +:+ Message.from_user_id message) ;;
                   let* to := field (Message.to_user_id message) in
                   emit "message_update" update ("user_" +:+ to)
               else ret tt
         end
     end)
    (fun e => emit "error" (Notice (str_exn e)) sid).

(** *** delete_message (lines 366-430) *)
Definition delete_message (sid : string) (data : gmap string string) : St t unit :=
  try_except
    (let* session := in_server (Server.get_session sid) in
     match session !! "user_id" with
     | None => emit "error" (Notice "Not authenticated") sid
     | Some user_id =>
         in_server (Server.in_world World.get_messages_collection) ;;
         let* message_id := in_server (Server.getitem data "message_id") in
         let* msg_id := in_server (Server.to_ObjectId message_id) in
         let delete_for := default "everyone" (data !! "delete_for") in
         let* found := in_server (Server.find_one_message msg_id) in
         match found with
         | None => emit "error" (Notice "Message not found") sid
         | Some message =>
             if bool_decide (delete_for = "everyone") then
               if negb (bool_decide (Message.from_user_id message = user_id)) then
                 emit "error" (Notice "Not authorized to delete this message") sid
               else
                 in_server (delete_one_message msg_id) ;;
                 let* now := in_server (Server.in_world World.datetime_now) in
                 let notification :=
                   MessageDeleted msg_id (Message.type message) now in
                 (if bool_decide (Message.type message = "group") then
                    let* gid := field (Message.group_id message) in
                    emit "message_deleted" notification ("group_" +:+ gid)
                  else
                    let* other_user :=
                      if bool_decide (Message.from_user_id message = user_id)
                      then field (Message.to_user_id message)
                      else ret (Message.from_user_id message) in
                    emit "message_deleted" notification ("user_" +:+ other_user) ;;
                    emit "message_deleted" notification ("user_" +:+ user_id)) ;;
                 emit "success" (Notice "Message deleted successfully") sid
             else
               in_server (update_one_deleted_for msg_id user_id) ;;
               emit "message_deleted" (MessageHidden msg_id) ("user_" +:+ user_id) ;;
               emit "success" (Notice "Message deleted successfully") sid
         end
     end)
    (fun e => emit "error" (Notice (str_exn e)) sid).

End Chat.

(** ** group_routes.py: joining a group and listing one's groups *)
Module GroupRoutes.

(** [groups_collection.update_one({"_id": oid},
      {"$addToSet": {"member_ids": user_id}})] *)
Definition update_one_add_member (oid user_id : string) : St Server.t unit :=
  Server.in_world World.store_call ;;
  modify (fun s =>
    Server.set_groups_collection
      (alter (fun g => Group.set_member_ids
                         (Server.add_to_set user_id (Group.member_ids g)) g)
             oid (Server.groups_collection s)) s).

(** *** add_user_to_group (lines 15-27) *)
Definition add_user_to_group (group_id user_id : string) : St Server.t string :=
  try_except
    (Server.in_world World.get_groups_collection ;;
     let* oid := Server.to_ObjectId group_id in
     update_one_add_member oid user_id ;;
     ret "User added to group")
    (fun e => raise (HTTPException 500 (str_exn e))).

(** [groups_collection.find({"member_ids": user_id}).to_list(length=None)]:
    the stored groups that have the user among their members, each with its
    [_id]. *)
Definition find_groups_of (user_id : string) : St Server.t (list (string * Group.t)) :=
  Server.in_world World.store_call ;;
  let* s := get in
  ret (map_to_list
         (filter (fun kv => user_id ∈ Group.member_ids (snd kv))
                 (Server.groups_collection s))).

(** *** get_user_groups (lines 63-72) *)
Definition get_user_groups (user_id : string) : St Server.t (list (string * Group.t)) :=
  try_except
    (Server.in_world World.get_groups_collection ;;
     find_groups_of user_id)
    (fun e => raise (HTTPException 500 (str_exn e))).

End GroupRoutes.
(** * Sample inputs *)

(** A breaker that opened at instant 0 with seven failures counted. *)
Definition tripped_breaker : CircuitBreaker.t :=
  CircuitBreaker.mk 7 3 60 (Some 0) true.

(** * Auxiliary notions *)

(** What the executor may change in the buffer: the breaker and the counter
    "circuit_breaker_trips". *)
Definition executor_touch (cb : CircuitBreaker.t) (trips : Z)
    (b : MessageBuffer.t) : MessageBuffer.t :=
  MessageBuffer.mk (MessageBuffer.messages b) (MessageBuffer.batch_size b)
    (MessageBuffer.flush_interval b) (MessageBuffer.lock b)
    (MessageBuffer.last_flush b) (MessageBuffer.max_retries b) cb
    (MessageBuffer.mk_stats
       (MessageBuffer.total_messages (MessageBuffer.stats b))
       (MessageBuffer.successful_flushes (MessageBuffer.stats b))
       (MessageBuffer.failed_flushes (MessageBuffer.stats b))
       (MessageBuffer.retry_count (MessageBuffer.stats b))
       trips).

(** A sequence of calls on the buffer, each in an environment of its own. *)
Definition run_calls (cs : list (MessageBuffer.call * World.t))
    (b : MessageBuffer.t) : MessageBuffer.t :=
  fold_left (fun b cw => fst (snd (MessageBuffer.run_call (fst cw) (b, snd cw))))
    cs b.

(** The breaker as [MessageBuffer.__init__] sets it up, in any state. *)
Definition breaker_ok (cb : CircuitBreaker.t) : Prop :=
  CircuitBreaker.failure_threshold cb = 3
  /\ CircuitBreaker.reset_timeout cb = 60
  /\ CircuitBreaker.wf cb.

(** The interval the specification gives for [batch_size]. *)
Definition bounded (b : MessageBuffer.t) : Prop :=
  10 <= MessageBuffer.batch_size b <= 50.

(** A store whose scripted answers are all successes. *)
Definition calm (w : World.t) : Prop :=
  Forall (fun r => World.reply_error r = None) (World.replies w).

(** The stored message after a read receipt of [user_id]. *)
Definition marked_read (user_id : string) (m : Message.t) : Message.t :=
  Server.set_status_read_by "read"
    (Server.add_to_set user_id (Message.read_by m)) m.

(** The broadcast of a read receipt for the stored message [m]. *)
Definition receipt_emissions (oid : string) (m : Message.t) : list Server.emission :=
  let update := Server.ReadReceipt oid (Message.read_by m) in
  if bool_decide (Message.type m = "group") then
    match Message.group_id m with
    | Some gid => [Server.mk_emission "message_update" update ("group_" +:+ gid)]
    | None => []
    end
  else
    [Server.mk_emission "message_update" update
       ("user_" +:+ Message.from_user_id m)].

(** The notifications of a removal, one per remaining member. *)
Definition removal_notifications (n : Server.payload) (user_id : string)
    (members : list string) : list Server.emission :=
  map (fun member_id => Server.mk_emission "notification" n ("user_" +:+ member_id))
      (Server.pull user_id members).

(** The length of the pause before the second try, from the draw [u]. *)
Definition pause_length (max_time : Z) (start now : datetime) (waits : nat)
    (u : Z) : Z :=
  Z.max 0 (Z.min (Backoff.expo waits * Z.max 0 (Z.min usec_per_sec u))
                 (max_time * usec_per_sec - (now - start))).

(** The buffer's state after that pause. *)
Definition after_pause (max_time : Z) (start now : datetime) (waits : nat)
    (s : MessageBuffer.State) : MessageBuffer.State :=
  (fst s, snd (Backoff.pause max_time start now waits (snd s))).

(** The environment after the pause before the second try of the
    executor: the next draw is used up and the clock has moved by that
    fraction of one second, the first value of the exponential wait. *)
Definition paused (w : World.t) : World.t :=
  World.advance (Z.max 0 (Z.min usec_per_sec (fst (World.next_draw w))))
    (snd (World.next_draw w)).

(** * Sample inputs, continued *)

Definition sample_message (i : Z) : Message.t :=
  Message.mk "hello" "direct" "text" "alice" i "msg" "sent" [] [] None (Some "bob").

Definition nine_messages : list Message.t :=
  map sample_message [1; 2; 3; 4; 5; 6; 7; 8; 9].

Definition ten_messages : list Message.t := nine_messages ++ [sample_message 10].

(** An initialised database whose store answers every call at once. *)
Definition healthy_world : World.t := World.mk 0 true [] [] [].

(** A store that times out on the next two calls, after 3 s each. *)
Definition failing_world : World.t :=
  World.mk 0 true
    [World.mk_reply 3000000 (Some NetworkTimeout);
     World.mk_reply 3000000 (Some NetworkTimeout)]
    [500000] [].

(** A store whose next call times out after 11 s and which answers at once
    from then on. *)
Definition slow_failing_world : World.t :=
  World.mk 0 true [World.mk_reply 11000000 (Some NetworkTimeout)] [500000] [].

(** The module-level buffer holding ten records, as the scheduler finds it. *)
Definition ten_pending : MessageBuffer.t :=
  MessageBuffer.set_messages ten_messages (MessageBuffer.message_buffer 0).

(** The same buffer with its breaker open since instant 0. *)
Definition ten_pending_open : MessageBuffer.t :=
  MessageBuffer.set_circuit_breaker (CircuitBreaker.mk 3 3 60 (Some 0) true)
    ten_pending.

(** A direct and a group message, stored; a group of three created by
    alice; bob's session. *)
Definition direct_oid : string := "65a1b2c3d4e5f60718293a4b".
Definition group_message_oid : string := "65a1b2c3d4e5f60718293a4c".
Definition team_oid : string := "aaaaaaaaaaaaaaaaaaaaaaaa".

Definition direct_message : Message.t :=
  Message.mk "hello" "direct" "text" "alice" 5 "m1" "sent" [] [] None (Some "bob").

Definition group_message : Message.t :=
  Message.mk "hi all" "group" "text" "alice" 6 "m2" "sent" ["alice"] []
    (Some team_oid) None.

Definition team : Group.t := Group.mk "team" ["alice"; "bob"; "carol"] "alice" 0.

Definition sample_server : Server.t :=
  Server.mk healthy_world
    {[ direct_oid := direct_message; group_message_oid := group_message ]}
    {[ team_oid := team ]}
    {[ "sid_bob" := {[ "user_id" := "bob" ]} ]}
    [].

(** * Auxiliary notions for the executor and the scheduler *)

(** The slices [_perform_bulk_insert] hands to [insert_many], in order. *)
Definition chunks_of (msgs : list Message.t) : list (list Message.t) :=
  map (fun i => take MessageBuffer.chunk_size (drop i msgs))
      (range_step (length msgs) MessageBuffer.chunk_size).

(** Log entries of acknowledged [insert_many] calls. *)
Definition acknowledged (chunks : list (list Message.t))
    : list (list Message.t * option exn) :=
  map (fun c => (c, None)) chunks.

(** An initialised store that acknowledges one call, times out on the
    next and answers from then on. *)
Definition flaky_world : World.t :=
  World.mk 0 true
    [World.mk_reply 1000 None; World.mk_reply 3000000 (Some NetworkTimeout)]
    [500000] [].

(** The ten-record buffer with two failures already counted. *)
Definition ten_pending_two_failures : MessageBuffer.t :=
  MessageBuffer.set_circuit_breaker (CircuitBreaker.mk 2 3 60 (Some 0) false)
    ten_pending.

(** The module-level buffer after six successful flushes, nothing pending. *)
Definition rested_buffer : MessageBuffer.t :=
  MessageBuffer.set_stats (MessageBuffer.mk_stats 60 6 0 0 0)
    (MessageBuffer.message_buffer 0).

(** A database that is not initialised and whose server refuses three
    times. *)
Definition unreachable_world : World.t :=
  World.mk 0 false
    [World.mk_reply 20000000 (Some ServerSelectionTimeoutError);
     World.mk_reply 20000000 (Some ServerSelectionTimeoutError);
     World.mk_reply 20000000 (Some ConnectionFailure)]
    [] [].

(** The chat server around [sample_server]: bob's socket is in bob's room
    and in the room of the team. *)
Definition sample_chat : Chat.t :=
  Chat.mk sample_server
    {[ "sid_bob" := ["sid_bob"; "user_bob"; "group_" +:+ team_oid] ]} [].

(** [sample_chat] after alice has connected on a socket of her own. *)
Definition chat_with_alice : Chat.t :=
  snd (Chat.connect "sid_alice" (Some {[ "user_id" := "alice" ]}) sample_chat).

(** The stored message after [user_id] has hidden it for themselves. *)
Definition hidden_for (user_id : string) (m : Message.t) : Message.t :=
  Chat.set_deleted_for (Server.add_to_set user_id (Message.deleted_for m)) m.

(** The stored group after [user_id] has been added. *)
Definition joined_by (user_id : string) (g : Group.t) : Group.t :=
  Group.set_member_ids (Server.add_to_set user_id (Group.member_ids g)) g.

(** * Properties *)

(** ** Circuit breaker *)
Section BreakerFacts.
Import CircuitBreaker.

Lemma record_failure_count now cb :
  failure_count (record_failure now cb) = failure_count cb + 1.
Proof. reflexivity. Qed.

Lemma record_failure_open now cb :
  is_open (record_failure now cb)
  = (failure_threshold cb <=? failure_count cb + 1) || is_open cb.
Proof. unfold record_failure; simpl. now destruct (_ <=? _). Qed.

Lemma record_failure_wf now cb : wf (record_failure now cb).
Proof. intros _. discriminate. Qed.

Lemma record_success_wf cb : wf (record_success cb).
Proof. intros H. discriminate H. Qed.

Lemma init_wf th rt : wf (init th rt).
Proof. intros H. discriminate H. Qed.

Lemma can_proceed_closed now cb :
  is_open cb = false -> can_proceed now cb = (Ret true, cb).
Proof. intros H. unfold can_proceed. now rewrite H. Qed.

Lemma can_proceed_cooling now last cb :
  is_open cb = true -> last_failure_time cb = Some last ->
  now - last <= reset_timeout cb * usec_per_sec ->
  can_proceed now cb = (Ret false, cb).
Proof.
  intros Ho Hl Hle. unfold can_proceed, total_seconds_gt.
  rewrite Ho, Hl. simpl.
  destruct (Z.ltb_spec (reset_timeout cb * usec_per_sec) (now - last)); [lia | reflexivity].
Qed.

Lemma can_proceed_cooled now last cb :
  is_open cb = true -> last_failure_time cb = Some last ->
  reset_timeout cb * usec_per_sec < now - last ->
  can_proceed now cb
  = (Ret true, mk 0 (failure_threshold cb) (reset_timeout cb) (Some last) false).
Proof.
  intros Ho Hl Hlt. unfold can_proceed, total_seconds_gt.
  rewrite Ho, Hl. simpl.
  destruct (Z.ltb_spec (reset_timeout cb * usec_per_sec) (now - last)); [reflexivity | lia].
Qed.

Lemma can_proceed_wf now cb r cb' :
  wf cb -> can_proceed now cb = (r, cb') -> wf cb' /\ exists ok, r = Ret ok.
Proof.
  intros Hwf. unfold can_proceed.
  destruct (is_open cb) eqn:Ho; simpl.
  - destruct (last_failure_time cb) as [last|] eqn:Hl.
    + destruct (total_seconds_gt _ _ _); intros [= <- <-]; split; eauto.
      intros H; discriminate H.
    + now destruct (Hwf Ho).
  - intros [= <- <-]. split; eauto.
Qed.

(** Three failures in a row, from a breaker with no failure counted. *)
Lemma three_failures t1 t2 t3 cb :
  failure_threshold cb = 3 -> failure_count cb = 0 -> is_open cb = false ->
  is_open (record_failure t1 cb) = false
  /\ is_open (record_failure t2 (record_failure t1 cb)) = false
  /\ is_open (record_failure t3 (record_failure t2 (record_failure t1 cb))) = true.
Proof.
  intros Ht Hc Ho. rewrite !record_failure_open. simpl.
  rewrite Ht, Hc, Ho. repeat split; reflexivity.
Qed.

End BreakerFacts.

(** C3.  For a breaker with threshold 3 and a reset timeout of 60 s, as the
    buffer creates it: [record_failure] adds one to [failure_count] and the
    breaker is open afterwards as soon as the count has reached 3;
    [record_success] sets the count to 0 and closes the breaker; after a
    success the first and the second failure leave it closed and the third
    opens it; and an open breaker answers [can_proceed] with [False] as long
    as no more than 60 s have passed since the last failure, and with [True]
    once more than 60 s have passed, whatever the failure count. *)
Theorem breaker_opens_on_third_failure
    (cb : CircuitBreaker.t) (t1 t2 t3 now last : datetime) :
  CircuitBreaker.failure_threshold cb = 3 ->
  CircuitBreaker.reset_timeout cb = 60 ->
  (CircuitBreaker.failure_count (CircuitBreaker.record_failure now cb)
     = CircuitBreaker.failure_count cb + 1
   /\ (3 <= CircuitBreaker.failure_count cb + 1 ->
       CircuitBreaker.is_open (CircuitBreaker.record_failure now cb) = true)
   /\ (CircuitBreaker.failure_count cb + 1 < 3 ->
       CircuitBreaker.is_open (CircuitBreaker.record_failure now cb)
       = CircuitBreaker.is_open cb))
  /\ (CircuitBreaker.failure_count (CircuitBreaker.record_success cb) = 0
      /\ CircuitBreaker.is_open (CircuitBreaker.record_success cb) = false)
  /\ (let c0 := CircuitBreaker.record_success cb in
      let c1 := CircuitBreaker.record_failure t1 c0 in
      let c2 := CircuitBreaker.record_failure t2 c1 in
      let c3 := CircuitBreaker.record_failure t3 c2 in
      CircuitBreaker.is_open c1 = false /\ CircuitBreaker.is_open c2 = false
      /\ CircuitBreaker.is_open c3 = true
      /\ CircuitBreaker.failure_count c3 = 3)
  /\ (CircuitBreaker.is_open cb = true ->
      CircuitBreaker.last_failure_time cb = Some last ->
      (now - last <= 60 * usec_per_sec ->
       CircuitBreaker.can_proceed now cb = (Ret false, cb))
      /\ (60 * usec_per_sec < now - last ->
          fst (CircuitBreaker.can_proceed now cb) = Ret true)).
Proof.
  intros Ht Hr. repeat split.
  - intros H. rewrite record_failure_open, Ht.
    destruct (Z.leb_spec 3 (CircuitBreaker.failure_count cb + 1)); [reflexivity | lia].
  - intros H. rewrite record_failure_open, Ht.
    destruct (Z.leb_spec 3 (CircuitBreaker.failure_count cb + 1)); [lia | reflexivity].
  - apply (three_failures t1 t2 t3 (CircuitBreaker.record_success cb)); auto.
  - apply (three_failures t1 t2 t3 (CircuitBreaker.record_success cb)); auto.
  - apply (three_failures t1 t2 t3 (CircuitBreaker.record_success cb)); auto.
  - intros Hle. apply can_proceed_cooling with (last := last); auto. now rewrite Hr.
  - intros Hlt. rewrite can_proceed_cooled with (last := last); auto. now rewrite Hr.
Qed.

(** C9.  [can_proceed] changes the breaker: on an open breaker (threshold 3,
    timeout 60 s) whose last failure is more than 60 s old, one call
    returns [True], sets [failure_count] to 0 and clears [is_open], so the
    breaker differs from the one before the call; after it, one or two
    failures leave the breaker closed and only the third opens it again. *)
Theorem can_proceed_closes_breaker
    (cb : CircuitBreaker.t) (now last t1 t2 t3 : datetime) :
  CircuitBreaker.failure_threshold cb = 3 ->
  CircuitBreaker.reset_timeout cb = 60 ->
  CircuitBreaker.is_open cb = true ->
  CircuitBreaker.last_failure_time cb = Some last ->
  60 * usec_per_sec < now - last ->
  exists cb',
    CircuitBreaker.can_proceed now cb = (Ret true, cb')
    /\ cb' <> cb
    /\ CircuitBreaker.failure_count cb' = 0
    /\ CircuitBreaker.is_open cb' = false
    /\ CircuitBreaker.can_proceed now cb' = (Ret true, cb')
    /\ CircuitBreaker.is_open (CircuitBreaker.record_failure t1 cb') = false
    /\ CircuitBreaker.is_open
         (CircuitBreaker.record_failure t2 (CircuitBreaker.record_failure t1 cb'))
       = false
    /\ CircuitBreaker.is_open
         (CircuitBreaker.record_failure t3
            (CircuitBreaker.record_failure t2 (CircuitBreaker.record_failure t1 cb')))
       = true.
Proof.
  intros Ht Hr Ho Hl Hlt.
  eexists. split.
  - apply can_proceed_cooled with (last := last); auto. now rewrite Hr.
  - split; [intros E; rewrite <- E in Ho; discriminate Ho |].
    split; [reflexivity |]. split; [reflexivity |].
    split; [now apply can_proceed_closed |].
    apply three_failures; auto.
Qed.

Lemma breaker_opens_on_third_failure_witness :
  CircuitBreaker.failure_threshold tripped_breaker = 3
  /\ CircuitBreaker.reset_timeout tripped_breaker = 60
  /\ CircuitBreaker.can_proceed 60000000 tripped_breaker = (Ret false, tripped_breaker)
  /\ CircuitBreaker.is_open
       (CircuitBreaker.record_failure 3
          (CircuitBreaker.record_failure 2
             (CircuitBreaker.record_failure 1
                (CircuitBreaker.record_success tripped_breaker)))) = true.
Proof.
  split; [reflexivity |]. split; [reflexivity |].
  destruct (breaker_opens_on_third_failure tripped_breaker 1 2 3 60000000 0
              eq_refl eq_refl) as (_ & _ & H3 & H4).
  split.
  - apply (H4 eq_refl eq_refl). unfold usec_per_sec. lia.
  - apply H3.
Defined.

Lemma can_proceed_closes_breaker_witness :
  CircuitBreaker.is_open tripped_breaker = true
  /\ 60 * usec_per_sec < 60000001 - 0
  /\ exists cb',
       CircuitBreaker.can_proceed 60000001 tripped_breaker = (Ret true, cb')
       /\ CircuitBreaker.failure_count cb' = 0
       /\ CircuitBreaker.is_open cb' = false.
Proof.
  split; [reflexivity |]. split; [unfold usec_per_sec; lia |].
  destruct (can_proceed_closes_breaker tripped_breaker 60000001 0 1 2 3
              eq_refl eq_refl eq_refl eq_refl)
    as (cb' & H1 & _ & H3 & H4 & _).
  - unfold usec_per_sec. lia.
  - exists cb'. auto.
Defined.

(** ** The buffer's executor *)
Section ExecutorFacts.
Import MessageBuffer.

Lemma in_world_run {A} (m : St World.t A) (b : t) (w : World.t) :
  in_world m (b, w) = (fst (m w), (b, snd (m w))).
Proof. unfold in_world, lift. simpl. now destruct (m w). Qed.

(** What one attempt does, by the answer of the breaker and the outcome of
    the store calls. *)
Lemma bulk_insert_attempt_run msgs (b : t) (w : World.t) :
  bulk_insert_attempt msgs (b, w)
  = match CircuitBreaker.can_proceed (World.now w) (circuit_breaker b) with
    | (Ret true, cb) =>
        match insert_chunks msgs w with
        | (Ret _, w') =>
            (Ret true,
             (set_circuit_breaker (CircuitBreaker.record_success cb) b, w'))
        | (Raise e, w') =>
            (Raise e,
             (set_stats (incr_circuit_breaker_trips (stats b))
                (set_circuit_breaker
                   (CircuitBreaker.record_failure (World.now w') cb) b), w'))
        | (Blocked, w') => (Blocked, (set_circuit_breaker cb b, w'))
        end
    | (Ret false, cb) => (Ret false, (set_circuit_breaker cb b, w))
    | (Raise e, cb) => (Raise e, (set_circuit_breaker cb b, w))
    | (Blocked, cb) => (Blocked, (set_circuit_breaker cb b, w))
    end.
Proof.
  unfold bulk_insert_attempt, bind at 1, breaker_can_proceed. simpl.
  destruct (CircuitBreaker.can_proceed _ _) as [[[|]| |] cb]; try reflexivity.
  simpl. unfold try_except, bind. rewrite in_world_run. simpl.
  destruct (insert_chunks msgs w) as [[[]|e|] w']; reflexivity.
Qed.

(** Store calls return or raise. *)
Lemma store_call_not_blocked w : fst (World.store_call w) <> Blocked.
Proof.
  unfold World.store_call. destruct (World.next_reply w) as [r w'].
  destruct (World.reply_error r); discriminate.
Qed.

Lemma insert_many_not_blocked chunk w : fst (World.insert_many chunk w) <> Blocked.
Proof.
  unfold World.insert_many. destruct (World.next_reply w) as [r w'].
  destruct (World.reply_error r); discriminate.
Qed.

Lemma for_each_not_blocked {X B} (xs : list B) (body : B -> St X unit) :
  (forall x s, fst (body x s) <> Blocked) ->
  forall s, fst (for_each xs body s) <> Blocked.
Proof.
  intros Hb. induction xs as [|x xs IH]; intros s; simpl.
  - discriminate.
  - unfold bind. specialize (Hb x s).
    destruct (body x s) as [[u|e|] s']; simpl in *;
      [apply IH | discriminate | congruence].
Qed.

Lemma get_messages_collection_not_blocked w :
  fst (World.get_messages_collection w) <> Blocked.
Proof.
  unfold World.get_messages_collection, World.init_db, bind, get, ret,
    try_except, modify, raise.
  destruct (World.is_initialized w) eqn:Hi; simpl.
  - rewrite Hi. discriminate.
  - rewrite Hi. pose proof (store_call_not_blocked w) as Hs.
    destruct (World.store_call w) as [[u|e|] w']; simpl in *;
      try discriminate; congruence.
Qed.

Lemma insert_chunks_not_blocked msgs w : fst (insert_chunks msgs w) <> Blocked.
Proof.
  unfold insert_chunks, bind.
  pose proof (get_messages_collection_not_blocked w) as Hg.
  destruct (World.get_messages_collection w) as [[u|e|] w']; simpl in *;
    [| discriminate | congruence].
  apply for_each_not_blocked. intros i s. apply insert_many_not_blocked.
Qed.

End ExecutorFacts.

(** ** The retry decorator *)
Section RetryFacts.
Import MessageBuffer.
Context {A : Type}.
Variable retry_on : exn -> bool.
Variable max_time : Z.
Variable target : M A.

Lemma pause_returns start now waits w :
  fst (Backoff.pause max_time start now waits w) = Ret tt.
Proof.
  unfold Backoff.pause, Backoff.full_jitter, World.random_uniform, bind.
  now destruct (World.next_draw w).
Qed.

Lemma pause_world start now waits w :
  snd (Backoff.pause max_time start now waits w)
  = World.advance
      (pause_length max_time start now waits (fst (World.next_draw w)))
      (snd (World.next_draw w)).
Proof.
  unfold Backoff.pause, Backoff.full_jitter, World.random_uniform, bind.
  now destruct (World.next_draw w).
Qed.

Lemma pause_length_bounds start now waits u :
  0 <= pause_length max_time start now waits u
  /\ pause_length max_time start now waits u <= Backoff.expo waits * usec_per_sec
  /\ pause_length max_time start now waits u
     <= Z.max 0 (max_time * usec_per_sec - (now - start)).
Proof.
  unfold pause_length, Backoff.expo, usec_per_sec.
  assert (0 < 2 ^ Z.of_nat waits) by (apply Z.pow_pos_nonneg; lia).
  nia.
Qed.

(** With no try left, the call under the decorator is the result. *)
Lemma retry_loop_last start waits s :
  Backoff.retry_loop (@in_world) retry_on max_time target start waits 0 s
  = target s.
Proof.
  destruct s as [b w]. simpl. unfold bind at 1. rewrite in_world_run. simpl.
  unfold try_except. destruct (target (b, w)) as [[a|e|] s1]; try reflexivity.
  now destruct (retry_on e).
Qed.

(** With tries left, a caught exception leads to a pause and another round,
    unless [max_time] had passed when the failed call began. *)
Lemma retry_loop_step start waits left b w :
  Backoff.retry_loop (@in_world) retry_on max_time target start waits (S left) (b, w)
  = match target (b, w) with
    | (Raise e, s1) =>
        if retry_on e && negb (total_seconds_ge (World.now w) start max_time)
        then Backoff.retry_loop (@in_world) retry_on max_time target start
               (S waits) left (after_pause max_time start (World.now w) waits s1)
        else (Raise e, s1)
    | r => r
    end.
Proof.
  simpl. unfold bind at 1. rewrite in_world_run. simpl.
  unfold try_except. destruct (target (b, w)) as [[a|e|] [b1 w1]]; try reflexivity.
  destruct (retry_on e); simpl; [| reflexivity].
  destruct (total_seconds_ge (World.now w) start max_time); simpl; [reflexivity |].
  unfold bind at 1. rewrite in_world_run, pause_returns. reflexivity.
Qed.

End RetryFacts.

Section PerformBulkInsertFacts.
Import MessageBuffer.

(** The decorated call: one attempt, and after a transient failure a pause
    and one more attempt, whose outcome is the outcome of the call. *)
Lemma perform_bulk_insert_run msgs b w :
  _perform_bulk_insert msgs (b, w)
  = match bulk_insert_attempt msgs (b, w) with
    | (Raise e, s1) =>
        if transient e
        then bulk_insert_attempt msgs
               (after_pause 10 (World.now w) (World.now w) 0 s1)
        else (Raise e, s1)
    | r => r
    end.
Proof.
  unfold _perform_bulk_insert, Backoff.on_exception. unfold bind at 1.
  rewrite in_world_run.
  change (World.datetime_now w) with (Ret (World.now w), w).
  cbn [fst snd Nat.pred].
  rewrite retry_loop_step.
  destruct (bulk_insert_attempt msgs (b, w)) as [[a|e|] s1]; try reflexivity.
  replace (total_seconds_ge (World.now w) (World.now w) 10) with false.
  - rewrite andb_true_r. destruct (transient e); [| reflexivity].
    apply retry_loop_last.
  - unfold total_seconds_ge, usec_per_sec. rewrite Z.sub_diag. reflexivity.
Qed.

Lemma executor_touch_id b :
  executor_touch (circuit_breaker b) (circuit_breaker_trips (stats b)) b = b.
Proof. destruct b as [? ? ? ? ? ? ? []]. reflexivity. Qed.

Lemma bulk_insert_attempt_frame msgs b w r b' w' :
  bulk_insert_attempt msgs (b, w) = (r, (b', w')) ->
  exists cb n, b' = executor_touch cb n b.
Proof.
  rewrite bulk_insert_attempt_run.
  destruct (CircuitBreaker.can_proceed _ _) as [[[|]| |] cb].
  - destruct (insert_chunks msgs w) as [[[]|e|] w1]; intros [= <- <- <-].
    + exists (CircuitBreaker.record_success cb), (circuit_breaker_trips (stats b)).
      destruct b as [? ? ? ? ? ? ? []]; reflexivity.
    + eexists _, _. reflexivity.
    + exists cb, (circuit_breaker_trips (stats b)).
      destruct b as [? ? ? ? ? ? ? []]; reflexivity.
  - intros [= <- <- <-]. exists cb, (circuit_breaker_trips (stats b)).
    destruct b as [? ? ? ? ? ? ? []]; reflexivity.
  - intros [= <- <- <-]. exists cb, (circuit_breaker_trips (stats b)).
    destruct b as [? ? ? ? ? ? ? []]; reflexivity.
  - intros [= <- <- <-]. exists cb, (circuit_breaker_trips (stats b)).
    destruct b as [? ? ? ? ? ? ? []]; reflexivity.
Qed.

Lemma perform_bulk_insert_frame msgs b w r b' w' :
  _perform_bulk_insert msgs (b, w) = (r, (b', w')) ->
  exists cb n, b' = executor_touch cb n b.
Proof.
  rewrite perform_bulk_insert_run.
  destruct (bulk_insert_attempt msgs (b, w)) as [[a|e|] [b1 w1]] eqn:H1;
    try (intros [= <- <- <-]; eapply bulk_insert_attempt_frame; eassumption).
  apply bulk_insert_attempt_frame in H1 as (cb1 & n1 & ->).
  destruct (transient e).
  - unfold after_pause. cbn [fst snd]. intros H2.
    apply bulk_insert_attempt_frame in H2 as (cb2 & n2 & ->).
    exists cb2, n2. reflexivity.
  - intros [= <- <- <-]. eexists _, _. reflexivity.
Qed.

Lemma bulk_insert_attempt_not_blocked msgs s :
  fst (bulk_insert_attempt msgs s) <> Blocked.
Proof.
  destruct s as [b w]. rewrite bulk_insert_attempt_run.
  destruct (CircuitBreaker.can_proceed _ _) as [[[|]| |] cb] eqn:Hc;
    try discriminate.
  - pose proof (insert_chunks_not_blocked msgs w) as Hn.
    destruct (insert_chunks msgs w) as [[[]|e|] w1]; simpl in *;
      try discriminate; congruence.
  - exfalso. unfold CircuitBreaker.can_proceed in Hc.
    destruct (negb _); [discriminate |].
    destruct (CircuitBreaker.last_failure_time _); [| discriminate].
    destruct (total_seconds_gt _ _ _); discriminate.
Qed.

Lemma perform_bulk_insert_not_blocked msgs s :
  fst (_perform_bulk_insert msgs s) <> Blocked.
Proof.
  destruct s as [b w]. rewrite perform_bulk_insert_run.
  pose proof (bulk_insert_attempt_not_blocked msgs (b, w)) as H1.
  destruct (bulk_insert_attempt msgs (b, w)) as [[a|e|] s1]; simpl in *;
    try discriminate; try congruence.
  destruct (transient e); [apply bulk_insert_attempt_not_blocked | discriminate].
Qed.

End PerformBulkInsertFacts.

(** ** flush, add_message and the scheduler *)
Section FlushFacts.
Import MessageBuffer.

Lemma flush_locked b w : lock b = true -> flush (b, w) = (Blocked, (b, w)).
Proof. intros H. unfold flush, with_lock. simpl. now rewrite H. Qed.

Lemma flush_empty b w :
  lock b = false -> messages b = [] -> flush (b, w) = (Ret tt, (b, w)).
Proof.
  intros Hl Hm. unfold flush, with_lock. simpl. rewrite Hl.
  unfold bind, get_self. simpl. rewrite Hm. simpl.
  destruct b; simpl in *; subst; reflexivity.
Qed.

(** A flush of a non-empty buffer, by the outcome of the executor. *)
Lemma flush_run b w :
  lock b = false -> messages b <> [] ->
  flush (b, w)
  = match _perform_bulk_insert (messages b)
            (set_messages [] (set_lock true b), w) with
    | (Ret true, (b2, w2)) =>
        (Ret tt,
         (set_lock false
            (set_stats (incr_successful_flushes (stats b2))
               (set_last_flush (World.now w2) b2)), w2))
    | (Ret false, (b2, w2)) =>
        (Ret tt,
         (set_lock false
            (set_messages (messages b2 ++ messages b)
               (set_stats (incr_failed_flushes (stats b2)) b2)), w2))
    | (Raise _, (b2, w2)) =>
        (Ret tt,
         (set_lock false
            (set_batch_size (Z.max 10 (batch_size b2 / 2))
               (set_messages (messages b2 ++ messages b)
                  (set_stats (incr_failed_flushes (stats b2)) b2))), w2))
    | (Blocked, s2) => (Blocked, s2)
    end.
Proof.
  intros Hl Hm. unfold flush, with_lock. cbn [fst snd]. rewrite Hl.
  unfold bind at 1, get_self at 1. cbn [fst snd].
  change (messages (set_lock true b)) with (messages b).
  destruct (messages b) as [|m l] eqn:Em; [congruence |].
  unfold try_except, bind, update_self, requeue. cbn [fst snd].
  change (set_messages [] (set_lock true b)) with
    (set_lock true (set_messages [] b)).
  destruct (_perform_bulk_insert (m :: l) (set_lock true (set_messages [] b), w))
    as [[[|]|e|] [b2 w2]]; reflexivity.
Qed.

Lemma add_message_run m b w :
  lock b = false ->
  add_message m (b, w)
  = let b1 := set_stats (incr_total_messages (stats b))
                (set_messages (messages b ++ [m]) b) in
    if batch_size b <=? Z.of_nat (length (messages b ++ [m]))
    then (Blocked, (set_lock true b1, w))
    else (Ret tt, (b1, w)).
Proof.
  intros Hl. unfold add_message, with_lock. cbn [fst snd]. rewrite Hl.
  unfold bind, update_self, get_self. cbn [fst snd].
  change (batch_size (set_stats _ _)) with (batch_size b).
  change (messages (set_stats _ _)) with (messages b ++ [m]).
  destruct (batch_size b <=? _).
  - rewrite flush_locked by reflexivity. reflexivity.
  - cbn. destruct b; simpl in *; subst; reflexivity.
Qed.

Lemma add_message_locked m b w :
  lock b = true -> add_message m (b, w) = (Blocked, (b, w)).
Proof. intros H. unfold add_message, with_lock. simpl. now rewrite H. Qed.

End FlushFacts.

(** ** Claims on the write-behind buffer *)

(** C1.  On the module-level buffer ([batch_size] 10) with a healthy store,
    nine [add_message] calls return with nine records pending and no store
    call made.  The tenth call appends its record and awaits [flush] while it
    holds the buffer's lock; [flush] waits for that same lock, so the call
    never returns: ten records stay pending, the lock stays held and the
    store has received nothing.  A [flush] called with the lock free on the
    same ten records delivers them in two chunks of five and leaves the
    buffer empty. *)
Theorem add_message_at_batch_size_blocks :
  exists s9 s10,
    MessageBuffer.add_messages nine_messages
      (MessageBuffer.message_buffer 0, healthy_world) = (Ret tt, s9)
    /\ length (MessageBuffer.messages (fst s9)) = 9%nat
    /\ World.insert_log (snd s9) = []
    /\ MessageBuffer.add_message (sample_message 10) s9 = (Blocked, s10)
    /\ MessageBuffer.messages (fst s10) = ten_messages
    /\ MessageBuffer.lock (fst s10) = true
    /\ World.insert_log (snd s10) = []
    /\ MessageBuffer.successful_flushes (MessageBuffer.stats (fst s10)) = 0
    /\ (exists s', MessageBuffer.flush (ten_pending, healthy_world) = (Ret tt, s')
          /\ MessageBuffer.messages (fst s') = []
          /\ World.insert_log (snd s')
             = [(take 5 ten_messages, None); (drop 5 ten_messages, None)]).
Proof.
  eexists _, _. split; [vm_compute; reflexivity |].
  split; [reflexivity |]. split; [reflexivity |].
  split; [vm_compute; reflexivity |].
  split; [reflexivity |]. split; [reflexivity |]. split; [reflexivity |].
  split; [reflexivity |].
  eexists. split; [vm_compute; reflexivity |]. split; reflexivity.
Qed.

(** C2.  When the executor raises during a flush (lock free, records
    pending), the flush returns with every record of the snapshot pending
    again, in the same order, "failed_flushes" one higher, and
    [batch_size] set to [max(10, batch_size // 2)], which is at least 10. *)
Theorem flush_failure_requeues
    (b : MessageBuffer.t) (w : World.t) (e : exn)
    (b2 : MessageBuffer.t) (w2 : World.t) :
  MessageBuffer.lock b = false ->
  MessageBuffer.messages b <> [] ->
  MessageBuffer._perform_bulk_insert (MessageBuffer.messages b)
    (MessageBuffer.set_messages [] (MessageBuffer.set_lock true b), w)
  = (Raise e, (b2, w2)) ->
  exists b',
    MessageBuffer.flush (b, w) = (Ret tt, (b', w2))
    /\ MessageBuffer.messages b' = MessageBuffer.messages b
    /\ MessageBuffer.failed_flushes (MessageBuffer.stats b')
       = MessageBuffer.failed_flushes (MessageBuffer.stats b) + 1
    /\ MessageBuffer.successful_flushes (MessageBuffer.stats b')
       = MessageBuffer.successful_flushes (MessageBuffer.stats b)
    /\ MessageBuffer.batch_size b' = Z.max 10 (MessageBuffer.batch_size b / 2)
    /\ 10 <= MessageBuffer.batch_size b'
    /\ MessageBuffer.lock b' = false.
Proof.
  intros Hl Hm He. rewrite flush_run by assumption. rewrite He.
  apply perform_bulk_insert_frame in He as (cb & n & ->).
  eexists. split; [reflexivity |]. cbn.
  repeat split; lia.
Qed.

Lemma flush_failure_requeues_witness :
  MessageBuffer.lock ten_pending = false
  /\ exists b' w',
       MessageBuffer.flush (ten_pending, failing_world) = (Ret tt, (b', w'))
       /\ MessageBuffer.messages b' = ten_messages
       /\ MessageBuffer.failed_flushes (MessageBuffer.stats b') = 1
       /\ MessageBuffer.batch_size b' = 10.
Proof.
  split; [reflexivity |].
  destruct (flush_failure_requeues ten_pending failing_world NetworkTimeout
              (executor_touch (CircuitBreaker.mk 2 3 60 (Some 6500000) false) 2
                 (MessageBuffer.set_messages [] (MessageBuffer.set_lock true ten_pending)))
              (World.mk 6500000 true [] []
                 [(take 5 ten_messages, Some NetworkTimeout);
                  (take 5 ten_messages, Some NetworkTimeout)]))
    as (b' & H1 & H2 & H3 & _ & H5 & _).
  - reflexivity.
  - discriminate.
  - vm_compute. reflexivity.
  - exists b'. eexists. split; [exact H1 |]. split; [exact H2 |].
    split; [exact H3 |]. exact H5.
Defined.

(** A breaker that answers [False] is left as it is. *)
Lemma can_proceed_false now cb :
  fst (CircuitBreaker.can_proceed now cb) = Ret false ->
  CircuitBreaker.can_proceed now cb = (Ret false, cb).
Proof.
  unfold CircuitBreaker.can_proceed.
  destruct (negb _); [discriminate |].
  destruct (CircuitBreaker.last_failure_time cb); [| discriminate].
  destruct (total_seconds_gt _ _ _); [discriminate | reflexivity].
Qed.

Lemma set_circuit_breaker_id b :
  MessageBuffer.set_circuit_breaker (MessageBuffer.circuit_breaker b) b = b.
Proof. now destruct b. Qed.

(** C4.  While the breaker answers [can_proceed] with [False], the executor
    returns [False] at once and leaves the environment as it was: no store
    call, no clock advance, nothing logged.  A flush (lock free) then
    returns with the pending records as before, the breaker unchanged
    (its [failure_count] included) and [batch_size] unchanged; with records
    pending it counts one more failed flush. *)
Theorem flush_while_breaker_open (b : MessageBuffer.t) (w : World.t) :
  MessageBuffer.lock b = false ->
  fst (CircuitBreaker.can_proceed (World.now w) (MessageBuffer.circuit_breaker b))
  = Ret false ->
  (forall msgs b0,
      MessageBuffer.circuit_breaker b0 = MessageBuffer.circuit_breaker b ->
      MessageBuffer._perform_bulk_insert msgs (b0, w) = (Ret false, (b0, w)))
  /\ exists b',
       MessageBuffer.flush (b, w) = (Ret tt, (b', w))
       /\ MessageBuffer.messages b' = MessageBuffer.messages b
       /\ MessageBuffer.circuit_breaker b' = MessageBuffer.circuit_breaker b
       /\ MessageBuffer.batch_size b' = MessageBuffer.batch_size b
       /\ MessageBuffer.circuit_breaker_trips (MessageBuffer.stats b')
          = MessageBuffer.circuit_breaker_trips (MessageBuffer.stats b)
       /\ (MessageBuffer.messages b <> [] ->
           MessageBuffer.failed_flushes (MessageBuffer.stats b')
           = MessageBuffer.failed_flushes (MessageBuffer.stats b) + 1).
Proof.
  intros Hl Hc. apply can_proceed_false in Hc.
  assert (Hex : forall msgs b0,
      MessageBuffer.circuit_breaker b0 = MessageBuffer.circuit_breaker b ->
      MessageBuffer._perform_bulk_insert msgs (b0, w) = (Ret false, (b0, w))).
  { intros msgs b0 E. rewrite perform_bulk_insert_run, bulk_insert_attempt_run.
    rewrite E, Hc, <- E, set_circuit_breaker_id. reflexivity. }
  split; [exact Hex |].
  destruct (MessageBuffer.messages b) as [|m l] eqn:Em.
  - exists b. rewrite flush_empty by assumption. repeat split; try congruence.
  - rewrite flush_run by congruence. rewrite Hex by reflexivity.
    eexists. split; [reflexivity |]. cbn. rewrite Em.
    repeat split.
Qed.

Lemma flush_while_breaker_open_witness :
  MessageBuffer.lock ten_pending_open = false
  /\ fst (CircuitBreaker.can_proceed 0
            (MessageBuffer.circuit_breaker ten_pending_open)) = Ret false
  /\ exists b',
       MessageBuffer.flush (ten_pending_open, failing_world)
       = (Ret tt, (b', failing_world))
       /\ MessageBuffer.messages b' = ten_messages
       /\ MessageBuffer.circuit_breaker b'
          = MessageBuffer.circuit_breaker ten_pending_open.
Proof.
  split; [reflexivity |]. split; [reflexivity |].
  destruct (flush_while_breaker_open ten_pending_open failing_world
              eq_refl eq_refl) as (_ & b' & H1 & H2 & H3 & _).
  exists b'. split; [exact H1 |]. split; [exact H2 | exact H3].
Defined.

(** An attempt that raises has passed the breaker, failed in a store call
    and recorded the failure. *)
Lemma bulk_insert_attempt_raises msgs b w e b' w' :
  CircuitBreaker.wf (MessageBuffer.circuit_breaker b) ->
  MessageBuffer.bulk_insert_attempt msgs (b, w) = (Raise e, (b', w')) ->
  exists cb1,
    CircuitBreaker.can_proceed (World.now w) (MessageBuffer.circuit_breaker b)
    = (Ret true, cb1)
    /\ MessageBuffer.insert_chunks msgs w = (Raise e, w')
    /\ b' = MessageBuffer.set_stats
              (MessageBuffer.incr_circuit_breaker_trips (MessageBuffer.stats b))
              (MessageBuffer.set_circuit_breaker
                 (CircuitBreaker.record_failure (World.now w') cb1) b).
Proof.
  intros Hwf. rewrite bulk_insert_attempt_run.
  destruct (CircuitBreaker.can_proceed _ _) as [r cb] eqn:Hc.
  destruct (can_proceed_wf _ _ _ _ Hwf Hc) as (_ & ok & ->).
  destruct ok; [| discriminate].
  destruct (MessageBuffer.insert_chunks msgs w) as [[[]|e1|] w1]; try discriminate.
  intros [= <- <- <-]. exists cb. auto.
Qed.

(** ** The retry of the executor *)
Section RetryOnceFacts.
Import MessageBuffer.

Lemma paused_now w :
  World.now (paused w)
  = World.now w + Z.max 0 (Z.min usec_per_sec (fst (World.next_draw w))).
Proof. unfold paused, World.next_draw. destruct (World.draws w); reflexivity. Qed.

Lemma paused_frame w :
  World.replies (paused w) = World.replies w
  /\ World.insert_log (paused w) = World.insert_log w
  /\ World.is_initialized (paused w) = World.is_initialized w.
Proof.
  unfold paused, World.next_draw. destruct (World.draws w); repeat split.
Qed.

(** No time has passed on the decorator's clock when the first attempt
    begins, so the pause after it is the draw itself, whatever [max_time]
    of at least one second. *)
Lemma after_pause_paused max_time now s :
  1 <= max_time ->
  after_pause max_time now now 0 s = (fst s, paused (snd s)).
Proof.
  intros H. unfold after_pause. rewrite pause_world.
  unfold paused, pause_length. change (Backoff.expo 0) with 1.
  f_equal. f_equal. unfold usec_per_sec. lia.
Qed.

(** The decorator with two tries around one attempt. *)
Lemma on_exception_two_tries max_time msgs b w :
  1 <= max_time ->
  Backoff.on_exception (@in_world) transient max_time
    (bulk_insert_attempt msgs) 2 (b, w)
  = match bulk_insert_attempt msgs (b, w) with
    | (Raise e, (b1, w1)) =>
        if transient e then bulk_insert_attempt msgs (b1, paused w1)
        else (Raise e, (b1, w1))
    | r => r
    end.
Proof.
  intros H. unfold Backoff.on_exception. unfold bind at 1.
  rewrite in_world_run.
  change (World.datetime_now w) with (Ret (World.now w), w).
  cbn [fst snd Nat.pred].
  rewrite retry_loop_step.
  destruct (bulk_insert_attempt msgs (b, w)) as [[a|e|] [b1 w1]]; try reflexivity.
  replace (total_seconds_ge (World.now w) (World.now w) max_time) with false.
  - rewrite andb_true_r. destruct (transient e); [| reflexivity].
    rewrite retry_loop_last, after_pause_paused by assumption. reflexivity.
  - unfold total_seconds_ge, usec_per_sec. rewrite Z.sub_diag.
    symmetry. apply Z.leb_gt. lia.
Qed.

(** A closed breaker that a failure brings to its threshold refuses the
    attempt that follows the pause. *)
Lemma tripped_during_pause cb w1 :
  CircuitBreaker.is_open cb = false ->
  CircuitBreaker.failure_threshold cb <= CircuitBreaker.failure_count cb + 1 ->
  1 <= CircuitBreaker.reset_timeout cb ->
  CircuitBreaker.can_proceed (World.now (paused w1))
    (CircuitBreaker.record_failure (World.now w1) cb)
  = (Ret false, CircuitBreaker.record_failure (World.now w1) cb).
Proof.
  intros Ho Ht Hr. apply can_proceed_cooling with (last := World.now w1).
  - rewrite record_failure_open.
    destruct (Z.leb_spec (CircuitBreaker.failure_threshold cb)
                (CircuitBreaker.failure_count cb + 1)); [reflexivity | lia].
  - reflexivity.
  - rewrite paused_now. cbn. unfold usec_per_sec. lia.
Qed.

End RetryOnceFacts.

(** C5, the parts that fail.  A first attempt that times out after 11 s,
    past the 10 s given to the decorator, is still tried again: the store
    gets the first slice a second time and the call returns [True] at
    11.5 s.  And a failure that is not recovered need not be raised: with
    two failures counted, the failure of the first attempt opens the
    breaker, the second attempt is refused by it without a store call, and
    the call returns [False]. *)
Lemma retry_past_max_time_or_refused :
  (exists b',
     MessageBuffer._perform_bulk_insert ten_messages
       (ten_pending, slow_failing_world)
     = (Ret true,
        (b', World.mk 11500000 true [] []
               [(take 5 ten_messages, Some NetworkTimeout);
                (take 5 ten_messages, None);
                (drop 5 ten_messages, None)]))
     /\ CircuitBreaker.failure_count (MessageBuffer.circuit_breaker b') = 0
     /\ MessageBuffer.circuit_breaker_trips (MessageBuffer.stats b') = 1)
  /\ MessageBuffer.transient NetworkTimeout = true
  /\ exists b' w',
       fst (MessageBuffer.bulk_insert_attempt ten_messages
              (ten_pending_two_failures, failing_world))
       = Raise NetworkTimeout
       /\ MessageBuffer._perform_bulk_insert ten_messages
            (ten_pending_two_failures, failing_world)
          = (Ret false, (b', w'))
       /\ CircuitBreaker.is_open (MessageBuffer.circuit_breaker b') = true
       /\ CircuitBreaker.failure_count (MessageBuffer.circuit_breaker b') = 3
       /\ World.insert_log w' = [(take 5 ten_messages, Some NetworkTimeout)].
Proof.
  split; [| split; [reflexivity |]].
  - eexists. split; [vm_compute; reflexivity |]. split; reflexivity.
  - eexists _, _. split; [vm_compute; reflexivity |].
    split; [vm_compute; reflexivity |]. repeat split.
Qed.

(** C5, as the code has it.  [_perform_bulk_insert] is
    [bulk_insert_attempt] under the retry decorator: one attempt; an
    exception outside the [ConnectionFailure] and [OperationFailure]
    classes propagates at once; a transient one is followed by one pause,
    the next random draw as a fraction of one second (the first value of
    the exponential wait, with full jitter; the store is not touched), and
    by a second attempt whose outcome is the outcome of the call: there is
    no third attempt.  The 10 s of [max_time] decide nothing: the call is
    the same for every [max_time] of a second or more, since the decorator
    reads its clock before an attempt and not after it.  A call that raises
    has called [record_failure] at the instant of the failure, once or
    twice.  After a transient first failure on a closed breaker, the call
    returns [False] without a second store call when that failure brought
    the count to the threshold; below the threshold the second attempt
    reaches the store, and the call returns [True] with the count reset or
    raises with the count two higher. *)
Theorem bulk_insert_retried_once
    (msgs : list Message.t) (b : MessageBuffer.t) (w : World.t) :
  MessageBuffer._perform_bulk_insert msgs (b, w)
  = match MessageBuffer.bulk_insert_attempt msgs (b, w) with
    | (Raise e, (b1, w1)) =>
        if MessageBuffer.transient e
        then MessageBuffer.bulk_insert_attempt msgs (b1, paused w1)
        else (Raise e, (b1, w1))
    | r => r
    end
  /\ (forall max_time, 1 <= max_time ->
        Backoff.on_exception (@MessageBuffer.in_world) MessageBuffer.transient
          max_time (MessageBuffer.bulk_insert_attempt msgs) 2 (b, w)
        = MessageBuffer._perform_bulk_insert msgs (b, w))
  /\ (forall e, MessageBuffer.transient e
                = is_ConnectionFailure e || is_OperationFailure e)
  /\ (forall w1,
        World.now (paused w1)
        = World.now w1 + Z.max 0 (Z.min usec_per_sec (fst (World.next_draw w1)))
        /\ World.now w1 <= World.now (paused w1) <= World.now w1 + 1 * usec_per_sec
        /\ World.replies (paused w1) = World.replies w1
        /\ World.insert_log (paused w1) = World.insert_log w1
        /\ World.is_initialized (paused w1) = World.is_initialized w1)
  /\ (CircuitBreaker.wf (MessageBuffer.circuit_breaker b) ->
      forall e b' w',
        MessageBuffer._perform_bulk_insert msgs (b, w) = (Raise e, (b', w')) ->
        (exists cb1,
           MessageBuffer.circuit_breaker b'
           = CircuitBreaker.record_failure (World.now w') cb1)
        /\ (MessageBuffer.circuit_breaker_trips (MessageBuffer.stats b')
            = MessageBuffer.circuit_breaker_trips (MessageBuffer.stats b) + 1
            \/ MessageBuffer.circuit_breaker_trips (MessageBuffer.stats b')
               = MessageBuffer.circuit_breaker_trips (MessageBuffer.stats b) + 2))
  /\ (forall e b1 w1,
        MessageBuffer.bulk_insert_attempt msgs (b, w) = (Raise e, (b1, w1)) ->
        MessageBuffer.transient e = true ->
        CircuitBreaker.is_open (MessageBuffer.circuit_breaker b) = false ->
        CircuitBreaker.failure_threshold (MessageBuffer.circuit_breaker b)
        <= CircuitBreaker.failure_count (MessageBuffer.circuit_breaker b) + 1 ->
        1 <= CircuitBreaker.reset_timeout (MessageBuffer.circuit_breaker b) ->
        MessageBuffer._perform_bulk_insert msgs (b, w)
        = (Ret false, (b1, paused w1))
        /\ CircuitBreaker.is_open (MessageBuffer.circuit_breaker b1) = true
        /\ CircuitBreaker.failure_count (MessageBuffer.circuit_breaker b1)
           = CircuitBreaker.failure_count (MessageBuffer.circuit_breaker b) + 1
        /\ MessageBuffer.circuit_breaker_trips (MessageBuffer.stats b1)
           = MessageBuffer.circuit_breaker_trips (MessageBuffer.stats b) + 1)
  /\ (forall e b1 w1,
        MessageBuffer.bulk_insert_attempt msgs (b, w) = (Raise e, (b1, w1)) ->
        MessageBuffer.transient e = true ->
        CircuitBreaker.is_open (MessageBuffer.circuit_breaker b) = false ->
        CircuitBreaker.failure_count (MessageBuffer.circuit_breaker b) + 1
        < CircuitBreaker.failure_threshold (MessageBuffer.circuit_breaker b) ->
        (exists b2 w2,
           MessageBuffer.insert_chunks msgs (paused w1) = (Ret tt, w2)
           /\ MessageBuffer._perform_bulk_insert msgs (b, w) = (Ret true, (b2, w2))
           /\ CircuitBreaker.failure_count (MessageBuffer.circuit_breaker b2) = 0)
        \/ (exists e2 b2 w2,
              MessageBuffer.insert_chunks msgs (paused w1) = (Raise e2, w2)
              /\ MessageBuffer._perform_bulk_insert msgs (b, w)
                 = (Raise e2, (b2, w2))
              /\ CircuitBreaker.failure_count (MessageBuffer.circuit_breaker b2)
                 = CircuitBreaker.failure_count (MessageBuffer.circuit_breaker b) + 2)).
Proof.
  assert (Hrun : MessageBuffer._perform_bulk_insert msgs (b, w)
    = match MessageBuffer.bulk_insert_attempt msgs (b, w) with
      | (Raise e, (b1, w1)) =>
          if MessageBuffer.transient e
          then MessageBuffer.bulk_insert_attempt msgs (b1, paused w1)
          else (Raise e, (b1, w1))
      | r => r
      end).
  { unfold MessageBuffer._perform_bulk_insert.
    now rewrite on_exception_two_tries by lia. }
  split; [exact Hrun |]. split; [| split; [| split; [| split; [| split]]]].
  - intros max_time H. rewrite Hrun. now apply on_exception_two_tries.
  - intros e. now destruct e.
  - intros w1. rewrite paused_now.
    destruct (paused_frame w1) as (H1 & H2 & H3).
    repeat split; try assumption; unfold usec_per_sec; lia.
  - intros Hwf e b' w'. rewrite Hrun.
    destruct (MessageBuffer.bulk_insert_attempt msgs (b, w))
      as [[a|e1|] [b1 w1]] eqn:H1; try discriminate.
    apply bulk_insert_attempt_raises in H1 as (cb1 & _ & _ & ->); [| assumption].
    destruct (MessageBuffer.transient e1).
    + intros H2.
      apply bulk_insert_attempt_raises in H2 as (cb2 & _ & _ & ->).
      * split; [eexists; reflexivity |]. right. cbn. lia.
      * apply record_failure_wf.
    + intros [= <- <- <-]. split; [eexists; reflexivity |]. left. reflexivity.
  - intros e b1 w1 H1 He Ho Ht Hr. rewrite Hrun, H1, He.
    apply bulk_insert_attempt_raises in H1 as (cb1 & Hc & _ & ->);
      [| intros Hopen; congruence].
    rewrite can_proceed_closed in Hc by assumption. injection Hc as <-.
    rewrite bulk_insert_attempt_run.
    cbn [MessageBuffer.circuit_breaker MessageBuffer.set_stats
         MessageBuffer.set_circuit_breaker].
    rewrite tripped_during_pause by assumption.
    split; [| split; [| split]].
    + reflexivity.
    + cbn [MessageBuffer.circuit_breaker MessageBuffer.set_stats
           MessageBuffer.set_circuit_breaker].
      rewrite record_failure_open.
      destruct (Z.leb_spec
                  (CircuitBreaker.failure_threshold (MessageBuffer.circuit_breaker b))
                  (CircuitBreaker.failure_count (MessageBuffer.circuit_breaker b) + 1));
        [reflexivity | lia].
    + reflexivity.
    + reflexivity.
  - intros e b1 w1 H1 He Ho Ht. rewrite Hrun, H1, He.
    apply bulk_insert_attempt_raises in H1 as (cb1 & Hc & _ & ->);
      [| intros Hopen; congruence].
    rewrite can_proceed_closed in Hc by assumption. injection Hc as <-.
    rewrite bulk_insert_attempt_run.
    cbn [MessageBuffer.circuit_breaker MessageBuffer.set_stats
         MessageBuffer.set_circuit_breaker].
    rewrite can_proceed_closed.
    + pose proof (insert_chunks_not_blocked msgs (paused w1)) as Hn.
      destruct (MessageBuffer.insert_chunks msgs (paused w1))
        as [[[]|e2|] w2]; cbn [fst] in Hn; [| | congruence].
      * left. eexists _, _. split; [reflexivity |]. split; reflexivity.
      * right. eexists _, _, _. split; [reflexivity |].
        split; [reflexivity |]. cbn. lia.
    + rewrite record_failure_open, Ho.
      destruct (Z.leb_spec
                  (CircuitBreaker.failure_threshold (MessageBuffer.circuit_breaker b))
                  (CircuitBreaker.failure_count (MessageBuffer.circuit_breaker b) + 1));
        [lia | reflexivity].
Qed.

Lemma bulk_insert_retried_once_witness :
  (exists e b' w',
     MessageBuffer._perform_bulk_insert ten_messages (ten_pending, failing_world)
     = (Raise e, (b', w'))
     /\ CircuitBreaker.failure_count (MessageBuffer.circuit_breaker b') = 2
     /\ World.insert_log w'
        = [(take 5 ten_messages, Some NetworkTimeout);
           (take 5 ten_messages, Some NetworkTimeout)])
  /\ exists b' w',
       MessageBuffer._perform_bulk_insert ten_messages
         (ten_pending_two_failures, failing_world)
       = (Ret false, (b', w'))
       /\ CircuitBreaker.is_open (MessageBuffer.circuit_breaker b') = true.
Proof.
  split.
  - destruct (bulk_insert_retried_once ten_messages ten_pending failing_world)
      as (_ & _ & _ & _ & _ & _ & H).
    destruct (MessageBuffer.bulk_insert_attempt ten_messages
                (ten_pending, failing_world)) as [r [b1 w1]] eqn:E.
    vm_compute in E. injection E as <- <- <-.
    destruct (H NetworkTimeout _ _ eq_refl eq_refl eq_refl)
      as [(b2 & w2 & Hi & _) | (e2 & b2 & w2 & Hi & Hc & Hn)].
    + cbn. lia.
    + vm_compute in Hi. discriminate Hi.
    + vm_compute in Hi. injection Hi as <- <-.
      exists NetworkTimeout, b2. eexists. split; [exact Hc |].
      split; [exact Hn | reflexivity].
  - destruct (bulk_insert_retried_once ten_messages ten_pending_two_failures
                failing_world) as (_ & _ & _ & _ & _ & H & _).
    destruct (MessageBuffer.bulk_insert_attempt ten_messages
                (ten_pending_two_failures, failing_world)) as [r [b1 w1]] eqn:E.
    vm_compute in E. injection E as <- <- <-.
    destruct (H NetworkTimeout _ _ eq_refl eq_refl eq_refl)
      as (Hc & Ho & _).
    + cbn. lia.
    + cbn. lia.
    + eexists _, _. split; [exact Hc | exact Ho].
Defined.

(** C10.  Each attempt that raises adds one to the breaker's
    [failure_count] (as the breaker's own [can_proceed] left it) and one to
    the counter "circuit_breaker_trips", also when the retry then succeeds:
    the counter keeps that failure.  A flush on a closed breaker (threshold
    3) whose first attempt fails with a transient error and whose second
    attempt fails too leaves [failure_count] two higher and
    "circuit_breaker_trips" two higher, for one failed flush; the breaker is
    open afterwards exactly if the count has reached 3. *)
Theorem failed_attempts_are_counted
    (msgs : list Message.t) (b : MessageBuffer.t) (w : World.t) :
  CircuitBreaker.wf (MessageBuffer.circuit_breaker b) ->
  (forall e b' w',
      MessageBuffer.bulk_insert_attempt msgs (b, w) = (Raise e, (b', w')) ->
      exists cb1,
        CircuitBreaker.can_proceed (World.now w) (MessageBuffer.circuit_breaker b)
        = (Ret true, cb1)
        /\ (CircuitBreaker.is_open (MessageBuffer.circuit_breaker b) = false ->
            cb1 = MessageBuffer.circuit_breaker b)
        /\ CircuitBreaker.failure_count (MessageBuffer.circuit_breaker b')
           = CircuitBreaker.failure_count cb1 + 1
        /\ MessageBuffer.circuit_breaker_trips (MessageBuffer.stats b')
           = MessageBuffer.circuit_breaker_trips (MessageBuffer.stats b) + 1)
  /\ (forall e s1 b' w',
        MessageBuffer.bulk_insert_attempt msgs (b, w) = (Raise e, s1) ->
        MessageBuffer.transient e = true ->
        MessageBuffer.bulk_insert_attempt msgs
          (after_pause 10 (World.now w) (World.now w) 0 s1) = (Ret true, (b', w')) ->
        MessageBuffer._perform_bulk_insert msgs (b, w) = (Ret true, (b', w'))
        /\ MessageBuffer.circuit_breaker_trips (MessageBuffer.stats b')
           = MessageBuffer.circuit_breaker_trips (MessageBuffer.stats b) + 1)
  /\ (forall e1 s1 e2 s2,
        MessageBuffer.lock b = false ->
        msgs = MessageBuffer.messages b ->
        msgs <> [] ->
        CircuitBreaker.is_open (MessageBuffer.circuit_breaker b) = false ->
        CircuitBreaker.failure_threshold (MessageBuffer.circuit_breaker b) = 3 ->
        CircuitBreaker.failure_count (MessageBuffer.circuit_breaker b) + 1 < 3 ->
        MessageBuffer.bulk_insert_attempt msgs
          (MessageBuffer.set_messages [] (MessageBuffer.set_lock true b), w)
        = (Raise e1, s1) ->
        MessageBuffer.transient e1 = true ->
        MessageBuffer.bulk_insert_attempt msgs
          (after_pause 10 (World.now w) (World.now w) 0 s1) = (Raise e2, s2) ->
        exists b',
          MessageBuffer.flush (b, w) = (Ret tt, (b', snd s2))
          /\ CircuitBreaker.failure_count (MessageBuffer.circuit_breaker b')
             = CircuitBreaker.failure_count (MessageBuffer.circuit_breaker b) + 2
          /\ MessageBuffer.circuit_breaker_trips (MessageBuffer.stats b')
             = MessageBuffer.circuit_breaker_trips (MessageBuffer.stats b) + 2
          /\ MessageBuffer.failed_flushes (MessageBuffer.stats b')
             = MessageBuffer.failed_flushes (MessageBuffer.stats b) + 1
          /\ CircuitBreaker.is_open (MessageBuffer.circuit_breaker b')
             = (3 <=? CircuitBreaker.failure_count
                        (MessageBuffer.circuit_breaker b) + 2)).
Proof.
  intros Hwf. split; [| split].
  - intros e b' w' H.
    apply bulk_insert_attempt_raises in H as (cb1 & Hc & _ & ->); [| assumption].
    exists cb1. split; [exact Hc |]. split; [| split; reflexivity].
    intros Ho. rewrite can_proceed_closed in Hc by assumption. congruence.
  - intros e [b1 w1] b' w' H1 He H2.
    rewrite perform_bulk_insert_run, H1, He. split; [exact H2 |].
    apply bulk_insert_attempt_raises in H1 as (cb1 & _ & _ & ->); [| assumption].
    unfold after_pause in H2. cbn [fst snd] in H2.
    rewrite bulk_insert_attempt_run in H2.
    destruct (CircuitBreaker.can_proceed _ _) as [[[|]| |] cb2]; try discriminate.
    destruct (MessageBuffer.insert_chunks msgs _) as [[[]|e'|] w2]; try discriminate.
    injection H2 as <- <-. reflexivity.
  - intros e1 [b1 w1] e2 [b2 w2] Hl -> Hm Ho Ht Hc H1 He H2.
    rewrite flush_run by assumption.
    rewrite perform_bulk_insert_run, H1, He, H2.
    eexists. split; [reflexivity |].
    apply bulk_insert_attempt_raises in H1 as (cb1 & Hc1 & _ & ->);
      [| exact Hwf].
    cbn [MessageBuffer.circuit_breaker MessageBuffer.set_messages
         MessageBuffer.set_lock] in Hc1.
    rewrite can_proceed_closed in Hc1 by assumption.
    injection Hc1 as <-.
    unfold after_pause in H2. cbn [fst snd] in H2.
    apply bulk_insert_attempt_raises in H2 as (cb2 & Hc2 & _ & ->);
      [| apply record_failure_wf].
    cbn [MessageBuffer.circuit_breaker MessageBuffer.set_messages
         MessageBuffer.set_lock MessageBuffer.set_stats
         MessageBuffer.set_circuit_breaker] in Hc2.
    rewrite can_proceed_closed in Hc2.
    + injection Hc2 as <-. cbn.
      rewrite Ht, Ho.
      destruct (Z.leb_spec 3 (CircuitBreaker.failure_count
                                (MessageBuffer.circuit_breaker b) + 1)); [lia |].
      replace (CircuitBreaker.failure_count (MessageBuffer.circuit_breaker b) + 1 + 1)
        with (CircuitBreaker.failure_count (MessageBuffer.circuit_breaker b) + 2)
        by lia.
      repeat split; try lia.
      now destruct (3 <=? _).
    + rewrite record_failure_open, Ho, Ht.
      destruct (Z.leb_spec 3 (CircuitBreaker.failure_count
                                (MessageBuffer.circuit_breaker b) + 1)); [lia | reflexivity].
Qed.

Lemma failed_attempts_are_counted_witness :
  CircuitBreaker.wf (MessageBuffer.circuit_breaker ten_pending)
  /\ exists b' w',
       MessageBuffer.flush (ten_pending, failing_world) = (Ret tt, (b', w'))
       /\ CircuitBreaker.failure_count (MessageBuffer.circuit_breaker b') = 2
       /\ MessageBuffer.circuit_breaker_trips (MessageBuffer.stats b') = 2
       /\ CircuitBreaker.is_open (MessageBuffer.circuit_breaker b') = false.
Proof.
  assert (Hwf : CircuitBreaker.wf (MessageBuffer.circuit_breaker ten_pending))
    by (intros H; discriminate H).
  split; [exact Hwf |].
  destruct (failed_attempts_are_counted ten_messages ten_pending failing_world Hwf)
    as (_ & _ & H3).
  edestruct H3 as (b' & Hf & Hc & Ht & _ & Ho).
  - reflexivity.
  - reflexivity.
  - discriminate.
  - reflexivity.
  - reflexivity.
  - vm_compute. reflexivity.
  - vm_compute. reflexivity.
  - reflexivity.
  - vm_compute. reflexivity.
  - exists b'. eexists. split; [exact Hf |]. split; [exact Hc |].
    split; [exact Ht | exact Ho].
Defined.

(** ** The bounds of batch_size *)
Section BatchSizeFacts.
Import MessageBuffer.

Lemma flush_batch_size b w :
  let b' := fst (snd (flush (b, w))) in
  batch_size b' = batch_size b
  \/ batch_size b' = Z.max 10 (batch_size b / 2).
Proof.
  destruct (lock b) eqn:Hl.
  - rewrite flush_locked by assumption. now left.
  - destruct (messages b) as [|m l] eqn:Em.
    + rewrite flush_empty by assumption. now left.
    + rewrite flush_run by congruence.
      destruct (_perform_bulk_insert _ _) as [r [b2 w2]] eqn:He.
      apply perform_bulk_insert_frame in He as (cb & n & ->).
      destruct r as [[|]|e|]; cbn; auto.
Qed.

Lemma flush_bounded b w : bounded b -> bounded (fst (snd (flush (b, w)))).
Proof.
  unfold bounded. intros Hb.
  destruct (flush_batch_size b w) as [E|E]; rewrite E; [assumption |].
  assert (batch_size b / 2 <= 50) by (apply Z.div_le_upper_bound; lia).
  lia.
Qed.

Lemma add_message_bounded m b w :
  bounded b -> bounded (fst (snd (add_message m (b, w)))).
Proof.
  unfold bounded. intros Hb. destruct (lock b) eqn:Hl.
  - now rewrite add_message_locked.
  - rewrite add_message_run by assumption. cbv zeta.
    destruct (batch_size b <=? _); exact Hb.
Qed.

(** One round of the scheduler, by the answer of the breaker and the
    outcome of the flush. *)
Lemma periodic_round_run b w :
  periodic_round (b, w)
  = let w1 := World.advance (Z.max 0 (flush_interval b)) w in
    match CircuitBreaker.can_proceed (World.now w1) (circuit_breaker b) with
    | (Ret true, cb) =>
        match flush (set_circuit_breaker cb b, w1) with
        | (Ret _, (b2, w2)) =>
            (Ret tt,
             (if 5 <? successful_flushes (stats b2)
              then set_batch_size (Z.min 50 (batch_size b2 + 5)) b2
              else b2, w2))
        | (Raise _, s2) => (Ret tt, s2)
        | (Blocked, s2) => (Blocked, s2)
        end
    | (Ret false, cb) => (Ret tt, (set_circuit_breaker cb b, w1))
    | (Raise _, cb) => (Ret tt, (set_circuit_breaker cb b, w1))
    | (Blocked, cb) => (Blocked, (set_circuit_breaker cb b, w1))
    end.
Proof.
  unfold periodic_round, try_except. unfold bind at 1, get_self at 1.
  cbn [fst snd]. unfold bind at 1. rewrite in_world_run.
  unfold World.sleep, modify. cbn [fst snd].
  unfold bind at 1, breaker_can_proceed at 1. cbn [fst snd].
  destruct (CircuitBreaker.can_proceed _ _) as [[[|]|e|] cb]; try reflexivity.
  unfold bind at 1.
  destruct (flush _) as [[[]|e|] [b2 w2]]; try reflexivity.
  unfold bind, get_self, update_self, ret. cbn [fst snd].
  now destruct (5 <? _).
Qed.

Lemma periodic_round_bounded b w :
  bounded b -> bounded (fst (snd (periodic_round (b, w)))).
Proof.
  intros Hb. rewrite periodic_round_run. cbv zeta.
  destruct (CircuitBreaker.can_proceed _ _) as [[[|]|e|] cb]; try exact Hb.
  pose proof (flush_bounded (set_circuit_breaker cb b)
                (World.advance (Z.max 0 (flush_interval b)) w) Hb) as Hf.
  destruct (flush _) as [[[]|e|] [b2 w2]]; cbn [fst snd] in *; try exact Hf.
  destruct (5 <? _); [| exact Hf].
  unfold bounded in *. cbn. lia.
Qed.

End BatchSizeFacts.

(** C6.  The module-level buffer starts with [batch_size] 10, and after any
    sequence of [add_message], [flush] and scheduler rounds, whatever the
    store, the clock and the breaker do in between and however the flushes
    end, [batch_size] is at least 10 and at most 50. *)
Theorem batch_size_within_bounds (b : MessageBuffer.t) :
  MessageBuffer.reachable b ->
  10 <= MessageBuffer.batch_size b <= 50.
Proof.
  intros H. change (bounded b). induction H as [now | b w c _ IH].
  - unfold bounded. cbn. lia.
  - destruct c as [m | |]; cbn [MessageBuffer.run_call].
    + now apply add_message_bounded.
    + now apply flush_bounded.
    + now apply periodic_round_bounded.
Qed.

Lemma reachable_run_calls cs b :
  MessageBuffer.reachable b -> MessageBuffer.reachable (run_calls cs b).
Proof.
  revert b. induction cs as [|[c w] cs IH]; intros b Hb; simpl.
  - exact Hb.
  - apply IH. now apply MessageBuffer.reachable_call.
Qed.

Lemma batch_size_within_bounds_witness :
  10 <= MessageBuffer.batch_size
          (run_calls
             [(MessageBuffer.AddMessage (sample_message 1), healthy_world);
              (MessageBuffer.Flush, failing_world);
              (MessageBuffer.PeriodicRound, healthy_world)]
             (MessageBuffer.message_buffer 0)) <= 50.
Proof.
  apply batch_size_within_bounds.
  apply reachable_run_calls.
  apply MessageBuffer.reachable_init.
Defined.

(** ** What holds of every buffer the program can reach *)
Section ReachableFacts.
Import MessageBuffer.

Lemma can_proceed_ok now cb r cb' :
  breaker_ok cb -> CircuitBreaker.can_proceed now cb = (r, cb') -> breaker_ok cb'.
Proof.
  intros (Ht & Hr & Hwf) H. destruct (can_proceed_wf _ _ _ _ Hwf H) as (Hwf' & _).
  unfold CircuitBreaker.can_proceed in H.
  destruct (negb _); [injection H as <- <-; now repeat split |].
  destruct (CircuitBreaker.last_failure_time cb);
    [| injection H as <- <-; now repeat split].
  destruct (total_seconds_gt _ _ _); injection H as <- <-; now repeat split.
Qed.

Lemma record_failure_ok now cb : breaker_ok cb -> breaker_ok (CircuitBreaker.record_failure now cb).
Proof. intros (Ht & Hr & _). repeat split; try assumption. discriminate. Qed.

Lemma record_success_ok cb : breaker_ok cb -> breaker_ok (CircuitBreaker.record_success cb).
Proof. intros (Ht & Hr & _). repeat split; try assumption. intros H; discriminate H. Qed.

Lemma bulk_insert_attempt_ok msgs b w r b' w' :
  breaker_ok (circuit_breaker b) ->
  bulk_insert_attempt msgs (b, w) = (r, (b', w')) ->
  breaker_ok (circuit_breaker b').
Proof.
  intros Hok. rewrite bulk_insert_attempt_run.
  destruct (CircuitBreaker.can_proceed _ _) as [r1 cb] eqn:Hc.
  apply can_proceed_ok in Hc; [| assumption].
  destruct r1 as [[|]|e|]; try (intros [= <- <- <-]; exact Hc).
  destruct (insert_chunks msgs w) as [[[]|e|] w1]; intros [= <- <- <-]; cbn.
  - now apply record_success_ok.
  - now apply record_failure_ok.
  - exact Hc.
Qed.

Lemma perform_bulk_insert_ok msgs b w r b' w' :
  breaker_ok (circuit_breaker b) ->
  _perform_bulk_insert msgs (b, w) = (r, (b', w')) ->
  breaker_ok (circuit_breaker b').
Proof.
  intros Hok. rewrite perform_bulk_insert_run.
  destruct (bulk_insert_attempt msgs (b, w)) as [[a|e|] [b1 w1]] eqn:H1;
    try (intros [= <- <- <-]; eapply bulk_insert_attempt_ok; eassumption).
  apply bulk_insert_attempt_ok in H1; [| assumption].
  destruct (transient e).
  - unfold after_pause. cbn [fst snd]. intros H2.
    eapply bulk_insert_attempt_ok; eassumption.
  - intros [= <- <- <-]. exact H1.
Qed.

Lemma flush_ok b w :
  breaker_ok (circuit_breaker b) ->
  breaker_ok (circuit_breaker (fst (snd (flush (b, w))))).
Proof.
  intros Hok. destruct (lock b) eqn:Hl.
  - now rewrite flush_locked.
  - destruct (messages b) as [|m l] eqn:Em.
    + now rewrite flush_empty.
    + rewrite flush_run by congruence.
      destruct (_perform_bulk_insert _ _) as [r [b2 w2]] eqn:He.
      apply perform_bulk_insert_ok in He; [| exact Hok].
      destruct r as [[|]|e|]; exact He.
Qed.

(** A flush that finds the lock free returns. *)
Lemma flush_returns b w : lock b = false -> fst (flush (b, w)) = Ret tt.
Proof.
  intros Hl. destruct (messages b) as [|m l] eqn:Em.
  - now rewrite flush_empty.
  - rewrite flush_run by congruence.
    pose proof (perform_bulk_insert_not_blocked (messages b)
                  (set_messages [] (set_lock true b), w)) as Hnb.
    destruct (_perform_bulk_insert _ _) as [[[|]|e|] [b2 w2]];
      cbn in *; congruence.
Qed.

(** An [add_message] that brings the pending list to [batch_size] waits for
    the lock it holds itself: it does not return, and nothing is flushed. *)
Lemma add_message_at_batch_size m b w :
  lock b = false ->
  batch_size b <= Z.of_nat (length (messages b)) + 1 ->
  exists b',
    add_message m (b, w) = (Blocked, (b', w))
    /\ messages b' = messages b ++ [m]
    /\ lock b' = true.
Proof.
  intros Hl Hb. rewrite add_message_run by assumption. cbv zeta.
  rewrite length_app. cbn [length].
  destruct (Z.leb_spec (batch_size b) (Z.of_nat (length (messages b) + 1))); [| lia].
  eexists. split; [reflexivity |]. split; reflexivity.
Qed.

Lemma run_call_ok c b w :
  breaker_ok (circuit_breaker b) ->
  breaker_ok (circuit_breaker (fst (snd (run_call c (b, w))))).
Proof.
  intros Hok. destruct c as [m | |]; cbn [run_call].
  - destruct (lock b) eqn:Hl.
    + now rewrite add_message_locked.
    + rewrite add_message_run by assumption. cbv zeta.
      destruct (batch_size b <=? _); exact Hok.
  - now apply flush_ok.
  - rewrite periodic_round_run. cbv zeta.
    destruct (CircuitBreaker.can_proceed _ _) as [r cb] eqn:Hc.
    apply can_proceed_ok in Hc; [| assumption].
    destruct r as [[|]|e|]; try exact Hc.
    pose proof (flush_ok (set_circuit_breaker cb b)
                  (World.advance (Z.max 0 (flush_interval b)) w) Hc) as Hf.
    destruct (flush _) as [[[]|e|] [b2 w2]]; cbn [fst snd] in *; try exact Hf.
    now destruct (5 <? _).
Qed.

(** The breaker of the module-level buffer keeps threshold 3 and timeout
    60 s, and is never open without a recorded failure time. *)
Lemma reachable_breaker_ok b : reachable b -> breaker_ok (circuit_breaker b).
Proof.
  induction 1 as [now | b w c _ IH].
  - repeat split. intros H; discriminate H.
  - now apply run_call_ok.
Qed.

End ReachableFacts.

(** ** The handlers over the store *)
Section ServerFacts.
Import Server.

Lemma server_in_world_run {A} (m : St World.t A) (s : t) :
  in_world m s = (fst (m (world s)), set_world (snd (m (world s))) s).
Proof. unfold in_world, lift. now destruct (m (world s)). Qed.

Lemma store_call_calm w :
  calm w ->
  exists w', World.store_call w = (Ret tt, w') /\ calm w'
             /\ World.is_initialized w' = World.is_initialized w.
Proof.
  unfold calm, World.store_call, World.next_reply. intros Hc.
  destruct (World.replies w) as [|r rs] eqn:Er.
  - eexists. split; [reflexivity |]. cbn. rewrite Er. auto.
  - inversion Hc as [|? ? Hr Hrs]; subst. rewrite Hr.
    eexists. split; [reflexivity |]. cbn. auto.
Qed.

Lemma get_messages_collection_calm w :
  calm w ->
  exists w', World.get_messages_collection w = (Ret tt, w') /\ calm w'.
Proof.
  intros Hc. unfold World.get_messages_collection, World.init_db.
  unfold bind, get, ret, try_except, modify, raise.
  destruct (World.is_initialized w) eqn:Hi; cbn [fst snd].
  - rewrite Hi. eauto.
  - rewrite Hi. destruct (store_call_calm w Hc) as (w' & -> & Hc' & _).
    cbn. eexists. split; [reflexivity | exact Hc'].
Qed.

Lemma get_groups_collection_calm w :
  calm w ->
  exists w', World.get_groups_collection w = (Ret tt, w') /\ calm w'.
Proof. exact (get_messages_collection_calm w). Qed.

Lemma add_to_set_elem x l : x ∈ add_to_set x l.
Proof.
  unfold add_to_set. case_bool_decide; [assumption |].
  apply elem_of_app. right. now apply list_elem_of_singleton.
Qed.

Lemma add_to_set_idempotent x l : add_to_set x (add_to_set x l) = add_to_set x l.
Proof.
  unfold add_to_set at 1. rewrite bool_decide_eq_true_2; [reflexivity |].
  apply add_to_set_elem.
Qed.

Lemma add_to_set_NoDup x l : NoDup l -> NoDup (add_to_set x l).
Proof.
  intros Hl. unfold add_to_set. case_bool_decide; [assumption |].
  apply NoDup_app. split; [assumption |]. split.
  - intros y Hy Hx. apply list_elem_of_singleton in Hx. now subst.
  - apply NoDup_singleton.
Qed.

End ServerFacts.

Section MarkReadFacts.
Import Server.

Lemma bind_ret {X A B} (m : St X A) (k : A -> St X B) s a s' :
  m s = (Ret a, s') -> bind m k s = k a s'.
Proof. intros H. unfold bind. now rewrite H. Qed.

Lemma in_world_calm {A} (m : St World.t A) (s : t) a w' :
  m (world s) = (Ret a, w') -> in_world m s = (Ret a, set_world w' s).
Proof. intros H. rewrite server_in_world_run, H. reflexivity. Qed.

Lemma update_one_read_calm oid user_id s :
  calm (world s) ->
  exists w',
    calm w'
    /\ update_one_read oid user_id s
       = (Ret tt,
          set_messages_collection
            (alter (marked_read user_id) oid (messages_collection s))
            (set_world w' s)).
Proof.
  intros Hc. destruct (store_call_calm _ Hc) as (w' & Hs & Hc' & _).
  exists w'. split; [exact Hc' |].
  unfold update_one_read. rewrite (bind_ret _ _ _ _ _ (in_world_calm _ _ _ _ Hs)).
  reflexivity.
Qed.

Lemma find_one_message_calm oid s :
  calm (world s) ->
  exists w',
    calm w'
    /\ find_one_message oid s
       = (Ret (messages_collection s !! oid), set_world w' s).
Proof.
  intros Hc. destruct (store_call_calm _ Hc) as (w' & Hs & Hc' & _).
  exists w'. split; [exact Hc' |].
  unfold find_one_message. rewrite (bind_ret _ _ _ _ _ (in_world_calm _ _ _ _ Hs)).
  reflexivity.
Qed.

(** A read receipt on a stored message, with the store answering. *)
Lemma mark_read_run sid data s session user_id mid oid m :
  sessions s !! sid = Some session ->
  session !! "user_id" = Some user_id ->
  data !! "message_id" = Some mid ->
  ObjectId mid = Some oid ->
  messages_collection s !! oid = Some m ->
  calm (world s) ->
  exists w',
    calm w'
    /\ mark_read sid data s
       = (Ret tt,
          mk w'
            (alter (marked_read user_id) oid (messages_collection s))
            (groups_collection s) (sessions s)
            (emitted s ++ receipt_emissions oid (marked_read user_id m))).
Proof.
  intros Hs Hu Hd Ho Hm Hc.
  destruct (get_messages_collection_calm _ Hc) as (w1 & Hg & Hc1).
  destruct (update_one_read_calm oid user_id (set_world w1 s) Hc1)
    as (w2 & Hc2 & Hup).
  destruct (find_one_message_calm oid
              (set_messages_collection
                 (alter (marked_read user_id) oid (messages_collection s))
                 (set_world w2 (set_world w1 s))) Hc2)
    as (w3 & Hc3 & Hfind).
  exists w3. split; [exact Hc3 |].
  unfold mark_read, try_except.
  unfold bind at 1, get_session at 1, bind at 1, get at 1, ret at 1.
  rewrite Hs. cbn [default]. change (id session) with session. rewrite Hu.
  rewrite (bind_ret _ _ _ _ _ (in_world_calm _ _ _ _ Hg)).
  unfold bind at 1, getitem at 1. rewrite Hd. unfold ret at 1.
  unfold bind at 1, to_ObjectId at 1. rewrite Ho. unfold ret at 1.
  rewrite (bind_ret _ _ _ _ _ Hup).
  rewrite (bind_ret _ _ _ _ _ Hfind).
  cbn [messages_collection set_messages_collection set_world].
  rewrite lookup_alter_eq, Hm. cbn [fmap option_fmap option_map].
  unfold receipt_emissions.
  destruct (bool_decide (Message.type (marked_read user_id m) = "group")).
  - destruct (Message.group_id (marked_read user_id m)); cbn.
    + reflexivity.
    + rewrite app_nil_r. reflexivity.
  - reflexivity.
Qed.

End MarkReadFacts.

Lemma marked_read_idempotent user_id m :
  marked_read user_id (marked_read user_id m) = marked_read user_id m.
Proof.
  unfold marked_read, Server.set_status_read_by. cbn.
  now rewrite add_to_set_idempotent.
Qed.

(** C7, the part that fails: a read receipt sets the status of a group
    message to "read" as well. *)
Lemma mark_read_sets_status_of_group_message :
  Message.type group_message = "group"
  /\ Message.status group_message = "sent"
  /\ Server.messages_collection sample_server !! group_message_oid
     = Some group_message
  /\ exists s',
       Server.mark_read "sid_bob" {[ "message_id" := group_message_oid ]}
         sample_server = (Ret tt, s')
       /\ Message.status <$> (Server.messages_collection s' !! group_message_oid)
          = Some "read".
Proof.
  split; [reflexivity |]. split; [reflexivity |]. split; [reflexivity |].
  eexists. split; [vm_compute; reflexivity |]. reflexivity.
Qed.

(** C7, as the code has it.  A read receipt from a session with a user id,
    naming a stored message, with the store answering: the handler returns;
    the stored message has the reader in [read_by], added at the end if it
    was not there and left as it was otherwise (so a second receipt of the
    same reader changes nothing in the store); its status is "read",
    whatever the type of the message; no other message changes; and one
    "message_update" event carrying the new [read_by] is emitted, to the
    group's room for a group message and to the room of the sender
    otherwise. *)
Theorem read_receipt_marks_read
    (sid : string) (data : gmap string string) (s : Server.t)
    (session : gmap string string) (user_id mid oid : string) (m : Message.t) :
  Server.sessions s !! sid = Some session ->
  session !! "user_id" = Some user_id ->
  data !! "message_id" = Some mid ->
  ObjectId mid = Some oid ->
  Server.messages_collection s !! oid = Some m ->
  calm (Server.world s) ->
  exists s' s'',
    Server.mark_read sid data s = (Ret tt, s')
    /\ Server.messages_collection s' !! oid = Some (marked_read user_id m)
    /\ Message.status (marked_read user_id m) = "read"
    /\ user_id ∈ Message.read_by (marked_read user_id m)
    /\ (NoDup (Message.read_by m) -> NoDup (Message.read_by (marked_read user_id m)))
    /\ (user_id ∈ Message.read_by m ->
        Message.read_by (marked_read user_id m) = Message.read_by m)
    /\ (forall k, k <> oid ->
          Server.messages_collection s' !! k = Server.messages_collection s !! k)
    /\ Server.emitted s'
       = Server.emitted s ++ receipt_emissions oid (marked_read user_id m)
    /\ (Message.type m <> "group" ->
        receipt_emissions oid (marked_read user_id m)
        = [Server.mk_emission "message_update"
             (Server.ReadReceipt oid (Message.read_by (marked_read user_id m)))
             ("user_" +:+ Message.from_user_id m)])
    /\ (forall gid,
          Message.type m = "group" -> Message.group_id m = Some gid ->
          receipt_emissions oid (marked_read user_id m)
          = [Server.mk_emission "message_update"
               (Server.ReadReceipt oid (Message.read_by (marked_read user_id m)))
               ("group_" +:+ gid)])
    /\ Server.mark_read sid data s' = (Ret tt, s'')
    /\ Server.messages_collection s'' = Server.messages_collection s'.
Proof.
  intros Hs Hu Hd Ho Hm Hc.
  destruct (mark_read_run sid data s session user_id mid oid m Hs Hu Hd Ho Hm Hc)
    as (w1 & Hc1 & H1).
  set (s' := Server.mk w1
               (alter (marked_read user_id) oid (Server.messages_collection s))
               (Server.groups_collection s) (Server.sessions s)
               (Server.emitted s
                  ++ receipt_emissions oid (marked_read user_id m))) in *.
  assert (Hm' : Server.messages_collection s' !! oid = Some (marked_read user_id m)).
  { subst s'. cbn. rewrite lookup_alter_eq, Hm. reflexivity. }
  destruct (mark_read_run sid data s' session user_id mid oid
              (marked_read user_id m) Hs Hu Hd Ho Hm' Hc1)
    as (w2 & Hc2 & H2).
  eexists s', _. split; [exact H1 |]. split; [exact Hm' |].
  split; [reflexivity |].
  split; [apply add_to_set_elem |].
  split; [apply add_to_set_NoDup |].
  split.
  { intros Hin. cbn. unfold Server.add_to_set.
    now rewrite bool_decide_eq_true_2. }
  split.
  { intros k Hk. subst s'. cbn. now rewrite lookup_alter_ne. }
  split; [reflexivity |].
  split.
  { intros Ht. unfold receipt_emissions. cbn.
    now rewrite bool_decide_eq_false_2. }
  split.
  { intros gid Ht Hg. unfold receipt_emissions. cbn.
    rewrite bool_decide_eq_true_2 by assumption. now rewrite Hg. }
  split; [exact H2 |].
  cbn. subst s'. cbn. apply map_eq. intros k.
  destruct (decide (k = oid)) as [->|Hk].
  - rewrite !lookup_alter_eq, Hm. cbn. now rewrite marked_read_idempotent.
  - now rewrite !lookup_alter_ne.
Qed.

Lemma read_receipt_marks_read_witness :
  calm (Server.world sample_server)
  /\ exists s',
       Server.mark_read "sid_bob" {[ "message_id" := direct_oid ]} sample_server
       = (Ret tt, s')
       /\ Server.messages_collection s' !! direct_oid
          = Some (marked_read "bob" direct_message)
       /\ Server.emitted s'
          = [Server.mk_emission "message_update"
               (Server.ReadReceipt direct_oid ["bob"]) "user_alice"].
Proof.
  assert (Hc : calm (Server.world sample_server)) by constructor.
  split; [exact Hc |].
  destruct (read_receipt_marks_read "sid_bob" {[ "message_id" := direct_oid ]}
              sample_server {[ "user_id" := "bob" ]} "bob" direct_oid direct_oid
              direct_message)
    as (s' & _ & H1 & H2 & _ & _ & _ & _ & _ & H8 & _);
    try reflexivity; try exact Hc.
  exists s'. split; [exact H1 |]. split; [exact H2 |]. exact H8.
Defined.

Section GroupFacts.
Import Server.

Lemma get_groups_collection_not_blocked w :
  fst (World.get_groups_collection w) <> Blocked.
Proof. exact (get_messages_collection_not_blocked w). Qed.

Lemma find_one_group_run oid s :
  find_one_group oid s
  = match World.store_call (world s) with
    | (Ret _, w') => (Ret (groups_collection s !! oid), set_world w' s)
    | (Raise e, w') => (Raise e, set_world w' s)
    | (Blocked, w') => (Blocked, set_world w' s)
    end.
Proof.
  unfold find_one_group, bind. rewrite server_in_world_run.
  destruct (World.store_call (world s)) as [[[]|e|] w']; reflexivity.
Qed.

Lemma pull_elem x y l : x ∈ pull y l <-> x ∈ l /\ x <> y.
Proof. unfold pull. rewrite list_elem_of_filter. tauto. Qed.

Lemma pull_changes y l : y ∈ l -> pull y l <> l.
Proof.
  intros Hin E. assert (H : y ∈ pull y l) by (now rewrite E).
  apply pull_elem in H. now destruct H.
Qed.

Lemma for_each_notify n user_id members s :
  for_each members (fun member_id =>
    if negb (bool_decide (member_id = user_id)) then
      emit "notification" n ("user_" +:+ member_id)
    else ret tt) s
  = (Ret tt,
     set_emitted (emitted s ++ removal_notifications n user_id members) s).
Proof.
  revert s. induction members as [|x l IH]; intros s.
  - cbn. unfold ret, removal_notifications. cbn. rewrite app_nil_r.
    now destruct s.
  - cbn [for_each]. unfold bind. unfold removal_notifications, pull.
    rewrite filter_cons. case_bool_decide as Hx; cbn [negb].
    + subst x. rewrite decide_False by (intros H; now apply H).
      unfold ret at 1. rewrite IH. reflexivity.
    + rewrite decide_True by assumption.
      unfold emit at 1, modify. rewrite IH. cbn.
      unfold removal_notifications, pull. now rewrite <- app_assoc.
Qed.

(** A removal that the ownership rules refuse: the reply is an error and
    only the environment has moved. *)
Lemma remove_from_group_refused gid oid g user_id admin_id s :
  ObjectId gid = Some oid ->
  groups_collection s !! oid = Some g ->
  (exists a, truthy admin_id = Some a /\ a <> Group.created_by g)
  \/ (truthy admin_id = None /\ user_id = Group.created_by g) ->
  exists d w',
    remove_from_group gid user_id admin_id s
    = (Raise (HTTPException 500 d), set_world w' s).
Proof.
  intros Ho Hg Hrule. unfold remove_from_group, try_except.
  unfold bind at 1. rewrite server_in_world_run.
  pose proof (get_groups_collection_not_blocked (world s)) as Hnb.
  destruct (World.get_groups_collection (world s)) as [[[]|e|] w1];
    cbn [fst snd] in *; [| eexists _, _; reflexivity | congruence].
  unfold bind at 1, to_ObjectId at 1. rewrite Ho. unfold ret at 1.
  unfold bind at 1. rewrite find_one_group_run.
  cbn [world set_world groups_collection].
  pose proof (store_call_not_blocked w1) as Hnb2.
  destruct (World.store_call w1) as [[[]|e|] w2];
    cbn [fst snd] in *; [| eexists _, _; reflexivity | congruence].
  rewrite Hg.
  destruct (bool_decide (user_id ∈ Group.member_ids g)); cbn [negb];
    [| eexists _, _; reflexivity].
  unfold bind at 1.
  destruct Hrule as [(a & -> & Ha) | (-> & Hu)].
  - rewrite bool_decide_eq_false_2 by assumption. cbn [negb].
    eexists _, _; reflexivity.
  - rewrite bool_decide_eq_true_2 by assumption.
    eexists _, _; reflexivity.
Qed.

End GroupFacts.

Section GroupRuns.
Import Server.

(** A removal that the ownership rules accept, with the store
    answering. *)
Lemma remove_from_group_accepted gid oid g user_id admin_id by_whom s :
  ObjectId gid = Some oid ->
  groups_collection s !! oid = Some g ->
  user_id ∈ Group.member_ids g ->
  (truthy admin_id = Some by_whom /\ by_whom = Group.created_by g)
  \/ (truthy admin_id = None /\ by_whom = user_id
      /\ user_id <> Group.created_by g) ->
  calm (world s) ->
  exists w' n,
    remove_from_group gid user_id admin_id s
    = (Ret (mk_removal gid user_id by_whom),
       mk w' (messages_collection s)
         (<[oid := Group.set_member_ids (pull user_id (Group.member_ids g)) g]>
            (groups_collection s))
         (sessions s)
         (emitted s ++ removal_notifications n user_id (Group.member_ids g))).
Proof.
  intros Ho Hg Hin Hrule Hc.
  destruct (get_groups_collection_calm _ Hc) as (w1 & Hg1 & Hc1).
  destruct (store_call_calm _ Hc1) as (w2 & Hs2 & Hc2 & _).
  destruct (store_call_calm _ Hc2) as (w3 & Hs3 & Hc3 & _).
  unfold remove_from_group, try_except.
  rewrite (bind_ret _ _ _ _ _ (in_world_calm _ _ _ _ Hg1)).
  unfold bind at 1, to_ObjectId at 1. rewrite Ho. unfold ret at 1.
  unfold bind at 1. rewrite find_one_group_run.
  cbn [world set_world groups_collection]. rewrite Hs2, Hg.
  rewrite bool_decide_eq_true_2 by assumption. cbn [negb].
  assert (Hadmin :
    match truthy admin_id with
    | Some a =>
        if negb (bool_decide (a = Group.created_by g))
        then raise (HTTPException 403 "Only group creator can remove members")
        else ret a
    | None =>
        if bool_decide (user_id = Group.created_by g)
        then raise (HTTPException 400
               "Group creator cannot leave the group. Please delete the group instead.")
        else ret user_id
    end = (ret by_whom : St t string)).
  { destruct Hrule as [(-> & ->) | (-> & -> & Hne)].
    - now rewrite bool_decide_eq_true_2.
    - now rewrite bool_decide_eq_false_2. }
  rewrite Hadmin. unfold bind at 1, ret at 1.
  unfold bind at 1, update_one_pull at 1.
  rewrite (bind_ret _ _ _ _ _
             (in_world_calm _ (set_world w2 (set_world w1 s)) _ _ Hs3)).
  unfold bind at 1, get at 1. cbn [groups_collection set_world]. rewrite Hg.
  rewrite bool_decide_eq_false_2 by (now apply pull_changes).
  unfold bind at 1, modify at 1, ret at 1.
  cbn [Z.eqb]. unfold bind at 1. rewrite server_in_world_run.
  cbn [fst snd World.datetime_now bind get ret].
  rewrite (bind_ret _ _ _ _ _ (for_each_notify _ _ _ _)).
  eexists _, _. reflexivity.
Qed.

(** Deleting a stored group, with the store answering: no argument of the
    route names the caller, and nothing is checked. *)
Lemma delete_group_run gid oid g s :
  ObjectId gid = Some oid ->
  groups_collection s !! oid = Some g ->
  calm (world s) ->
  exists w',
    delete_group gid s
    = (Ret "Group deleted successfully",
       mk w' (messages_collection s) (delete oid (groups_collection s))
         (sessions s) (emitted s)).
Proof.
  intros Ho Hg Hc.
  destruct (get_groups_collection_calm _ Hc) as (w1 & Hg1 & Hc1).
  destruct (get_messages_collection_calm _ Hc1) as (w2 & Hg2 & Hc2).
  destruct (store_call_calm _ Hc2) as (w3 & Hs3 & Hc3 & _).
  destruct (store_call_calm _ Hc3) as (w4 & Hs4 & Hc4 & _).
  destruct (store_call_calm _ Hc4) as (w5 & Hs5 & Hc5 & _).
  unfold delete_group, try_except.
  rewrite (bind_ret _ _ _ _ _ (in_world_calm _ _ _ _ Hg1)).
  rewrite (bind_ret _ _ _ _ _ (in_world_calm _ (set_world w1 s) _ _ Hg2)).
  unfold bind at 1, to_ObjectId at 1. rewrite Ho. unfold ret at 1.
  unfold bind at 1. rewrite find_one_group_run.
  cbn [world set_world groups_collection]. rewrite Hs3, Hg.
  unfold bind at 1, delete_one_group at 1.
  rewrite (bind_ret _ _ _ _ _
             (in_world_calm _ (set_world w3 (set_world w2 (set_world w1 s))) _ _ Hs4)).
  unfold modify at 1. unfold bind at 1, delete_many_group_messages at 1.
  rewrite (in_world_calm _
             (set_groups_collection (delete oid (groups_collection s))
                (set_world w4 (set_world w3 (set_world w2 (set_world w1 s)))))
             _ _ Hs5).
  eexists. reflexivity.
Qed.

End GroupRuns.

(** C8, the part that fails: [delete_group] takes the group id and nothing
    that names the caller; a request for alice's group deletes it, whoever
    sends it.  So it is not the case that the request of every caller other
    than the creator is rejected. *)
Lemma delete_group_by_anyone :
  Group.created_by team = "alice"
  /\ Server.groups_collection sample_server !! team_oid = Some team
  /\ (exists s',
        Server.delete_group team_oid sample_server
        = (Ret "Group deleted successfully", s')
        /\ Server.groups_collection s' !! team_oid = None)
  /\ ~ (forall (caller gid oid : string) (g : Group.t) (s : Server.t),
          ObjectId gid = Some oid ->
          Server.groups_collection s !! oid = Some g ->
          caller <> Group.created_by g ->
          exists e s', Server.delete_group gid s = (Raise e, s')).
Proof.
  assert (Hrun : exists s',
             Server.delete_group team_oid sample_server
             = (Ret "Group deleted successfully", s')
             /\ Server.groups_collection s' !! team_oid = None).
  { eexists. split; [vm_compute; reflexivity |]. reflexivity. }
  split; [reflexivity |]. split; [reflexivity |]. split; [exact Hrun |].
  intros H.
  destruct (H "bob" team_oid team_oid team sample_server) as (e & s' & He);
    [reflexivity | reflexivity | discriminate |].
  destruct Hrun as (s'' & Hr & _). rewrite Hr in He. discriminate He.
Qed.

(** C8, as the code has it.  For a stored group: a removal request whose
    [admin_id] is given (non-empty) and is not the creator is refused, and
    so is a request without [admin_id] that names the creator; a refused
    request changes nothing but the environment.  With the store answering,
    a request for a member that either comes with the creator as [admin_id]
    or comes without [admin_id] and names a user other than the creator is
    carried out: exactly that user leaves [member_ids], no other group
    changes, and the reply names who removed them (the creator, or the user
    themselves).  [delete_group] checks no ownership: with the store
    answering, a request naming the group deletes it. *)
Theorem removal_needs_creator_or_self
    (s : Server.t) (gid oid : string) (g : Group.t)
    (user_id : string) (admin_id : option string) :
  ObjectId gid = Some oid ->
  Server.groups_collection s !! oid = Some g ->
  (forall a, Server.truthy admin_id = Some a -> a <> Group.created_by g ->
     exists d w',
       Server.remove_from_group gid user_id admin_id s
       = (Raise (HTTPException 500 d), Server.set_world w' s))
  /\ (Server.truthy admin_id = None -> user_id = Group.created_by g ->
      exists d w',
        Server.remove_from_group gid user_id admin_id s
        = (Raise (HTTPException 500 d), Server.set_world w' s))
  /\ (calm (Server.world s) ->
      user_id ∈ Group.member_ids g ->
      forall by_whom,
        (Server.truthy admin_id = Some by_whom /\ by_whom = Group.created_by g)
        \/ (Server.truthy admin_id = None /\ by_whom = user_id
            /\ user_id <> Group.created_by g) ->
        exists s',
          Server.remove_from_group gid user_id admin_id s
          = (Ret (Server.mk_removal gid user_id by_whom), s')
          /\ Server.groups_collection s' !! oid
             = Some (Group.set_member_ids
                       (Server.pull user_id (Group.member_ids g)) g)
          /\ (forall x, x ∈ Server.pull user_id (Group.member_ids g)
                        <-> x ∈ Group.member_ids g /\ x <> user_id)
          /\ (forall k, k <> oid ->
                Server.groups_collection s' !! k = Server.groups_collection s !! k))
  /\ (calm (Server.world s) ->
      exists s',
        Server.delete_group gid s = (Ret "Group deleted successfully", s')
        /\ Server.groups_collection s' !! oid = None).
Proof.
  intros Ho Hg. split; [| split; [| split]].
  - intros a Ha Hne. eapply remove_from_group_refused; eauto.
  - intros Ha Hu. eapply remove_from_group_refused; eauto.
  - intros Hc Hin by_whom Hrule.
    destruct (remove_from_group_accepted gid oid g user_id admin_id by_whom s
                Ho Hg Hin Hrule Hc) as (w' & n & Hrun).
    eexists. split; [exact Hrun |]. cbn.
    split; [apply lookup_insert_eq |].
    split; [intros x; apply pull_elem |].
    intros k Hk. now rewrite lookup_insert_ne.
  - intros Hc. destruct (delete_group_run gid oid g s Ho Hg Hc) as (w' & Hrun).
    eexists. split; [exact Hrun |]. cbn. apply lookup_delete_eq.
Qed.

Lemma removal_needs_creator_or_self_witness :
  calm (Server.world sample_server)
  /\ (exists d w',
        Server.remove_from_group team_oid "bob" (Some "carol") sample_server
        = (Raise (HTTPException 500 d), Server.set_world w' sample_server))
  /\ (exists s',
        Server.remove_from_group team_oid "bob" None sample_server
        = (Ret (Server.mk_removal team_oid "bob" "bob"), s')
        /\ Server.groups_collection s' !! team_oid
           = Some (Group.set_member_ids ["alice"; "carol"] team)).
Proof.
  assert (Hc : calm (Server.world sample_server)) by constructor.
  split; [exact Hc |]. split.
  - destruct (removal_needs_creator_or_self sample_server team_oid team_oid team
                "bob" (Some "carol")) as (H1 & _); [reflexivity | reflexivity |].
    apply (H1 "carol"); [reflexivity | discriminate].
  - destruct (removal_needs_creator_or_self sample_server team_oid team_oid team
                "bob" None) as (_ & _ & H3 & _); [reflexivity | reflexivity |].
    destruct (H3 Hc) with (by_whom := "bob") as (s' & Hr & Hg & _).
    + apply list_elem_of_In. cbn. tauto.
    + right. repeat split. discriminate.
    + exists s'. split; [exact Hr | exact Hg].
Defined.

(** * Further properties of the buffer *)

(** ** Chunking *)
Section ChunkFacts.

Lemma concat_slices (l : list Message.t) (m : nat) :
  concat (map (fun i => take 5 (drop i l)) (map (fun k => (k * 5)%nat) (seq 0 m)))
  = take (m * 5) l.
Proof.
  induction m as [|m IH].
  - reflexivity.
  - rewrite seq_S, !map_app, concat_app, IH. cbn [map concat Nat.add].
    rewrite app_nil_r, take_take_drop. f_equal. lia.
Qed.

Lemma chunk_count_covers (n : nat) : (n <= (n + 5 - 1) / 5 * 5)%nat.
Proof.
  pose proof (Nat.div_mod_eq (n + 5 - 1) 5) as H.
  pose proof (Nat.mod_upper_bound (n + 5 - 1) 5 ltac:(lia)). lia.
Qed.

Lemma chunk_start_inside (n k : nat) :
  (k < (n + 5 - 1) / 5)%nat -> (k * 5 < n)%nat.
Proof.
  intros Hk.
  pose proof (Nat.div_mod_eq (n + 5 - 1) 5) as H.
  pose proof (Nat.mod_upper_bound (n + 5 - 1) 5 ltac:(lia)). nia.
Qed.

End ChunkFacts.

(** The slices the executor sends are a partition of the snapshot: in
    order they add up to the list of records, none is empty and none has
    more than five records. *)
Lemma chunks_partition_snapshot (msgs : list Message.t) :
  concat (chunks_of msgs) = msgs
  /\ Forall (fun c => (1 <= length c <= 5)%nat) (chunks_of msgs)
  /\ length (chunks_of msgs) = ((length msgs + 4) / 5)%nat.
Proof.
  unfold chunks_of, range_step, MessageBuffer.chunk_size. split; [| split].
  - rewrite concat_slices. apply take_ge, chunk_count_covers.
  - apply Forall_forall. intros c Hc.
    apply list_elem_of_In, in_map_iff in Hc as (i & <- & Hi).
    apply in_map_iff in Hi as (k & <- & Hk). apply in_seq in Hk.
    assert (k * 5 < length msgs)%nat by (apply chunk_start_inside; lia).
    rewrite length_take, length_drop. lia.
  - rewrite !length_map, length_seq. f_equal. lia.
Qed.

(** ** The executor on an answering store *)
Section CalmStore.
Import MessageBuffer.

Lemma insert_many_calm chunk w :
  calm w ->
  exists w',
    World.insert_many chunk w = (Ret tt, w') /\ calm w'
    /\ World.insert_log w' = World.insert_log w ++ [(chunk, None)]
    /\ World.is_initialized w' = World.is_initialized w.
Proof.
  unfold calm, World.insert_many, World.next_reply. intros Hc.
  destruct (World.replies w) as [|r rs] eqn:Er.
  - eexists. split; [reflexivity |]. cbn. rewrite Er. auto.
  - inversion Hc as [|? ? Hr Hrs]; subst. rewrite Hr.
    eexists. split; [reflexivity |]. cbn. auto.
Qed.

Lemma for_each_insert_calm (idx : list nat) (f : nat -> list Message.t) w :
  calm w ->
  exists w',
    for_each idx (fun i => World.insert_many (f i)) w = (Ret tt, w') /\ calm w'
    /\ World.insert_log w' = World.insert_log w ++ acknowledged (map f idx)
    /\ World.is_initialized w' = World.is_initialized w.
Proof.
  revert w. induction idx as [|i idx IH]; intros w Hc.
  - exists w. cbn. rewrite app_nil_r. auto.
  - destruct (insert_many_calm (f i) w Hc) as (w1 & H1 & Hc1 & Hl1 & Hi1).
    destruct (IH w1 Hc1) as (w2 & H2 & Hc2 & Hl2 & Hi2).
    exists w2. cbn [for_each]. unfold bind. rewrite H1, H2.
    split; [reflexivity |]. split; [exact Hc2 |]. split.
    + rewrite Hl2, Hl1, <- app_assoc. reflexivity.
    + congruence.
Qed.

Lemma store_call_calm_log w :
  calm w ->
  exists w',
    World.store_call w = (Ret tt, w') /\ calm w'
    /\ World.insert_log w' = World.insert_log w.
Proof.
  unfold calm, World.store_call, World.next_reply. intros Hc.
  destruct (World.replies w) as [|r rs] eqn:Er.
  - eexists. split; [reflexivity |]. cbn. rewrite Er. auto.
  - inversion Hc as [|? ? Hr Hrs]; subst. rewrite Hr.
    eexists. split; [reflexivity |]. cbn. auto.
Qed.

Lemma get_messages_collection_calm_log w :
  calm w ->
  exists w',
    World.get_messages_collection w = (Ret tt, w') /\ calm w'
    /\ World.insert_log w' = World.insert_log w
    /\ World.is_initialized w' = true.
Proof.
  intros Hc. unfold World.get_messages_collection, World.init_db.
  unfold bind, get, ret, try_except, modify, raise.
  destruct (World.is_initialized w) eqn:Hi; cbn [fst snd].
  - rewrite Hi. eauto.
  - rewrite Hi. destruct (store_call_calm_log w Hc) as (w' & -> & Hc' & Hl).
    cbn. eexists. split; [reflexivity |]. auto.
Qed.

Lemma insert_chunks_calm msgs w :
  calm w ->
  exists w',
    insert_chunks msgs w = (Ret tt, w') /\ calm w'
    /\ World.insert_log w' = World.insert_log w ++ acknowledged (chunks_of msgs)
    /\ World.is_initialized w' = true.
Proof.
  intros Hc.
  destruct (get_messages_collection_calm_log w Hc) as (w1 & H1 & Hc1 & Hl1 & Hi1).
  destruct (for_each_insert_calm (range_step (length msgs) chunk_size)
              (fun i => take chunk_size (drop i msgs)) w1 Hc1)
    as (w2 & H2 & Hc2 & Hl2 & Hi2).
  exists w2. unfold insert_chunks, bind. rewrite H1, H2.
  split; [reflexivity |]. split; [exact Hc2 |]. split.
  - rewrite Hl2, Hl1. reflexivity.
  - congruence.
Qed.

Lemma can_proceed_true now cb :
  fst (CircuitBreaker.can_proceed now cb) = Ret true ->
  exists cb',
    CircuitBreaker.can_proceed now cb = (Ret true, cb')
    /\ CircuitBreaker.is_open cb' = false
    /\ CircuitBreaker.failure_threshold cb' = CircuitBreaker.failure_threshold cb
    /\ CircuitBreaker.reset_timeout cb' = CircuitBreaker.reset_timeout cb.
Proof.
  unfold CircuitBreaker.can_proceed.
  destruct (CircuitBreaker.is_open cb) eqn:Ho; cbn [negb].
  - destruct (CircuitBreaker.last_failure_time cb); [| discriminate].
    destruct (total_seconds_gt _ _ _); [| discriminate].
    intros _. eexists. split; [reflexivity |]. auto.
  - intros _. exists cb. auto.
Qed.

End CalmStore.

(** X1.  A flush that finds the lock free, records pending, the breaker
    letting it through and a store that answers: it returns with the buffer
    empty, "successful_flushes" one higher, the breaker closed with no
    failure counted, [last_flush] at the instant the store calls ended,
    and the store has been handed the snapshot once, in order, in slices of
    at most five records, none empty. *)
Theorem flush_delivers_snapshot_in_chunks (b : MessageBuffer.t) (w : World.t) :
  MessageBuffer.lock b = false ->
  MessageBuffer.messages b <> [] ->
  fst (CircuitBreaker.can_proceed (World.now w) (MessageBuffer.circuit_breaker b))
  = Ret true ->
  calm w ->
  exists b' w',
    MessageBuffer.flush (b, w) = (Ret tt, (b', w'))
    /\ MessageBuffer.messages b' = []
    /\ MessageBuffer.lock b' = false
    /\ MessageBuffer.batch_size b' = MessageBuffer.batch_size b
    /\ MessageBuffer.successful_flushes (MessageBuffer.stats b')
       = MessageBuffer.successful_flushes (MessageBuffer.stats b) + 1
    /\ MessageBuffer.failed_flushes (MessageBuffer.stats b')
       = MessageBuffer.failed_flushes (MessageBuffer.stats b)
    /\ CircuitBreaker.failure_count (MessageBuffer.circuit_breaker b') = 0
    /\ CircuitBreaker.is_open (MessageBuffer.circuit_breaker b') = false
    /\ MessageBuffer.last_flush b' = World.now w'
    /\ World.insert_log w'
       = World.insert_log w ++ acknowledged (chunks_of (MessageBuffer.messages b))
    /\ concat (chunks_of (MessageBuffer.messages b)) = MessageBuffer.messages b
    /\ Forall (fun c => (1 <= length c <= 5)%nat)
         (chunks_of (MessageBuffer.messages b)).
Proof.
  intros Hl Hm Hcp Hc.
  destruct (can_proceed_true _ _ Hcp) as (cb1 & Hcb & _).
  destruct (insert_chunks_calm (MessageBuffer.messages b) w Hc)
    as (w1 & Hi & _ & Hlog & _).
  rewrite flush_run by assumption.
  rewrite perform_bulk_insert_run, bulk_insert_attempt_run.
  cbn [MessageBuffer.circuit_breaker MessageBuffer.set_messages
       MessageBuffer.set_lock].
  rewrite Hcb, Hi.
  eexists _, _. split; [reflexivity |]. cbn.
  destruct (chunks_partition_snapshot (MessageBuffer.messages b)) as (Hp & Hs & _).
  repeat split; try assumption; try lia.
Qed.

Lemma flush_delivers_snapshot_in_chunks_witness :
  calm healthy_world
  /\ exists b' w',
       MessageBuffer.flush (ten_pending, healthy_world) = (Ret tt, (b', w'))
       /\ MessageBuffer.messages b' = []
       /\ World.insert_log w' = acknowledged (chunks_of ten_messages).
Proof.
  assert (Hc : calm healthy_world) by constructor.
  split; [exact Hc |].
  destruct (flush_delivers_snapshot_in_chunks ten_pending healthy_world)
    as (b' & w' & H1 & H2 & _ & _ & _ & _ & _ & _ & _ & H10 & _);
    [reflexivity | discriminate | reflexivity | exact Hc |].
  exists b', w'. split; [exact H1 |]. split; [exact H2 | exact H10].
Defined.

(** ** Partial failure and retry *)

Lemma range_step_two (n : nat) :
  (5 < n)%nat -> exists rest, range_step n 5 = 0%nat :: 5%nat :: rest.
Proof.
  intros Hn. unfold range_step. pose proof (chunk_count_covers n) as Hc.
  destruct ((n + 5 - 1) / 5)%nat as [|[|k]]; [lia | lia |].
  eexists. reflexivity.
Qed.

Lemma chunks_of_head (msgs : list Message.t) :
  (5 < length msgs)%nat ->
  exists tail, chunks_of msgs = take 5 msgs :: take 5 (drop 5 msgs) :: tail.
Proof.
  intros Hn. unfold chunks_of, MessageBuffer.chunk_size.
  destruct (range_step_two _ Hn) as (rest & ->). eexists. reflexivity.
Qed.

(** X2.  More than five records pending, the first [insert_many]
    acknowledged and the second failing with a transient error, after which
    the store answers: the retry starts again from the first slice, so the
    flush succeeds (buffer empty, one successful flush, one
    "circuit_breaker_trips") and the store has acknowledged the first five
    records twice. *)
Theorem retry_delivers_first_chunk_twice
    (b : MessageBuffer.t) (w : World.t)
    (r1 r2 : World.reply) (rest : list World.reply) (e : exn) :
  MessageBuffer.lock b = false ->
  (5 < length (MessageBuffer.messages b))%nat ->
  CircuitBreaker.is_open (MessageBuffer.circuit_breaker b) = false ->
  CircuitBreaker.failure_count (MessageBuffer.circuit_breaker b) + 1
  < CircuitBreaker.failure_threshold (MessageBuffer.circuit_breaker b) ->
  World.is_initialized w = true ->
  World.replies w = r1 :: r2 :: rest ->
  World.reply_error r1 = None ->
  World.reply_error r2 = Some e ->
  MessageBuffer.transient e = true ->
  Forall (fun r => World.reply_error r = None) rest ->
  exists b' w',
    MessageBuffer.flush (b, w) = (Ret tt, (b', w'))
    /\ MessageBuffer.messages b' = []
    /\ MessageBuffer.successful_flushes (MessageBuffer.stats b')
       = MessageBuffer.successful_flushes (MessageBuffer.stats b) + 1
    /\ MessageBuffer.failed_flushes (MessageBuffer.stats b')
       = MessageBuffer.failed_flushes (MessageBuffer.stats b)
    /\ MessageBuffer.circuit_breaker_trips (MessageBuffer.stats b')
       = MessageBuffer.circuit_breaker_trips (MessageBuffer.stats b) + 1
    /\ CircuitBreaker.failure_count (MessageBuffer.circuit_breaker b') = 0
    /\ World.insert_log w'
       = World.insert_log w
         ++ [(take 5 (MessageBuffer.messages b), None);
             (take 5 (drop 5 (MessageBuffer.messages b)), Some e)]
         ++ acknowledged (chunks_of (MessageBuffer.messages b))
    /\ exists tail,
         chunks_of (MessageBuffer.messages b)
         = take 5 (MessageBuffer.messages b) :: tail.
Proof.
  intros Hl Hn Ho Hcnt Hi Hr Hr1 Hr2 He Hrest.
  assert (Hm : MessageBuffer.messages b <> []).
  { intros E. rewrite E in Hn. cbn in Hn. lia. }
  destruct (chunks_of_head _ Hn) as (tail & Htail).
  (* the first attempt *)
  assert (H1 : exists w1,
             MessageBuffer.insert_chunks (MessageBuffer.messages b) w = (Raise e, w1)
             /\ World.is_initialized w1 = true
             /\ World.replies w1 = rest
             /\ World.insert_log w1
                = World.insert_log w
                  ++ [(take 5 (MessageBuffer.messages b), None);
                      (take 5 (drop 5 (MessageBuffer.messages b)), Some e)]).
  { unfold MessageBuffer.insert_chunks, MessageBuffer.chunk_size.
    destruct (range_step_two _ Hn) as (idx & ->).
    destruct w as [now0 init reps drw log]. cbn in Hi, Hr. subst init reps.
    unfold bind, World.get_messages_collection, bind, get, ret. cbn [fst snd World.is_initialized].
    cbn [for_each]. unfold bind.
    unfold World.insert_many at 1. cbn [World.next_reply World.replies].
    rewrite Hr1.
    unfold World.insert_many at 1. cbn [World.next_reply World.replies World.log_insert World.advance].
    rewrite Hr2. eexists. split; [reflexivity |]. cbn.
    rewrite <- app_assoc. auto. }
  destruct H1 as (w1 & Hw1 & Hi1 & Hr1' & Hlog1).
  (* the pause and the second attempt *)
  set (w2 := snd (Backoff.pause 10 (World.now w) (World.now w) 0 w1)).
  assert (Hw2 : calm w2 /\ World.insert_log w2 = World.insert_log w1).
  { subst w2. rewrite pause_world. unfold calm, World.next_draw.
    destruct (World.draws w1); cbn; rewrite Hr1'; auto. }
  destruct Hw2 as (Hc2 & Hlog2).
  destruct (insert_chunks_calm (MessageBuffer.messages b) w2 Hc2)
    as (w3 & Hw3 & _ & Hlog3 & _).
  rewrite flush_run by assumption.
  rewrite perform_bulk_insert_run, bulk_insert_attempt_run.
  cbn [MessageBuffer.circuit_breaker MessageBuffer.set_messages
       MessageBuffer.set_lock].
  rewrite can_proceed_closed by assumption. rewrite Hw1, He.
  unfold after_pause. cbn [fst snd]. fold w2.
  rewrite bulk_insert_attempt_run.
  cbn [MessageBuffer.circuit_breaker MessageBuffer.set_stats
       MessageBuffer.set_circuit_breaker].
  rewrite can_proceed_closed.
  2:{ rewrite record_failure_open, Ho, orb_false_r.
      destruct (Z.leb_spec
                  (CircuitBreaker.failure_threshold (MessageBuffer.circuit_breaker b))
                  (CircuitBreaker.failure_count (MessageBuffer.circuit_breaker b) + 1));
        [lia | reflexivity]. }
  rewrite Hw3.
  eexists _, _. split; [reflexivity |]. cbn.
  repeat split; try lia.
  - rewrite Hlog3, Hlog2, Hlog1. rewrite <- app_assoc. reflexivity.
  - eexists. exact Htail.
Qed.

Lemma retry_delivers_first_chunk_twice_witness :
  MessageBuffer.lock ten_pending = false
  /\ exists b' w',
       MessageBuffer.flush (ten_pending, flaky_world) = (Ret tt, (b', w'))
       /\ MessageBuffer.messages b' = []
       /\ World.insert_log w'
          = [(take 5 ten_messages, None);
             (drop 5 ten_messages, Some NetworkTimeout);
             (take 5 ten_messages, None);
             (drop 5 ten_messages, None)].
Proof.
  split; [reflexivity |].
  destruct (retry_delivers_first_chunk_twice ten_pending flaky_world
              (World.mk_reply 1000 None)
              (World.mk_reply 3000000 (Some NetworkTimeout)) [] NetworkTimeout)
    as (b' & w' & H1 & H2 & _ & _ & _ & _ & H7 & _);
    try reflexivity.
  - cbn. lia.
  - constructor.
  - exists b', w'. split; [exact H1 |]. split; [exact H2 | exact H7].
Defined.

(** X3.  The flush whose first attempt brings a closed breaker to its
    threshold: after a transient failure with two failures already
    counted, the breaker opens, the retry is shed by the open breaker
    without a store call, and the executor returns [False] instead of
    raising.  The flush counts as failed and the records are pending again,
    but [batch_size] is not halved. *)
Theorem tripping_flush_keeps_batch_size
    (b : MessageBuffer.t) (w : World.t) (e : exn) (s1 : MessageBuffer.State) :
  MessageBuffer.lock b = false ->
  MessageBuffer.messages b <> [] ->
  breaker_ok (MessageBuffer.circuit_breaker b) ->
  CircuitBreaker.is_open (MessageBuffer.circuit_breaker b) = false ->
  CircuitBreaker.failure_count (MessageBuffer.circuit_breaker b) = 2 ->
  MessageBuffer.bulk_insert_attempt (MessageBuffer.messages b)
    (MessageBuffer.set_messages [] (MessageBuffer.set_lock true b), w)
  = (Raise e, s1) ->
  MessageBuffer.transient e = true ->
  exists b' w',
    MessageBuffer.flush (b, w) = (Ret tt, (b', w'))
    /\ MessageBuffer.messages b' = MessageBuffer.messages b
    /\ MessageBuffer.batch_size b' = MessageBuffer.batch_size b
    /\ MessageBuffer.failed_flushes (MessageBuffer.stats b')
       = MessageBuffer.failed_flushes (MessageBuffer.stats b) + 1
    /\ MessageBuffer.circuit_breaker_trips (MessageBuffer.stats b')
       = MessageBuffer.circuit_breaker_trips (MessageBuffer.stats b) + 1
    /\ CircuitBreaker.is_open (MessageBuffer.circuit_breaker b') = true
    /\ CircuitBreaker.failure_count (MessageBuffer.circuit_breaker b') = 3
    /\ World.insert_log w' = World.insert_log (snd s1)
    /\ World.replies w' = World.replies (snd s1).
Proof.
  intros Hl Hm (Ht & Hr & Hwf) Ho Hc H1 He. destruct s1 as [b1 w1].
  rewrite flush_run by assumption.
  rewrite perform_bulk_insert_run, H1, He.
  apply bulk_insert_attempt_raises in H1 as (cb1 & Hc1 & _ & ->); [| exact Hwf].
  cbn [MessageBuffer.circuit_breaker MessageBuffer.set_messages
       MessageBuffer.set_lock] in Hc1.
  rewrite can_proceed_closed in Hc1 by assumption. injection Hc1 as <-.
  unfold after_pause. cbn [fst snd]. rewrite pause_world.
  set (u := fst (World.next_draw w1)).
  pose proof (pause_length_bounds 10 (World.now w) (World.now w) 0 u) as (H0 & Hu & _).
  change (Backoff.expo 0) with 1 in Hu.
  set (d := pause_length 10 (World.now w) (World.now w) 0 u) in *.
  rewrite bulk_insert_attempt_run.
  cbn [MessageBuffer.circuit_breaker MessageBuffer.set_stats
       MessageBuffer.set_circuit_breaker MessageBuffer.set_messages
       MessageBuffer.set_lock].
  rewrite (can_proceed_cooling _ (World.now w1)).
  - eexists _, _. split; [reflexivity |]. cbn. rewrite Ht, Hc. cbn.
    unfold World.next_draw. destruct (World.draws w1); cbn; repeat split; lia.
  - rewrite record_failure_open, Ht, Hc. reflexivity.
  - reflexivity.
  - cbn. rewrite Hr. unfold usec_per_sec in *.
    unfold World.next_draw. destruct (World.draws w1); cbn; lia.
Qed.

Lemma tripping_flush_keeps_batch_size_witness :
  breaker_ok (MessageBuffer.circuit_breaker ten_pending_two_failures)
  /\ exists b' w',
       MessageBuffer.flush (ten_pending_two_failures, failing_world)
       = (Ret tt, (b', w'))
       /\ MessageBuffer.messages b' = ten_messages
       /\ MessageBuffer.batch_size b' = 10
       /\ CircuitBreaker.is_open (MessageBuffer.circuit_breaker b') = true.
Proof.
  assert (Hok : breaker_ok (MessageBuffer.circuit_breaker ten_pending_two_failures)).
  { repeat split. intros H; discriminate H. }
  split; [exact Hok |].
  edestruct (tripping_flush_keeps_batch_size ten_pending_two_failures failing_world)
    as (b' & w' & H1 & H2 & H3 & _ & _ & H6 & _).
  - reflexivity.
  - discriminate.
  - exact Hok.
  - reflexivity.
  - reflexivity.
  - vm_compute. reflexivity.
  - reflexivity.
  - exists b', w'. split; [exact H1 |]. split; [exact H2 |].
    split; [exact H3 | exact H6].
Defined.

(** ** Adding records *)

(** X4.  As long as the pending list stays shorter than [batch_size], a
    run of [add_message] calls only appends: every call returns, the records
    are pending in the order they came, "total_messages" has grown by their
    number, and neither the store, the clock nor the breaker is touched. *)
Theorem adds_below_batch_size_only_append
    (l : list Message.t) (b : MessageBuffer.t) (w : World.t) :
  MessageBuffer.lock b = false ->
  Z.of_nat (length (MessageBuffer.messages b) + length l)
  < MessageBuffer.batch_size b ->
  exists b',
    MessageBuffer.add_messages l (b, w) = (Ret tt, (b', w))
    /\ MessageBuffer.messages b' = MessageBuffer.messages b ++ l
    /\ MessageBuffer.total_messages (MessageBuffer.stats b')
       = MessageBuffer.total_messages (MessageBuffer.stats b) + Z.of_nat (length l)
    /\ MessageBuffer.lock b' = false
    /\ MessageBuffer.batch_size b' = MessageBuffer.batch_size b
    /\ MessageBuffer.circuit_breaker b' = MessageBuffer.circuit_breaker b
    /\ MessageBuffer.successful_flushes (MessageBuffer.stats b')
       = MessageBuffer.successful_flushes (MessageBuffer.stats b)
    /\ MessageBuffer.failed_flushes (MessageBuffer.stats b')
       = MessageBuffer.failed_flushes (MessageBuffer.stats b).
Proof.
  revert b. induction l as [|m l IH]; intros b Hl Hlen.
  - exists b. cbn. rewrite app_nil_r. repeat split; try assumption; lia.
  - cbn [MessageBuffer.add_messages]. unfold bind.
    rewrite add_message_run by assumption. cbv zeta.
    rewrite length_app. cbn [length] in *.
    destruct (Z.leb_spec (MessageBuffer.batch_size b)
                (Z.of_nat (length (MessageBuffer.messages b) + 1))); [lia |].
    destruct (IH (MessageBuffer.set_stats
                    (MessageBuffer.incr_total_messages (MessageBuffer.stats b))
                    (MessageBuffer.set_messages (MessageBuffer.messages b ++ [m]) b)))
      as (b' & Hrun & Hm & Ht & Hl' & Hb & Hcb & Hs & Hf).
    + exact Hl.
    + cbn. rewrite length_app. cbn. lia.
    + exists b'. rewrite Hrun. split; [reflexivity |].
      cbn in Hm, Ht, Hb, Hcb, Hs, Hf.
      rewrite Hm, Ht, <- app_assoc. repeat split; try assumption. lia.
Qed.

Lemma adds_below_batch_size_only_append_witness :
  exists b',
    MessageBuffer.add_messages nine_messages
      (MessageBuffer.message_buffer 0, failing_world) = (Ret tt, (b', failing_world))
    /\ MessageBuffer.messages b' = nine_messages.
Proof.
  destruct (adds_below_batch_size_only_append nine_messages
              (MessageBuffer.message_buffer 0) failing_world)
    as (b' & H1 & H2 & _); [reflexivity | reflexivity |].
  exists b'. split; [exact H1 | exact H2].
Defined.

(** ** A held lock *)
Section HeldLock.
Import MessageBuffer.

Lemma run_call_locked c b w :
  lock b = true ->
  let r := run_call c (b, w) in
  lock (fst (snd r)) = true
  /\ messages (fst (snd r)) = messages b
  /\ batch_size (fst (snd r)) = batch_size b
  /\ stats (fst (snd r)) = stats b
  /\ World.insert_log (snd (snd r)) = World.insert_log w
  /\ World.replies (snd (snd r)) = World.replies w
  /\ (c <> PeriodicRound -> r = (Blocked, (b, w))).
Proof.
  intros Hl. destruct c as [m | |]; cbn [run_call]; cbv zeta.
  - rewrite add_message_locked by assumption. cbn. auto 10.
  - rewrite flush_locked by assumption. cbn. auto 10.
  - rewrite periodic_round_run. cbv zeta.
    destruct (CircuitBreaker.can_proceed _ _) as [[[|]|e|] cb]; cbn;
      try (repeat split; (assumption || congruence)).
    rewrite flush_locked by assumption. cbn.
    repeat split; (assumption || congruence).
Qed.

End HeldLock.

(** X5.  Once the buffer's lock is held and its holder waits (as after an
    [add_message] that reached [batch_size]), no later call gets through:
    [add_message] and [flush] block at once, a scheduler round ends or
    blocks at its flush, and whatever the sequence of calls, the lock stays
    held, the pending list is as it was (records added from then on are
    not even appended), the counters do not move and the store is sent
    nothing. *)
Theorem held_lock_stops_the_buffer
    (b : MessageBuffer.t) (c : MessageBuffer.call) (w : World.t)
    (cs : list (MessageBuffer.call * World.t)) :
  MessageBuffer.lock b = true ->
  (let r := MessageBuffer.run_call c (b, w) in
   MessageBuffer.lock (fst (snd r)) = true
   /\ MessageBuffer.messages (fst (snd r)) = MessageBuffer.messages b
   /\ World.insert_log (snd (snd r)) = World.insert_log w
   /\ World.replies (snd (snd r)) = World.replies w
   /\ (c <> MessageBuffer.PeriodicRound -> r = (Blocked, (b, w))))
  /\ MessageBuffer.lock (run_calls cs b) = true
  /\ MessageBuffer.messages (run_calls cs b) = MessageBuffer.messages b
  /\ MessageBuffer.batch_size (run_calls cs b) = MessageBuffer.batch_size b
  /\ MessageBuffer.stats (run_calls cs b) = MessageBuffer.stats b.
Proof.
  intros Hl. split.
  - destruct (run_call_locked c b w Hl) as (H1 & H2 & _ & _ & H5 & H6 & H7).
    cbv zeta. auto.
  - revert b Hl. induction cs as [|[c' w'] cs IH]; intros b Hl; [cbn; auto |].
    destruct (run_call_locked c' b w' Hl) as (H1 & H2 & H3 & H4 & _).
    cbn [run_calls fold_left fst snd].
    destruct (IH _ H1) as (I1 & I2 & I3 & I4).
    unfold run_calls in *. rewrite I1, I2, I3, I4. auto.
Qed.

Lemma held_lock_stops_the_buffer_witness :
  exists s10,
    MessageBuffer.add_messages ten_messages
      (MessageBuffer.message_buffer 0, healthy_world) = (Blocked, s10)
    /\ MessageBuffer.lock (fst s10) = true
    /\ MessageBuffer.messages
         (run_calls [(MessageBuffer.AddMessage (sample_message 11), healthy_world);
                     (MessageBuffer.PeriodicRound, healthy_world);
                     (MessageBuffer.Flush, healthy_world)] (fst s10))
       = ten_messages.
Proof.
  eexists. split; [vm_compute; reflexivity |]. split; [reflexivity |].
  refine (proj1 (proj2 (proj2
    (held_lock_stops_the_buffer _ MessageBuffer.Flush healthy_world _ _)))).
  reflexivity.
Defined.

(** ** The scheduler *)
Section SchedulerFacts.
Import MessageBuffer.

(** A flush that finds the lock free returns it free, with the pending list
    either as it was or empty. *)
Lemma flush_lock_free b w :
  lock b = false ->
  exists b' w',
    flush (b, w) = (Ret tt, (b', w'))
    /\ lock b' = false
    /\ flush_interval b' = flush_interval b
    /\ (messages b' = messages b \/ messages b' = []).
Proof.
  intros Hl. destruct (messages b) as [|m l] eqn:Em.
  - exists b, w. rewrite flush_empty by assumption. rewrite Em. auto.
  - rewrite flush_run by congruence.
    pose proof (perform_bulk_insert_not_blocked (messages b)
                  (set_messages [] (set_lock true b), w)) as Hnb.
    destruct (_perform_bulk_insert _ _) as [r [b2 w2]] eqn:He.
    apply perform_bulk_insert_frame in He as (cb & n & ->).
    destruct r as [[|]|e|]; cbn in *; try congruence;
      eexists _, _; (split; [reflexivity |]); cbn; rewrite ?Em; auto.
Qed.

Lemma periodic_round_lock_free b w :
  lock b = false ->
  exists b' w',
    periodic_round (b, w) = (Ret tt, (b', w'))
    /\ lock b' = false
    /\ flush_interval b' = flush_interval b
    /\ (messages b' = messages b \/ messages b' = []).
Proof.
  intros Hl. rewrite periodic_round_run. cbv zeta.
  destruct (CircuitBreaker.can_proceed _ _) as [[[|]|e|] cb] eqn:Hc.
  - destruct (flush_lock_free (set_circuit_breaker cb b)
                (World.advance (Z.max 0 (flush_interval b)) w) Hl)
      as (b2 & w2 & -> & Hl2 & Hi2 & Hm2).
    eexists _, _. split; [reflexivity |].
    destruct (5 <? _); cbn; auto.
  - eexists _, _. split; [reflexivity |]. cbn. auto.
  - eexists _, _. split; [reflexivity |]. cbn. auto.
  - exfalso. unfold CircuitBreaker.can_proceed in Hc.
    destruct (negb _); [discriminate |].
    destruct (CircuitBreaker.last_failure_time _); [| discriminate].
    destruct (total_seconds_gt _ _ _); discriminate.
Qed.

End SchedulerFacts.

(** X6.  The scheduler loop outlives every failure: started with the lock
    free, any number of rounds return, whatever the store answers and
    whatever state the breaker is in; no exception leaves a round, the lock
    is free again after each, and the pending list at the end is either the
    one at the start or empty. *)
Theorem scheduler_rounds_always_return
    (rounds : nat) (b : MessageBuffer.t) (w : World.t) :
  MessageBuffer.lock b = false ->
  exists b' w',
    MessageBuffer.start_periodic_flush rounds (b, w) = (Ret tt, (b', w'))
    /\ MessageBuffer.lock b' = false
    /\ (MessageBuffer.messages b' = MessageBuffer.messages b
        \/ MessageBuffer.messages b' = []).
Proof.
  revert b w. induction rounds as [|n IH]; intros b w Hl.
  - exists b, w. cbn. auto.
  - destruct (periodic_round_lock_free b w Hl) as (b1 & w1 & H1 & Hl1 & _ & Hm1).
    destruct (IH b1 w1 Hl1) as (b2 & w2 & H2 & Hl2 & Hm2).
    exists b2, w2. cbn [MessageBuffer.start_periodic_flush]. unfold bind.
    rewrite H1, H2. split; [reflexivity |]. split; [exact Hl2 |].
    destruct Hm2 as [E|E]; [rewrite E; exact Hm1 | now right].
Qed.

Lemma scheduler_rounds_always_return_witness :
  exists b' w',
    MessageBuffer.start_periodic_flush 3 (ten_pending, failing_world)
    = (Ret tt, (b', w'))
    /\ MessageBuffer.lock b' = false.
Proof.
  destruct (scheduler_rounds_always_return 3 ten_pending failing_world eq_refl)
    as (b' & w' & H1 & H2 & _).
  exists b', w'. split; [exact H1 | exact H2].
Defined.

Section IdleRounds.
Import MessageBuffer.

Lemma idle_round b w :
  lock b = false ->
  messages b = [] ->
  CircuitBreaker.is_open (circuit_breaker b) = false ->
  5 < successful_flushes (stats b) ->
  periodic_round (b, w)
  = (Ret tt,
     (set_batch_size (Z.min 50 (batch_size b + 5)) b,
      World.advance (Z.max 0 (flush_interval b)) w)).
Proof.
  intros Hl Hm Ho Hs. rewrite periodic_round_run. cbv zeta.
  rewrite can_proceed_closed by assumption.
  rewrite set_circuit_breaker_id, flush_empty by assumption.
  destruct (Z.ltb_spec 5 (successful_flushes (stats b))); [reflexivity | lia].
Qed.

Lemma advance_advance d1 d2 w :
  World.advance d2 (World.advance d1 w) = World.advance (d1 + d2) w.
Proof. unfold World.advance. cbn. f_equal. lia. Qed.

Lemma advance_zero w : World.advance 0 w = w.
Proof. destruct w. unfold World.advance. cbn. f_equal. lia. Qed.

End IdleRounds.

(** X7.  Idle rounds restore [batch_size]: with more than five successful
    flushes on record, a closed breaker, nothing pending and [batch_size]
    not above 50, each round adds 5 to [batch_size] up to the ceiling of 50
    and changes nothing else in the buffer; the store is not called and the
    clock moves by the flush interval per round. *)
Theorem idle_rounds_grow_batch_size
    (rounds : nat) (b : MessageBuffer.t) (w : World.t) :
  MessageBuffer.lock b = false ->
  MessageBuffer.messages b = [] ->
  CircuitBreaker.is_open (MessageBuffer.circuit_breaker b) = false ->
  5 < MessageBuffer.successful_flushes (MessageBuffer.stats b) ->
  MessageBuffer.batch_size b <= 50 ->
  MessageBuffer.start_periodic_flush rounds (b, w)
  = (Ret tt,
     (MessageBuffer.set_batch_size
        (Z.min 50 (MessageBuffer.batch_size b + 5 * Z.of_nat rounds)) b,
      World.advance
        (Z.of_nat rounds * Z.max 0 (MessageBuffer.flush_interval b)) w)).
Proof.
  revert b w. induction rounds as [|n IH]; intros b w Hl Hm Ho Hs Hb.
  - cbn [MessageBuffer.start_periodic_flush]. unfold ret.
    rewrite advance_zero. f_equal. f_equal.
    destruct b; cbn in *. unfold MessageBuffer.set_batch_size. cbn.
    f_equal. lia.
  - cbn [MessageBuffer.start_periodic_flush]. unfold bind.
    rewrite idle_round by assumption.
    rewrite IH; cbn; try assumption; [| lia].
    rewrite advance_advance. f_equal. f_equal.
    + unfold MessageBuffer.set_batch_size. cbn. f_equal. lia.
    + f_equal. lia.
Qed.

Lemma idle_rounds_grow_batch_size_witness :
  MessageBuffer.batch_size
    (fst (snd (MessageBuffer.start_periodic_flush 3 (rested_buffer, failing_world))))
  = 25.
Proof.
  rewrite (idle_rounds_grow_batch_size 3 rested_buffer failing_world);
    [reflexivity | reflexivity | reflexivity | reflexivity | reflexivity |].
  cbn. lia.
Defined.

(** X8.  A scheduler round on an open breaker.  If the cooldown has not
    passed when the round wakes up, the round does nothing but let the
    clock move: no flush is tried and, unlike a direct flush, no failed
    flush is counted.  If the cooldown has passed, the round closes the
    breaker and flushes: with records pending and the store answering, the
    buffer is empty afterwards, the breaker is closed with no failure
    counted, and the store has the snapshot in slices. *)
Theorem round_on_open_breaker
    (b : MessageBuffer.t) (w : World.t) (last : datetime) :
  MessageBuffer.lock b = false ->
  CircuitBreaker.is_open (MessageBuffer.circuit_breaker b) = true ->
  CircuitBreaker.last_failure_time (MessageBuffer.circuit_breaker b) = Some last ->
  let wake := World.now w + Z.max 0 (MessageBuffer.flush_interval b) in
  (wake - last
   <= CircuitBreaker.reset_timeout (MessageBuffer.circuit_breaker b) * usec_per_sec ->
   MessageBuffer.periodic_round (b, w)
   = (Ret tt, (b, World.advance (Z.max 0 (MessageBuffer.flush_interval b)) w)))
  /\ (CircuitBreaker.reset_timeout (MessageBuffer.circuit_breaker b) * usec_per_sec
      < wake - last ->
      MessageBuffer.messages b <> [] ->
      calm w ->
      exists b' w',
        MessageBuffer.periodic_round (b, w) = (Ret tt, (b', w'))
        /\ MessageBuffer.messages b' = []
        /\ CircuitBreaker.is_open (MessageBuffer.circuit_breaker b') = false
        /\ CircuitBreaker.failure_count (MessageBuffer.circuit_breaker b') = 0
        /\ MessageBuffer.successful_flushes (MessageBuffer.stats b')
           = MessageBuffer.successful_flushes (MessageBuffer.stats b) + 1
        /\ World.insert_log w'
           = World.insert_log w
             ++ acknowledged (chunks_of (MessageBuffer.messages b))).
Proof.
  intros Hl Ho Hlast wake. split.
  - intros Hle. rewrite periodic_round_run. cbv zeta.
    rewrite (can_proceed_cooling _ last) by assumption.
    now rewrite set_circuit_breaker_id.
  - intros Hlt Hm Hc. rewrite periodic_round_run. cbv zeta.
    rewrite (can_proceed_cooled _ last) by assumption.
    set (cb := CircuitBreaker.mk 0 _ _ _ false).
    set (w0 := World.advance _ w).
    assert (Hc0 : calm w0) by exact Hc.
    destruct (insert_chunks_calm (MessageBuffer.messages b) w0 Hc0)
      as (w1 & Hi & _ & Hlog & _).
    rewrite flush_run by assumption.
    rewrite perform_bulk_insert_run, bulk_insert_attempt_run.
    cbn [MessageBuffer.circuit_breaker MessageBuffer.set_messages
         MessageBuffer.set_lock MessageBuffer.set_circuit_breaker
         MessageBuffer.messages].
    rewrite (can_proceed_closed _ cb) by reflexivity.
    rewrite Hi.
    eexists _, _. split; [reflexivity |].
    destruct (5 <? _); cbn; repeat split; assumption.
Qed.

Lemma round_on_open_breaker_witness :
  (MessageBuffer.periodic_round (ten_pending_open, healthy_world)
   = (Ret tt, (ten_pending_open, World.advance 2000000 healthy_world)))
  /\ exists b' w',
       MessageBuffer.periodic_round
         (ten_pending_open, World.advance 60000000 healthy_world)
       = (Ret tt, (b', w'))
       /\ MessageBuffer.messages b' = []
       /\ CircuitBreaker.is_open (MessageBuffer.circuit_breaker b') = false.
Proof.
  split.
  - destruct (round_on_open_breaker ten_pending_open healthy_world 0
                eq_refl eq_refl eq_refl) as (H & _).
    apply H. cbn. unfold usec_per_sec. lia.
  - destruct (round_on_open_breaker ten_pending_open
                (World.advance 60000000 healthy_world) 0
                eq_refl eq_refl eq_refl) as (_ & H).
    destruct H as (b' & w' & H1 & H2 & H3 & _).
    + cbn. unfold usec_per_sec. lia.
    + discriminate.
    + constructor.
    + exists b', w'. split; [exact H1 |]. split; [exact H2 | exact H3].
Defined.

(** * Properties of database.py *)
Section DatabaseFacts.

Lemma init_db_failure w r rs e :
  World.is_initialized w = false ->
  World.replies w = r :: rs ->
  World.reply_error r = Some e ->
  World.init_db w
  = (Raise e,
     World.mk (World.now w + World.reply_delay r) false rs (World.draws w)
       (World.insert_log w)).
Proof.
  intros Hi Hr He. unfold World.init_db, bind, get, ret. cbn [fst snd].
  rewrite Hi. unfold try_except, bind, World.store_call, World.next_reply.
  rewrite Hr, He. reflexivity.
Qed.

Lemma init_db_success w r rs :
  World.is_initialized w = false ->
  World.replies w = r :: rs ->
  World.reply_error r = None ->
  World.init_db w
  = (Ret tt,
     World.mk (World.now w + World.reply_delay r) true rs (World.draws w)
       (World.insert_log w)).
Proof.
  intros Hi Hr He. unfold World.init_db, bind, get, ret. cbn [fst snd].
  rewrite Hi. unfold try_except, bind, World.store_call, World.next_reply.
  rewrite Hr, He. reflexivity.
Qed.

End DatabaseFacts.

(** X9.  [connect_db] tries [init_db] at most three times.  On an
    initialised database it returns at once.  When the first try succeeds
    it returns with the database initialised and no wait.  When three tries
    in a row fail, it has slept 2 s after the first and 4 s after the
    second, it raises the error of the third, the database is not
    initialised and no fourth try is made.  A success on the second try
    comes after the 2 s wait. *)
Theorem connect_db_three_tries
    (w : World.t) (r1 r2 r3 : World.reply) (rest : list World.reply)
    (e1 e2 e3 : exn) :
  (World.is_initialized w = true -> Database.connect_db w = (Ret tt, w))
  /\ (World.is_initialized w = false ->
      World.replies w = r1 :: rest ->
      World.reply_error r1 = None ->
      Database.connect_db w
      = (Ret tt,
         World.mk (World.now w + World.reply_delay r1) true rest
           (World.draws w) (World.insert_log w)))
  /\ (World.is_initialized w = false ->
      World.replies w = r1 :: r2 :: rest ->
      World.reply_error r1 = Some e1 ->
      World.reply_error r2 = None ->
      Database.connect_db w
      = (Ret tt,
         World.mk
           (World.now w + World.reply_delay r1 + 2 * usec_per_sec
            + World.reply_delay r2)
           true rest (World.draws w) (World.insert_log w)))
  /\ (World.is_initialized w = false ->
      World.replies w = r1 :: r2 :: r3 :: rest ->
      World.reply_error r1 = Some e1 ->
      World.reply_error r2 = Some e2 ->
      World.reply_error r3 = Some e3 ->
      Database.connect_db w
      = (Raise e3,
         World.mk
           (World.now w + World.reply_delay r1 + 2 * usec_per_sec
            + World.reply_delay r2 + 4 * usec_per_sec + World.reply_delay r3)
           false rest (World.draws w) (World.insert_log w))).
Proof.
  unfold Database.connect_db, Database.max_retries.
  split; [| split; [| split]].
  - intros Hi. cbn [Database.connect_db_from]. unfold try_except.
    unfold World.init_db, bind, get, ret. cbn [fst snd]. now rewrite Hi.
  - intros Hi Hr H1. cbn [Database.connect_db_from]. unfold try_except.
    now rewrite (init_db_success w r1 rest).
  - intros Hi Hr H1 H2. cbn [Database.connect_db_from]. unfold try_except at 1.
    rewrite (init_db_failure w r1 (r2 :: rest) e1) by assumption.
    cbn [Nat.eqb Nat.sub Database.max_retries]. unfold bind at 1.
    unfold World.sleep, modify. cbn [fst snd]. unfold try_except.
    rewrite (init_db_success _ r2 rest); try reflexivity; try assumption.
  - intros Hi Hr H1 H2 H3. cbn [Database.connect_db_from]. unfold try_except at 1.
    rewrite (init_db_failure w r1 (r2 :: r3 :: rest) e1) by assumption.
    cbn [Nat.eqb Nat.sub Database.max_retries]. unfold bind at 1.
    unfold World.sleep, modify. cbn [fst snd]. unfold try_except at 1.
    rewrite (init_db_failure _ r2 (r3 :: rest) e2); try reflexivity; try assumption.
    cbn [Nat.eqb]. unfold bind at 1. cbn [fst snd]. unfold try_except.
    rewrite (init_db_failure _ r3 rest e3); try reflexivity; try assumption.
Qed.

Lemma connect_db_three_tries_witness :
  World.is_initialized unreachable_world = false
  /\ Database.connect_db unreachable_world
     = (Raise ConnectionFailure, World.mk 66000000 false [] [] []).
Proof.
  split; [reflexivity |].
  destruct (connect_db_three_tries unreachable_world
              (World.mk_reply 20000000 (Some ServerSelectionTimeoutError))
              (World.mk_reply 20000000 (Some ServerSelectionTimeoutError))
              (World.mk_reply 20000000 (Some ConnectionFailure)) []
              ServerSelectionTimeoutError ServerSelectionTimeoutError
              ConnectionFailure) as (_ & _ & _ & H).
  exact (H eq_refl eq_refl eq_refl eq_refl eq_refl).
Defined.

(** * Properties of the socket handlers *)
Section ChatBasics.
Import Chat.

Lemma chat_in_server_run {A} (m : St Server.t A) (c : t) :
  in_server m c = (fst (m (server c)), set_server (snd (m (server c))) c).
Proof. unfold in_server, lift. now destruct (m (server c)). Qed.

Lemma set_server_id c : set_server (server c) c = c.
Proof. now destruct c. Qed.

Lemma get_session_run sid c :
  in_server (Server.get_session sid) c
  = (Ret (default ∅ (Server.sessions (server c) !! sid)), c).
Proof.
  rewrite chat_in_server_run. unfold Server.get_session, bind, get, ret.
  cbn [fst snd]. now rewrite set_server_id.
Qed.

Lemma rooms_of_insert_eq sid l c :
  rooms_of sid (set_rooms (<[sid := l]> (rooms c)) c) = l.
Proof. unfold rooms_of. cbn. now rewrite lookup_insert_eq. Qed.

Lemma rooms_of_insert_ne sid sid' l c :
  sid <> sid' -> rooms_of sid' (set_rooms (<[sid := l]> (rooms c)) c) = rooms_of sid' c.
Proof. intros H. unfold rooms_of. cbn. now rewrite lookup_insert_ne. Qed.

End ChatBasics.

(** X10.  [connect] admits a socket only with a user id: without [auth], or
    with an [auth] that has no "user_id", it answers [False] and nothing
    changes.  With a user id it answers [True]; the session of the socket is
    then exactly that user id (a later [get_session] returns it, an earlier
    session of the same socket is replaced), the socket is in the room of
    that user and in every room it was in before, and the sessions and rooms
    of other sockets, the store and the emitted events are as before. *)
Theorem connect_needs_user_id
    (sid : string) (auth : option (gmap string string)) (c : Chat.t) :
  (auth = None -> Chat.connect sid auth c = (Ret false, c))
  /\ (forall a, auth = Some a -> a !! "user_id" = None ->
        Chat.connect sid auth c = (Ret false, c))
  /\ (forall a user_id, auth = Some a -> a !! "user_id" = Some user_id ->
        exists c',
          Chat.connect sid auth c = (Ret true, c')
          /\ Chat.in_server (Server.get_session sid) c'
             = (Ret {[ "user_id" := user_id ]}, c')
          /\ ("user_" +:+ user_id) ∈ Chat.rooms_of sid c'
          /\ (forall r, r ∈ Chat.rooms_of sid c -> r ∈ Chat.rooms_of sid c')
          /\ (forall sid', sid' <> sid ->
                Server.sessions (Chat.server c') !! sid'
                = Server.sessions (Chat.server c) !! sid'
                /\ Chat.rooms_of sid' c' = Chat.rooms_of sid' c)
          /\ Server.messages_collection (Chat.server c')
             = Server.messages_collection (Chat.server c)
          /\ Server.groups_collection (Chat.server c')
             = Server.groups_collection (Chat.server c)
          /\ Chat.sent c' = Chat.sent c).
Proof.
  split; [| split].
  - intros ->. reflexivity.
  - intros a -> Ha. unfold Chat.connect, try_except. now rewrite Ha.
  - intros a user_id -> Ha. unfold Chat.connect, try_except. rewrite Ha.
    unfold bind, Chat.save_session, Chat.enter_room, modify, ret. cbn [fst snd].
    eexists. split; [reflexivity |].
    split.
    { rewrite get_session_run. cbn. now rewrite lookup_insert_eq. }
    split.
    { rewrite rooms_of_insert_eq. apply add_to_set_elem. }
    split.
    { intros r Hr. rewrite rooms_of_insert_eq. unfold Server.add_to_set.
      case_bool_decide; [exact Hr |]. apply elem_of_app. now left. }
    split.
    { intros sid' Hne. split.
      - cbn. now rewrite lookup_insert_ne.
      - now rewrite rooms_of_insert_ne. }
    repeat split.
Qed.

Lemma connect_needs_user_id_witness :
  exists c',
    Chat.connect "sid_carol" (Some {[ "user_id" := "carol" ]}) sample_chat
    = (Ret true, c')
    /\ "user_carol" ∈ Chat.rooms_of "sid_carol" c'
    /\ Chat.rooms_of "sid_bob" c' = Chat.rooms_of "sid_bob" sample_chat.
Proof.
  destruct (connect_needs_user_id "sid_carol" (Some {[ "user_id" := "carol" ]})
              sample_chat) as (_ & _ & H).
  destruct (H {[ "user_id" := "carol" ]} "carol" eq_refl)
    as (c' & H1 & _ & H3 & _ & H5 & _); [reflexivity |].
  exists c'. split; [exact H1 |]. split; [exact H3 |].
  apply (H5 "sid_bob"). discriminate.
Defined.

(** ** Leaving rooms *)
Section LeaveFacts.
Import Chat.

Lemma for_each_leave sid (l : list string) c :
  for_each l (fun room => leave_room sid room) c
  = (Ret tt,
     match l with
     | [] => c
     | _ :: _ =>
         set_rooms (<[sid := filter (fun r => r ∉ l) (rooms_of sid c)]> (rooms c)) c
     end).
Proof.
  revert c. induction l as [|x l IH]; intros c; [reflexivity |].
  cbn [for_each]. unfold bind, leave_room at 1, modify. rewrite IH.
  f_equal. destruct l as [|y l].
  - f_equal. f_equal. apply list_filter_iff. intros r.
    rewrite list_elem_of_singleton. tauto.
  - rewrite rooms_of_insert_eq. unfold set_rooms. cbn [rooms server sent].
    rewrite insert_insert_eq. rewrite list_filter_filter.
    f_equal. f_equal. apply list_filter_iff. intros r.
    rewrite (not_elem_of_cons (y :: l)). tauto.
Qed.

Lemma filter_outside_self (l k : list string) :
  (forall x, x ∈ k -> x ∈ l) -> filter (fun r => r ∉ l) k = [].
Proof.
  induction k as [|x k IH]; intros Hk; [reflexivity |].
  rewrite filter_cons, decide_False.
  - apply IH. intros y Hy. apply Hk. now right.
  - intros Hn. apply Hn, Hk. now left.
Qed.

End LeaveFacts.

(** X11.  [disconnect] of a socket whose session has a user id takes the
    socket out of every room it was in and leaves the rooms of all other
    sockets, the sessions, the store and the emitted events as they were;
    for a socket without a user id in its session it changes nothing. *)
Theorem disconnect_leaves_all_rooms (sid : string) (c : Chat.t) :
  (default ∅ (Server.sessions (Chat.server c) !! sid) !! "user_id" = None ->
   Chat.disconnect sid c = (Ret tt, c))
  /\ (forall user_id,
        default ∅ (Server.sessions (Chat.server c) !! sid) !! "user_id"
        = Some user_id ->
        exists c',
          Chat.disconnect sid c = (Ret tt, c')
          /\ Chat.rooms_of sid c' = []
          /\ (forall sid', sid' <> sid -> Chat.rooms_of sid' c' = Chat.rooms_of sid' c)
          /\ Chat.server c' = Chat.server c
          /\ Chat.sent c' = Chat.sent c).
Proof.
  split.
  - intros Hu. unfold Chat.disconnect. unfold bind at 1.
    rewrite get_session_run. now rewrite Hu.
  - intros user_id Hu. unfold Chat.disconnect. unfold bind at 1.
    rewrite get_session_run, Hu. unfold bind, get. cbn [fst snd].
    rewrite for_each_leave. eexists. split; [reflexivity |].
    destruct (Chat.rooms_of sid c) as [|x l] eqn:Er.
    + repeat split; auto.
    + split.
      { rewrite rooms_of_insert_eq. now apply filter_outside_self. }
      split; [intros sid' Hne; now rewrite rooms_of_insert_ne |].
      split; reflexivity.
Qed.

Lemma disconnect_leaves_all_rooms_witness :
  exists c',
    Chat.disconnect "sid_bob" sample_chat = (Ret tt, c')
    /\ Chat.rooms_of "sid_bob" c' = [].
Proof.
  destruct (disconnect_leaves_all_rooms "sid_bob" sample_chat) as (_ & H).
  destruct (H "bob") as (c' & H1 & H2 & _); [reflexivity |].
  exists c'. split; [exact H1 | exact H2].
Defined.

(** ** Joining a group room *)
Section JoinFacts.
Import Chat.

Lemma chat_in_world_run {A} (m : St World.t A) (c : t) :
  in_server (Server.in_world m) c
  = (fst (m (Server.world (server c))),
     set_server (Server.set_world (snd (m (Server.world (server c)))) (server c)) c).
Proof. rewrite chat_in_server_run, server_in_world_run. reflexivity. Qed.

Lemma chat_find_one_group_run oid c :
  in_server (Server.find_one_group oid) c
  = match World.store_call (Server.world (server c)) with
    | (Ret _, w') =>
        (Ret (Server.groups_collection (server c) !! oid),
         set_server (Server.set_world w' (server c)) c)
    | (Raise e, w') => (Raise e, set_server (Server.set_world w' (server c)) c)
    | (Blocked, w') => (Blocked, set_server (Server.set_world w' (server c)) c)
    end.
Proof.
  rewrite chat_in_server_run, find_one_group_run.
  destruct (World.store_call _) as [[[]|e|] w']; reflexivity.
Qed.

Lemma chat_find_one_message_run oid c :
  in_server (Server.find_one_message oid) c
  = match World.store_call (Server.world (server c)) with
    | (Ret _, w') =>
        (Ret (Server.messages_collection (server c) !! oid),
         set_server (Server.set_world w' (server c)) c)
    | (Raise e, w') => (Raise e, set_server (Server.set_world w' (server c)) c)
    | (Blocked, w') => (Blocked, set_server (Server.set_world w' (server c)) c)
    end.
Proof.
  rewrite chat_in_server_run. unfold Server.find_one_message, bind.
  rewrite server_in_world_run.
  destruct (World.store_call _) as [[[]|e|] w']; reflexivity.
Qed.

Lemma chat_datetime_now_run c :
  in_server (Server.in_world World.datetime_now) c
  = (Ret (World.now (Server.world (server c))), c).
Proof.
  rewrite chat_in_world_run. destruct c as [[w ms gs ss es] rs snt]. reflexivity.
Qed.

Lemma chat_to_ObjectId_run text c :
  in_server (Server.to_ObjectId text) c
  = match ObjectId text with
    | Some oid => (Ret oid, c)
    | None => (Raise InvalidId, c)
    end.
Proof.
  rewrite chat_in_server_run. unfold Server.to_ObjectId.
  destruct (ObjectId text); cbn; now rewrite set_server_id.
Qed.

Lemma chat_getitem_run (d : gmap string string) key c :
  in_server (Server.getitem d key) c
  = match d !! key with
    | Some v => (Ret v, c)
    | None => (Raise KeyError, c)
    end.
Proof.
  rewrite chat_in_server_run. unfold Server.getitem.
  destruct (d !! key); cbn; now rewrite set_server_id.
Qed.

End JoinFacts.

(** X12.  [join_group] lets a socket into a group's room only for a member:
    the handler always returns, emits nothing and changes neither the store
    nor the sessions; the rooms change only when the session has a user id,
    the id names a stored group and that user is among its members, and then
    the socket enters the room named after the id as the client wrote it.
    With the store answering, a member does get in. *)
Theorem join_group_members_only (sid group_id : string) (c : Chat.t) :
  let r := Chat.join_group sid group_id c in
  fst r = Ret tt
  /\ Chat.sent (snd r) = Chat.sent c
  /\ Server.messages_collection (Chat.server (snd r))
     = Server.messages_collection (Chat.server c)
  /\ Server.groups_collection (Chat.server (snd r))
     = Server.groups_collection (Chat.server c)
  /\ Server.sessions (Chat.server (snd r)) = Server.sessions (Chat.server c)
  /\ (Chat.rooms (snd r) = Chat.rooms c
      \/ exists user_id oid g,
           default ∅ (Server.sessions (Chat.server c) !! sid) !! "user_id"
           = Some user_id
           /\ ObjectId group_id = Some oid
           /\ Server.groups_collection (Chat.server c) !! oid = Some g
           /\ user_id ∈ Group.member_ids g
           /\ Chat.rooms (snd r)
              = <[sid := Server.add_to_set ("group_" +:+ group_id)
                           (Chat.rooms_of sid c)]> (Chat.rooms c))
  /\ (calm (Server.world (Chat.server c)) ->
      forall user_id oid g,
        default ∅ (Server.sessions (Chat.server c) !! sid) !! "user_id"
        = Some user_id ->
        ObjectId group_id = Some oid ->
        Server.groups_collection (Chat.server c) !! oid = Some g ->
        user_id ∈ Group.member_ids g ->
        ("group_" +:+ group_id) ∈ Chat.rooms_of sid (snd r)).
Proof.
  cbv zeta. destruct (Chat.join_group sid group_id c) as [res c'] eqn:Hrun.
  cbn [fst snd]. revert Hrun.
  unfold Chat.join_group, try_except. unfold bind at 1.
  rewrite get_session_run.
  destruct (default ∅ (Server.sessions (Chat.server c) !! sid) !! "user_id")
    as [user_id|] eqn:Hu.
  2:{ intros [= <- <-]. repeat split; auto. intros _ ? ? ? H. discriminate H. }
  unfold bind at 1. rewrite chat_in_world_run.
  pose proof (get_groups_collection_not_blocked (Server.world (Chat.server c))) as Hnb.
  pose proof (get_groups_collection_calm (Server.world (Chat.server c))) as Hgc.
  destruct (World.get_groups_collection (Server.world (Chat.server c)))
    as [[[]|e|] w1]; cbn [fst snd] in *; [| | congruence].
  2:{ intros [= <- <-]. repeat split; auto. intros Hc.
      destruct (Hgc Hc) as (? & H & _). discriminate H. }
  unfold bind at 1. rewrite chat_to_ObjectId_run.
  destruct (ObjectId group_id) as [oid|] eqn:Ho.
  2:{ intros [= <- <-]. repeat split; auto. intros _ ? ? ? _ H. discriminate H. }
  unfold bind at 1. rewrite chat_find_one_group_run.
  cbn [Chat.server Chat.set_server Server.world Server.set_world
       Server.groups_collection].
  pose proof (store_call_not_blocked w1) as Hnb1.
  pose proof (store_call_calm w1) as Hsc.
  destruct (World.store_call w1) as [[[]|e|] w2]; cbn [fst snd] in *;
    [| | congruence].
  2:{ intros [= <- <-]. repeat split; auto. intros Hc.
      destruct (Hgc Hc) as (? & [= <-] & Hc1).
      destruct (Hsc Hc1) as (? & H & _). discriminate H. }
  destruct (Server.groups_collection (Chat.server c) !! oid) as [g|] eqn:Hg.
  2:{ intros [= <- <-]. repeat split; auto. intros _ ? ? ? _ [= <-] H. congruence. }
  destruct (bool_decide (user_id ∈ Group.member_ids g)) eqn:Hmem; cbn [negb].
  - apply bool_decide_eq_true_1 in Hmem.
    unfold Chat.enter_room, modify. intros [= <- <-].
    split; [reflexivity |]. split; [reflexivity |]. split; [reflexivity |].
    split; [reflexivity |]. split; [reflexivity |]. split.
    + right. exists user_id, oid, g. repeat split; auto.
    + intros _ u o g' _ _ _ _. unfold Chat.rooms_of at 1. cbn.
      rewrite lookup_insert_eq. cbn. apply add_to_set_elem.
  - apply bool_decide_eq_false_1 in Hmem.
    intros [= <- <-]. repeat split; auto.
    intros _ u o g' [= <-] [= <-] Hg' Hin. congruence.
Qed.

Lemma join_group_members_only_witness :
  calm (Server.world (Chat.server sample_chat))
  /\ ("group_" +:+ team_oid)
     ∈ Chat.rooms_of "sid_bob"
         (snd (Chat.join_group "sid_bob" team_oid
                 (snd (Chat.disconnect "sid_bob" sample_chat)))).
Proof.
  assert (Hc : calm (Server.world (Chat.server sample_chat))) by constructor.
  split; [exact Hc |].
  destruct (join_group_members_only "sid_bob" team_oid
              (snd (Chat.disconnect "sid_bob" sample_chat)))
    as (_ & _ & _ & _ & _ & _ & H).
  apply (H Hc "bob" team_oid team); try reflexivity.
  apply list_elem_of_In. cbn. tauto.
Defined.

(** ** Editing *)

(** X13.  Only its sender can edit a message.  When the caller is not the
    authenticated sender of the stored message the request names (no user id
    in the session, or another user's message), [edit_message] returns
    without changing any stored message, whatever the store answers, and
    emits exactly one "error" event, to the caller's own socket.  With the
    store answering and new content supplied, the error for another user's
    message is "Not authorized to edit this message". *)
Theorem edit_message_sender_only
    (sid : string) (data : gmap string string) (c : Chat.t) :
  (forall user_id mid oid m,
      default ∅ (Server.sessions (Chat.server c) !! sid) !! "user_id" = Some user_id ->
      data !! "message_id" = Some mid ->
      ObjectId mid = Some oid ->
      Server.messages_collection (Chat.server c) !! oid = Some m ->
      Message.from_user_id m <> user_id) ->
  let r := Chat.edit_message sid data c in
  fst r = Ret tt
  /\ Server.messages_collection (Chat.server (snd r))
     = Server.messages_collection (Chat.server c)
  /\ Chat.rooms (snd r) = Chat.rooms c
  /\ (exists text,
        Chat.sent (snd r)
        = Chat.sent c ++ [Chat.mk_emission "error" (Chat.Notice text) sid])
  /\ (calm (Server.world (Chat.server c)) ->
      forall user_id mid oid m new_content,
        default ∅ (Server.sessions (Chat.server c) !! sid) !! "user_id"
        = Some user_id ->
        data !! "message_id" = Some mid ->
        ObjectId mid = Some oid ->
        data !! "content" = Some new_content ->
        Server.messages_collection (Chat.server c) !! oid = Some m ->
        Chat.sent (snd r)
        = Chat.sent c
          ++ [Chat.mk_emission "error"
                (Chat.Notice "Not authorized to edit this message") sid]).
Proof.
  intros Hns. cbv zeta.
  destruct (Chat.edit_message sid data c) as [res c'] eqn:Hrun.
  cbn [fst snd]. revert Hrun.
  unfold Chat.edit_message, try_except. unfold bind at 1.
  rewrite get_session_run.
  destruct (default ∅ (Server.sessions (Chat.server c) !! sid) !! "user_id")
    as [user_id|] eqn:Hu.
  2:{ unfold Chat.emit, modify. intros [= <- <-]. cbn. repeat split; eauto.
      intros _ ? ? ? ? ? H. discriminate H. }
  unfold bind at 1. rewrite chat_in_world_run.
  pose proof (get_messages_collection_not_blocked (Server.world (Chat.server c))) as Hnb.
  pose proof (get_messages_collection_calm (Server.world (Chat.server c))) as Hgc.
  destruct (World.get_messages_collection (Server.world (Chat.server c)))
    as [[[]|e|] w1]; cbn [fst snd] in *; [| | congruence].
  2:{ unfold Chat.emit, modify. intros [= <- <-]. cbn. repeat split; eauto.
      intros Hc. destruct (Hgc Hc) as (? & H & _). discriminate H. }
  unfold bind at 1. rewrite chat_getitem_run.
  destruct (data !! "message_id") as [mid|] eqn:Hd.
  2:{ unfold Chat.emit, modify. intros [= <- <-]. cbn. repeat split; eauto.
      intros _ ? ? ? ? ? _ H. discriminate H. }
  unfold bind at 1. rewrite chat_to_ObjectId_run.
  destruct (ObjectId mid) as [oid|] eqn:Ho.
  2:{ unfold Chat.emit, modify. intros [= <- <-]. cbn. repeat split; eauto.
      intros _ ? ? ? ? ? _ [= <-] H. congruence. }
  unfold bind at 1. rewrite chat_getitem_run.
  destruct (data !! "content") as [new_content|] eqn:Hcontent.
  2:{ unfold Chat.emit, modify. intros [= <- <-]. cbn. repeat split; eauto.
      intros _ ? ? ? ? ? _ _ _ H. discriminate H. }
  unfold bind at 1. rewrite chat_find_one_message_run.
  cbn [Chat.server Chat.set_server Server.world Server.set_world
       Server.messages_collection].
  pose proof (store_call_not_blocked w1) as Hnb1.
  pose proof (store_call_calm w1) as Hsc.
  destruct (World.store_call w1) as [[[]|e|] w2]; cbn [fst snd] in *;
    [| | congruence].
  2:{ unfold Chat.emit, modify. intros [= <- <-]. cbn. repeat split; eauto.
      intros Hc. destruct (Hgc Hc) as (? & [= <-] & Hc1).
      destruct (Hsc Hc1) as (? & H & _). discriminate H. }
  destruct (Server.messages_collection (Chat.server c) !! oid) as [m|] eqn:Hm.
  2:{ unfold Chat.emit, modify. intros [= <- <-]. cbn. repeat split; eauto.
      intros _ ? ? ? ? ? _ [= <-] Ho' _ Hm'. congruence. }
  rewrite bool_decide_eq_false_2 by (eapply Hns; eauto). cbn [negb].
  unfold Chat.emit, modify. intros [= <- <-]. cbn. repeat split; eauto.
Qed.

Lemma edit_message_sender_only_witness :
  calm (Server.world (Chat.server sample_chat))
  /\ Server.messages_collection
       (Chat.server
          (snd (Chat.edit_message "sid_bob"
                  {[ "message_id" := direct_oid; "content" := "forged" ]}
                  sample_chat)))
     = Server.messages_collection (Chat.server sample_chat).
Proof.
  split; [constructor |].
  refine (proj1 (proj2 (edit_message_sender_only "sid_bob"
    {[ "message_id" := direct_oid; "content" := "forged" ]} sample_chat _))).
  intros user_id mid oid m Hu Hd Ho Hm.
  vm_compute in Hu. injection Hu as <-.
  vm_compute in Hd. injection Hd as <-.
  vm_compute in Ho. injection Ho as <-.
  vm_compute in Hm. injection Hm as <-.
  discriminate.
Defined.

Section EditFacts.
Import Chat.

Lemma update_one_content_calm oid new_content m (s : Server.t) :
  calm (Server.world s) ->
  Server.messages_collection s !! oid = Some m ->
  exists w',
    calm w'
    /\ update_one_content oid new_content s
       = if bool_decide (Message.content m = new_content)
         then (Ret 0, Server.set_world w' s)
         else (Ret 1,
               Server.set_messages_collection
                 (<[oid := set_content new_content m]>
                    (Server.messages_collection s))
                 (Server.set_world w' s)).
Proof.
  intros Hc Hm. destruct (store_call_calm _ Hc) as (w' & Hs & Hc' & _).
  exists w'. split; [exact Hc' |].
  unfold update_one_content.
  rewrite (bind_ret _ _ _ _ _ (in_world_calm _ _ _ _ Hs)).
  unfold bind, get. cbn [Server.messages_collection Server.set_world].
  rewrite Hm. destruct (bool_decide (Message.content m = new_content)); reflexivity.
Qed.

Lemma chat_update_one_content_calm oid new_content m c :
  calm (Server.world (server c)) ->
  Server.messages_collection (server c) !! oid = Some m ->
  exists w',
    calm w'
    /\ in_server (update_one_content oid new_content) c
       = if bool_decide (Message.content m = new_content)
         then (Ret 0, set_server (Server.set_world w' (server c)) c)
         else (Ret 1,
               set_server
                 (Server.set_messages_collection
                    (<[oid := set_content new_content m]>
                       (Server.messages_collection (server c)))
                    (Server.set_world w' (server c))) c).
Proof.
  intros Hc Hm.
  destruct (update_one_content_calm oid new_content m (server c) Hc Hm)
    as (w' & Hc' & Hrun).
  exists w'. split; [exact Hc' |].
  rewrite chat_in_server_run, Hrun.
  destruct (bool_decide (Message.content m = new_content)); reflexivity.
Qed.

End EditFacts.

(** X14.  An edit by the sender, with the store answering.  The handler
    returns and the rooms are untouched.  If the new content is the content
    the message already has, nothing is stored and nothing is emitted, not
    even to the caller.  Otherwise the stored message gets the new content
    (its other fields and all other messages unchanged) and one
    "message_update" with that content goes to the group's room for a group
    message, or to the sender's room and then the recipient's room for a
    direct one. *)
Theorem edit_message_by_sender
    (sid : string) (data : gmap string string) (c : Chat.t)
    (user_id mid oid new_content : string) (m : Message.t) :
  default ∅ (Server.sessions (Chat.server c) !! sid) !! "user_id" = Some user_id ->
  data !! "message_id" = Some mid ->
  ObjectId mid = Some oid ->
  data !! "content" = Some new_content ->
  Server.messages_collection (Chat.server c) !! oid = Some m ->
  Message.from_user_id m = user_id ->
  calm (Server.world (Chat.server c)) ->
  exists c' edited_at,
    Chat.edit_message sid data c = (Ret tt, c')
    /\ Chat.rooms c' = Chat.rooms c
    /\ (Message.content m = new_content ->
        Server.messages_collection (Chat.server c')
        = Server.messages_collection (Chat.server c)
        /\ Chat.sent c' = Chat.sent c)
    /\ (Message.content m <> new_content ->
        Server.messages_collection (Chat.server c')
        = <[oid := Chat.set_content new_content m]>
            (Server.messages_collection (Chat.server c))
        /\ (forall gid,
              Message.type m = "group" -> Message.group_id m = Some gid ->
              Chat.sent c'
              = Chat.sent c
                ++ [Chat.mk_emission "message_update"
                      (Chat.MessageEdit oid new_content edited_at)
                      ("group_" +:+ gid)])
        /\ (forall to,
              Message.type m <> "group" -> Message.to_user_id m = Some to ->
              Chat.sent c'
              = Chat.sent c
                ++ [Chat.mk_emission "message_update"
                      (Chat.MessageEdit oid new_content edited_at)
                      ("user_" +:+ Message.from_user_id m);
                    Chat.mk_emission "message_update"
                      (Chat.MessageEdit oid new_content edited_at)
                      ("user_" +:+ to)])).
Proof.
  intros Hu Hd Ho Hcontent Hm Hfrom Hc.
  destruct (get_messages_collection_calm _ Hc) as (w1 & Hg1 & Hc1).
  destruct (store_call_calm _ Hc1) as (w2 & Hs2 & Hc2 & _).
  destruct (chat_update_one_content_calm oid new_content m
              (Chat.set_server (Server.set_world w2 (Chat.server c)) c) Hc2 Hm)
    as (w3 & Hc3 & Hup).
  unfold Chat.edit_message, try_except. unfold bind at 1.
  rewrite get_session_run, Hu.
  unfold bind at 1. rewrite chat_in_world_run, Hg1. cbn [fst snd].
  unfold bind at 1. rewrite chat_getitem_run, Hd.
  unfold bind at 1. rewrite chat_to_ObjectId_run, Ho.
  unfold bind at 1. rewrite chat_getitem_run, Hcontent.
  unfold bind at 1. rewrite chat_find_one_message_run.
  cbn [Chat.server Chat.set_server Server.world Server.set_world
       Server.messages_collection].
  rewrite Hs2, Hm.
  rewrite bool_decide_eq_true_2 by assumption. cbn [negb].
  unfold bind at 1.
  change (Chat.set_server
            (Server.set_world w2 (Server.set_world w1 (Chat.server c)))
            (Chat.set_server (Server.set_world w1 (Chat.server c)) c))
    with (Chat.set_server (Server.set_world w2 (Chat.server c)) c).
  rewrite Hup.
  destruct (bool_decide (Message.content m = new_content)) eqn:Hsame.
  - apply bool_decide_eq_true_1 in Hsame. cbn.
    eexists _, 0. split; [reflexivity |]. cbn. repeat split; auto; contradiction.
  - apply bool_decide_eq_false_1 in Hsame. cbn [Z.ltb Z.compare].
    unfold bind at 1. rewrite chat_datetime_now_run.
    destruct (bool_decide (Message.type m = "group")) eqn:Htype.
    + apply bool_decide_eq_true_1 in Htype.
      destruct (Message.group_id m) as [gid|] eqn:Hgid.
      * cbn. eexists _, _. split; [reflexivity |]. cbn.
        split; [reflexivity |]. split; [contradiction |]. intros _.
        split; [reflexivity |]. split.
        -- intros ? _ [= <-]. reflexivity.
        -- intros ? Hn _. contradiction.
      * cbn. eexists _, (World.now w3). split; [reflexivity |]. cbn.
        split; [reflexivity |]. split; [contradiction |]. intros _.
        split; [reflexivity |]. split.
        -- intros ? _ H. discriminate H.
        -- intros ? Hn _. contradiction.
    + apply bool_decide_eq_false_1 in Htype.
      destruct (Message.to_user_id m) as [to|] eqn:Hto.
      * cbn. eexists _, _. split; [reflexivity |]. cbn.
        split; [reflexivity |]. split; [contradiction |]. intros _.
        split; [reflexivity |]. split.
        -- intros ? Ht _. contradiction.
        -- intros ? _ [= <-]. rewrite <- app_assoc. reflexivity.
      * cbn. eexists _, (World.now w3). split; [reflexivity |]. cbn.
        split; [reflexivity |]. split; [contradiction |]. intros _.
        split; [reflexivity |]. split.
        -- intros ? Ht _. contradiction.
        -- intros ? _ H. discriminate H.
Qed.

Lemma edit_message_by_sender_witness :
  calm (Server.world (Chat.server chat_with_alice))
  /\ exists c' edited_at,
       Chat.edit_message "sid_alice"
         {[ "message_id" := direct_oid; "content" := "hello, bob" ]} chat_with_alice
       = (Ret tt, c')
       /\ Message.content
            <$> (Server.messages_collection (Chat.server c') !! direct_oid)
          = Some "hello, bob"
       /\ Chat.sent c'
          = [Chat.mk_emission "message_update"
               (Chat.MessageEdit direct_oid "hello, bob" edited_at) "user_alice";
             Chat.mk_emission "message_update"
               (Chat.MessageEdit direct_oid "hello, bob" edited_at) "user_bob"].
Proof.
  assert (Hc : calm (Server.world (Chat.server chat_with_alice))) by constructor.
  split; [exact Hc |].
  destruct (edit_message_by_sender "sid_alice"
              {[ "message_id" := direct_oid; "content" := "hello, bob" ]}
              chat_with_alice "alice" direct_oid direct_oid "hello, bob"
              direct_message)
    as (c' & t & H1 & _ & _ & H4); try reflexivity; try exact Hc.
  destruct H4 as (Hm & _ & Hd); [discriminate |].
  exists c', t. split; [exact H1 |]. split.
  - rewrite Hm, lookup_insert_eq. reflexivity.
  - apply (Hd "bob"); [discriminate | reflexivity].
Defined.

(** ** Deleting *)
Section DeleteFacts.
Import Chat.

Lemma update_one_deleted_for_run oid user_id (s : Server.t) :
  update_one_deleted_for oid user_id s
  = match World.store_call (Server.world s) with
    | (Ret _, w') =>
        (Ret tt,
         Server.set_messages_collection
           (alter (fun m => set_deleted_for
                              (Server.add_to_set user_id (Message.deleted_for m)) m)
                  oid (Server.messages_collection s))
           (Server.set_world w' s))
    | (Raise e, w') => (Raise e, Server.set_world w' s)
    | (Blocked, w') => (Blocked, Server.set_world w' s)
    end.
Proof.
  unfold update_one_deleted_for, bind. rewrite server_in_world_run.
  destruct (World.store_call _) as [[[]|e|] w']; reflexivity.
Qed.

Lemma delete_one_message_run oid (s : Server.t) :
  delete_one_message oid s
  = match World.store_call (Server.world s) with
    | (Ret _, w') =>
        (Ret tt,
         Server.set_messages_collection (delete oid (Server.messages_collection s))
           (Server.set_world w' s))
    | (Raise e, w') => (Raise e, Server.set_world w' s)
    | (Blocked, w') => (Blocked, Server.set_world w' s)
    end.
Proof.
  unfold delete_one_message, bind. rewrite server_in_world_run.
  destruct (World.store_call _) as [[[]|e|] w']; reflexivity.
Qed.

Lemma set_deleted_for_id m : set_deleted_for (Message.deleted_for m) m = m.
Proof. now destruct m. Qed.

(** The stored messages are those of [ms], up to their [deleted_for]. *)
Lemma hidden_only_refl (ms : gmap string Message.t) :
  forall k m, ms !! k = Some m -> exists d, ms !! k = Some (set_deleted_for d m).
Proof. intros k m H. exists (Message.deleted_for m). now rewrite set_deleted_for_id. Qed.

Lemma hidden_only_alter (ms : gmap string Message.t) oid user_id :
  forall k m, ms !! k = Some m ->
    exists d,
      alter (fun m => set_deleted_for
                        (Server.add_to_set user_id (Message.deleted_for m)) m)
            oid ms !! k
      = Some (set_deleted_for d m).
Proof.
  intros k m H. destruct (decide (oid = k)) as [->|Hne].
  - rewrite lookup_alter_eq, H. cbn. eauto.
  - rewrite lookup_alter_ne by assumption. now apply hidden_only_refl.
Qed.

End DeleteFacts.

(** X15.  Only its sender can remove a message.  When the caller is not the
    authenticated sender of the stored message the request names,
    [delete_message] returns with every stored message still stored,
    whatever the store answers and whatever "delete_for" says: at most the
    [deleted_for] list of a message has changed. *)
Theorem delete_message_sender_only
    (sid : string) (data : gmap string string) (c : Chat.t) :
  (forall user_id mid oid m,
      default ∅ (Server.sessions (Chat.server c) !! sid) !! "user_id" = Some user_id ->
      data !! "message_id" = Some mid ->
      ObjectId mid = Some oid ->
      Server.messages_collection (Chat.server c) !! oid = Some m ->
      Message.from_user_id m <> user_id) ->
  let r := Chat.delete_message sid data c in
  fst r = Ret tt
  /\ Chat.rooms (snd r) = Chat.rooms c
  /\ (forall k m,
        Server.messages_collection (Chat.server c) !! k = Some m ->
        exists d,
          Server.messages_collection (Chat.server (snd r)) !! k
          = Some (Chat.set_deleted_for d m)).
Proof.
  intros Hns. cbv zeta.
  destruct (Chat.delete_message sid data c) as [res c'] eqn:Hrun.
  cbn [fst snd]. revert Hrun.
  unfold Chat.delete_message, try_except. unfold bind at 1.
  rewrite get_session_run.
  destruct (default ∅ (Server.sessions (Chat.server c) !! sid) !! "user_id")
    as [user_id|] eqn:Hu.
  2:{ unfold Chat.emit, modify. intros [= <- <-]. cbn.
      repeat split; auto using hidden_only_refl. }
  unfold bind at 1. rewrite chat_in_world_run.
  pose proof (get_messages_collection_not_blocked (Server.world (Chat.server c))) as Hnb.
  destruct (World.get_messages_collection (Server.world (Chat.server c)))
    as [[[]|e|] w1]; cbn [fst snd] in *; [| | congruence].
  2:{ unfold Chat.emit, modify. intros [= <- <-]. cbn.
      repeat split; auto using hidden_only_refl. }
  unfold bind at 1. rewrite chat_getitem_run.
  destruct (data !! "message_id") as [mid|] eqn:Hd.
  2:{ unfold Chat.emit, modify. intros [= <- <-]. cbn.
      repeat split; auto using hidden_only_refl. }
  unfold bind at 1. rewrite chat_to_ObjectId_run.
  destruct (ObjectId mid) as [oid|] eqn:Ho.
  2:{ unfold Chat.emit, modify. intros [= <- <-]. cbn.
      repeat split; auto using hidden_only_refl. }
  unfold bind at 1. rewrite chat_find_one_message_run.
  cbn [Chat.server Chat.set_server Server.world Server.set_world
       Server.messages_collection].
  pose proof (store_call_not_blocked w1) as Hnb1.
  destruct (World.store_call w1) as [[[]|e|] w2]; cbn [fst snd] in *;
    [| | congruence].
  2:{ unfold Chat.emit, modify. intros [= <- <-]. cbn.
      repeat split; auto using hidden_only_refl. }
  destruct (Server.messages_collection (Chat.server c) !! oid) as [m|] eqn:Hm.
  2:{ unfold Chat.emit, modify. intros [= <- <-]. cbn.
      repeat split; auto using hidden_only_refl. }
  destruct (bool_decide (default "everyone" (data !! "delete_for") = "everyone")).
  - rewrite bool_decide_eq_false_2 by (eapply Hns; eauto). cbn [negb].
    unfold Chat.emit, modify. intros [= <- <-]. cbn.
    repeat split; auto using hidden_only_refl.
  - unfold bind at 1. rewrite chat_in_server_run, update_one_deleted_for_run.
    cbn [Chat.server Chat.set_server Server.world Server.set_world
         Server.messages_collection].
    pose proof (store_call_not_blocked w2) as Hnb2.
    destruct (World.store_call w2) as [[[]|e|] w3]; cbn [fst snd] in *;
      [| | congruence].
    + unfold bind, Chat.emit, modify. intros [= <- <-]. cbn.
      repeat split; auto using hidden_only_alter.
    + unfold Chat.emit, modify. intros [= <- <-]. cbn.
      repeat split; auto using hidden_only_refl.
Qed.

Lemma delete_message_sender_only_witness :
  exists d,
    Server.messages_collection
      (Chat.server
         (snd (Chat.delete_message "sid_bob" {[ "message_id" := direct_oid ]}
                 sample_chat))) !! direct_oid
    = Some (Chat.set_deleted_for d direct_message).
Proof.
  refine (proj2 (proj2 (delete_message_sender_only "sid_bob"
    {[ "message_id" := direct_oid ]} sample_chat _)) direct_oid direct_message _).
  - intros user_id mid oid m Hu Hd Ho Hm.
    vm_compute in Hu. injection Hu as <-.
    vm_compute in Hd. injection Hd as <-.
    vm_compute in Ho. injection Ho as <-.
    vm_compute in Hm. injection Hm as <-.
    discriminate.
  - reflexivity.
Defined.

(** X16.  A deletion for everyone by the sender, with the store answering
    ("delete_for" absent or "everyone"): the message is no longer stored,
    every other message is; a "message_deleted" event goes to the group's
    room for a group message, or to the recipient's room and then the
    sender's room for a direct one; and the caller's socket gets the
    "success" event last. *)
Theorem delete_message_for_everyone
    (sid : string) (data : gmap string string) (c : Chat.t)
    (user_id mid oid : string) (m : Message.t) :
  default ∅ (Server.sessions (Chat.server c) !! sid) !! "user_id" = Some user_id ->
  data !! "message_id" = Some mid ->
  ObjectId mid = Some oid ->
  default "everyone" (data !! "delete_for") = "everyone" ->
  Server.messages_collection (Chat.server c) !! oid = Some m ->
  Message.from_user_id m = user_id ->
  calm (Server.world (Chat.server c)) ->
  exists c' deleted_at,
    Chat.delete_message sid data c = (Ret tt, c')
    /\ Server.messages_collection (Chat.server c')
       = delete oid (Server.messages_collection (Chat.server c))
    /\ Chat.rooms c' = Chat.rooms c
    /\ (forall gid,
          Message.type m = "group" -> Message.group_id m = Some gid ->
          Chat.sent c'
          = Chat.sent c
            ++ [Chat.mk_emission "message_deleted"
                  (Chat.MessageDeleted oid (Message.type m) deleted_at)
                  ("group_" +:+ gid);
                Chat.mk_emission "success"
                  (Chat.Notice "Message deleted successfully") sid])
    /\ (forall to,
          Message.type m <> "group" -> Message.to_user_id m = Some to ->
          Chat.sent c'
          = Chat.sent c
            ++ [Chat.mk_emission "message_deleted"
                  (Chat.MessageDeleted oid (Message.type m) deleted_at)
                  ("user_" +:+ to);
                Chat.mk_emission "message_deleted"
                  (Chat.MessageDeleted oid (Message.type m) deleted_at)
                  ("user_" +:+ user_id);
                Chat.mk_emission "success"
                  (Chat.Notice "Message deleted successfully") sid]).
Proof.
  intros Hu Hd Ho Hfor Hm Hfrom Hc.
  destruct (get_messages_collection_calm _ Hc) as (w1 & Hg1 & Hc1).
  destruct (store_call_calm _ Hc1) as (w2 & Hs2 & Hc2 & _).
  destruct (store_call_calm _ Hc2) as (w3 & Hs3 & Hc3 & _).
  unfold Chat.delete_message, try_except. unfold bind at 1.
  rewrite get_session_run, Hu.
  unfold bind at 1. rewrite chat_in_world_run, Hg1. cbn [fst snd].
  unfold bind at 1. rewrite chat_getitem_run, Hd.
  unfold bind at 1. rewrite chat_to_ObjectId_run, Ho.
  unfold bind at 1. rewrite chat_find_one_message_run.
  cbn [Chat.server Chat.set_server Server.world Server.set_world
       Server.messages_collection].
  rewrite Hs2, Hm, Hfor.
  rewrite (bool_decide_eq_true_2 ("everyone" = "everyone")) by reflexivity.
  rewrite !bool_decide_eq_true_2 by assumption. cbn [negb].
  unfold bind at 1. rewrite chat_in_server_run, delete_one_message_run.
  cbn [Chat.server Chat.set_server Server.world Server.set_world
       Server.messages_collection].
  rewrite Hs3. cbn [fst snd].
  unfold bind at 1. rewrite chat_datetime_now_run.
  unfold bind at 1.
  destruct (bool_decide (Message.type m = "group")) eqn:Htype.
  - apply bool_decide_eq_true_1 in Htype.
    destruct (Message.group_id m) as [gid|] eqn:Hgid.
    + cbn. eexists _, _. split; [reflexivity |]. cbn.
      split; [reflexivity |]. split; [reflexivity |]. split.
      * intros ? _ [= <-]. rewrite <- app_assoc. reflexivity.
      * intros ? Hn _. contradiction.
    + cbn. eexists _, 0. split; [reflexivity |]. cbn.
      split; [reflexivity |]. split; [reflexivity |]. split.
      * intros ? _ H. discriminate H.
      * intros ? Hn _. contradiction.
  - apply bool_decide_eq_false_1 in Htype.
    destruct (Message.to_user_id m) as [to|] eqn:Hto.
    + cbn. eexists _, _. split; [reflexivity |]. cbn.
      split; [reflexivity |]. split; [reflexivity |]. split.
      * intros ? Ht _. contradiction.
      * intros ? _ [= <-]. rewrite <- !app_assoc. reflexivity.
    + cbn. eexists _, 0. split; [reflexivity |]. cbn.
      split; [reflexivity |]. split; [reflexivity |]. split.
      * intros ? Ht _. contradiction.
      * intros ? _ H. discriminate H.
Qed.

Lemma delete_message_for_everyone_witness :
  calm (Server.world (Chat.server chat_with_alice))
  /\ exists c',
       Chat.delete_message "sid_alice" {[ "message_id" := group_message_oid ]}
         chat_with_alice = (Ret tt, c')
       /\ Server.messages_collection (Chat.server c') !! group_message_oid = None
       /\ Server.messages_collection (Chat.server c') !! direct_oid
          = Some direct_message.
Proof.
  assert (Hc : calm (Server.world (Chat.server chat_with_alice))) by constructor.
  split; [exact Hc |].
  destruct (delete_message_for_everyone "sid_alice"
              {[ "message_id" := group_message_oid ]} chat_with_alice
              "alice" group_message_oid group_message_oid group_message)
    as (c' & t & H1 & H2 & _); try reflexivity; try exact Hc.
  exists c'. split; [exact H1 |]. rewrite H2. split.
  - apply lookup_delete_eq.
  - rewrite lookup_delete_ne by discriminate. reflexivity.
Defined.

Section HideFacts.
Import Chat.

(** A deletion "for me", with the store answering. *)
Lemma delete_for_me_run sid data c user_id mid oid how m :
  default ∅ (Server.sessions (server c) !! sid) !! "user_id" = Some user_id ->
  data !! "message_id" = Some mid ->
  ObjectId mid = Some oid ->
  data !! "delete_for" = Some how ->
  how <> "everyone" ->
  Server.messages_collection (server c) !! oid = Some m ->
  calm (Server.world (server c)) ->
  exists w',
    calm w'
    /\ delete_message sid data c
       = (Ret tt,
          mk (Server.mk w'
                (alter (hidden_for user_id) oid (Server.messages_collection (server c)))
                (Server.groups_collection (server c))
                (Server.sessions (server c))
                (Server.emitted (server c)))
             (rooms c)
             (sent c
              ++ [mk_emission "message_deleted" (MessageHidden oid)
                    ("user_" +:+ user_id);
                  mk_emission "success" (Notice "Message deleted successfully")
                    sid])).
Proof.
  intros Hu Hd Ho Hfor Hne Hm Hc.
  destruct (get_messages_collection_calm _ Hc) as (w1 & Hg1 & Hc1).
  destruct (store_call_calm _ Hc1) as (w2 & Hs2 & Hc2 & _).
  destruct (store_call_calm _ Hc2) as (w3 & Hs3 & Hc3 & _).
  exists w3. split; [exact Hc3 |].
  unfold delete_message, try_except. unfold bind at 1.
  rewrite get_session_run, Hu.
  unfold bind at 1. rewrite chat_in_world_run, Hg1. cbn [fst snd].
  unfold bind at 1. rewrite chat_getitem_run, Hd.
  unfold bind at 1. rewrite chat_to_ObjectId_run, Ho.
  unfold bind at 1. rewrite chat_find_one_message_run.
  cbn [server set_server Server.world Server.set_world
       Server.messages_collection].
  rewrite Hs2, Hm, Hfor. cbn [default].
  rewrite bool_decide_eq_false_2 by assumption.
  unfold bind at 1. rewrite chat_in_server_run, update_one_deleted_for_run.
  cbn [server set_server Server.world Server.set_world
       Server.messages_collection].
  rewrite Hs3. cbn. rewrite <- app_assoc. reflexivity.
Qed.

Lemma hidden_for_idempotent user_id m :
  hidden_for user_id (hidden_for user_id m) = hidden_for user_id m.
Proof.
  unfold hidden_for, set_deleted_for. cbn. now rewrite add_to_set_idempotent.
Qed.

End HideFacts.

(** X17.  A deletion with "delete_for" set to anything but "everyone", from
    any authenticated user, with the store answering: the message stays
    stored with its content; the caller's id is in its [deleted_for], added
    once; no other message changes; the caller's own room gets a
    "message_hidden" notice and the socket a "success" event, nobody else
    hears of it; and a second such request changes nothing more in the
    store. *)
Theorem delete_message_for_me
    (sid : string) (data : gmap string string) (c : Chat.t)
    (user_id mid oid how : string) (m : Message.t) :
  default ∅ (Server.sessions (Chat.server c) !! sid) !! "user_id" = Some user_id ->
  data !! "message_id" = Some mid ->
  ObjectId mid = Some oid ->
  data !! "delete_for" = Some how ->
  how <> "everyone" ->
  Server.messages_collection (Chat.server c) !! oid = Some m ->
  calm (Server.world (Chat.server c)) ->
  exists c' c'',
    Chat.delete_message sid data c = (Ret tt, c')
    /\ Server.messages_collection (Chat.server c') !! oid
       = Some (hidden_for user_id m)
    /\ Message.content (hidden_for user_id m) = Message.content m
    /\ user_id ∈ Message.deleted_for (hidden_for user_id m)
    /\ (NoDup (Message.deleted_for m) ->
        NoDup (Message.deleted_for (hidden_for user_id m)))
    /\ (forall k, k <> oid ->
          Server.messages_collection (Chat.server c') !! k
          = Server.messages_collection (Chat.server c) !! k)
    /\ Chat.sent c'
       = Chat.sent c
         ++ [Chat.mk_emission "message_deleted" (Chat.MessageHidden oid)
               ("user_" +:+ user_id);
             Chat.mk_emission "success"
               (Chat.Notice "Message deleted successfully") sid]
    /\ Chat.delete_message sid data c' = (Ret tt, c'')
    /\ Server.messages_collection (Chat.server c'')
       = Server.messages_collection (Chat.server c').
Proof.
  intros Hu Hd Ho Hfor Hne Hm Hc.
  destruct (delete_for_me_run sid data c user_id mid oid how m
              Hu Hd Ho Hfor Hne Hm Hc) as (w1 & Hc1 & H1).
  set (c' := Chat.mk _ _ _) in H1.
  assert (Hm' : Server.messages_collection (Chat.server c') !! oid
                = Some (hidden_for user_id m)).
  { subst c'. cbn. now rewrite lookup_alter_eq, Hm. }
  destruct (delete_for_me_run sid data c' user_id mid oid how
              (hidden_for user_id m) Hu Hd Ho Hfor Hne Hm' Hc1)
    as (w2 & Hc2 & H2).
  eexists c', _. split; [exact H1 |]. split; [exact Hm' |].
  split; [reflexivity |].
  split; [apply add_to_set_elem |].
  split; [apply add_to_set_NoDup |].
  split; [intros k Hk; subst c'; cbn; now rewrite lookup_alter_ne |].
  split; [reflexivity |].
  split; [exact H2 |].
  cbn. subst c'. cbn. apply map_eq. intros k.
  destruct (decide (k = oid)) as [->|Hk].
  - rewrite !lookup_alter_eq, Hm. cbn. now rewrite hidden_for_idempotent.
  - now rewrite !lookup_alter_ne.
Qed.

Lemma delete_message_for_me_witness :
  calm (Server.world (Chat.server sample_chat))
  /\ exists c',
       Chat.delete_message "sid_bob"
         {[ "message_id" := direct_oid; "delete_for" := "me" ]} sample_chat
       = (Ret tt, c')
       /\ Server.messages_collection (Chat.server c') !! direct_oid
          = Some (hidden_for "bob" direct_message).
Proof.
  assert (Hc : calm (Server.world (Chat.server sample_chat))) by constructor.
  split; [exact Hc |].
  destruct (delete_message_for_me "sid_bob"
              {[ "message_id" := direct_oid; "delete_for" := "me" ]} sample_chat
              "bob" direct_oid direct_oid "me" direct_message)
    as (c' & c'' & H1 & H2 & _); try reflexivity; try exact Hc.
  - discriminate.
  - exists c'. split; [exact H1 | exact H2].
Defined.

(** * Properties of the group routes *)
Section GroupRouteFacts.
Import Server GroupRoutes.

Lemma add_user_to_group_run gid oid user_id s :
  ObjectId gid = Some oid ->
  calm (world s) ->
  exists w',
    calm w'
    /\ add_user_to_group gid user_id s
       = (Ret "User added to group",
          mk w' (messages_collection s)
            (alter (joined_by user_id) oid (groups_collection s))
            (sessions s) (emitted s)).
Proof.
  intros Ho Hc.
  destruct (get_groups_collection_calm _ Hc) as (w1 & Hg1 & Hc1).
  destruct (store_call_calm _ Hc1) as (w2 & Hs2 & Hc2 & _).
  exists w2. split; [exact Hc2 |].
  unfold add_user_to_group, try_except.
  rewrite (bind_ret _ _ _ _ _ (in_world_calm _ _ _ _ Hg1)).
  unfold bind at 1, to_ObjectId at 1. rewrite Ho. unfold ret at 1.
  unfold bind at 1, update_one_add_member at 1.
  rewrite (bind_ret _ _ _ _ _ (in_world_calm _ (set_world w1 s) _ _ Hs2)).
  reflexivity.
Qed.

Lemma get_user_groups_run user_id s :
  calm (world s) ->
  exists w',
    calm w'
    /\ get_user_groups user_id s
       = (Ret (map_to_list
                 (filter (fun kv => user_id ∈ Group.member_ids (snd kv))
                         (groups_collection s))),
          set_world w' s).
Proof.
  intros Hc.
  destruct (get_groups_collection_calm _ Hc) as (w1 & Hg1 & Hc1).
  destruct (store_call_calm _ Hc1) as (w2 & Hs2 & Hc2 & _).
  exists w2. split; [exact Hc2 |].
  unfold get_user_groups, try_except.
  rewrite (bind_ret _ _ _ _ _ (in_world_calm _ _ _ _ Hg1)).
  unfold find_groups_of.
  rewrite (bind_ret _ _ _ _ _ (in_world_calm _ (set_world w1 s) _ _ Hs2)).
  reflexivity.
Qed.

Lemma joined_by_idempotent user_id g :
  joined_by user_id (joined_by user_id g) = joined_by user_id g.
Proof.
  unfold joined_by, Group.set_member_ids. cbn. now rewrite add_to_set_idempotent.
Qed.

Lemma pull_add_to_set user_id l :
  user_id ∉ l -> pull user_id (add_to_set user_id l) = l.
Proof.
  intros Hn. unfold add_to_set. rewrite bool_decide_eq_false_2 by assumption.
  unfold pull. rewrite filter_app, filter_cons, filter_nil.
  rewrite decide_False by (intros H; now apply H). rewrite app_nil_r.
  induction l as [|x l IH]; [reflexivity |].
  rewrite filter_cons. apply not_elem_of_cons in Hn as (Hx & Hl).
  rewrite decide_True by (intros E; now apply Hx). f_equal. now apply IH.
Qed.

(** A removal that the ownership rules accept leaves the store answering. *)
Lemma remove_from_group_accepted_calm gid oid g user_id admin_id by_whom s :
  ObjectId gid = Some oid ->
  groups_collection s !! oid = Some g ->
  user_id ∈ Group.member_ids g ->
  (truthy admin_id = Some by_whom /\ by_whom = Group.created_by g)
  \/ (truthy admin_id = None /\ by_whom = user_id
      /\ user_id <> Group.created_by g) ->
  calm (world s) ->
  exists w' n,
    calm w'
    /\ remove_from_group gid user_id admin_id s
       = (Ret (mk_removal gid user_id by_whom),
          mk w' (messages_collection s)
            (<[oid := Group.set_member_ids (pull user_id (Group.member_ids g)) g]>
               (groups_collection s))
            (sessions s)
            (emitted s ++ removal_notifications n user_id (Group.member_ids g))).
Proof.
  intros Ho Hg Hin Hrule Hc.
  destruct (get_groups_collection_calm _ Hc) as (w1 & Hg1 & Hc1).
  destruct (store_call_calm _ Hc1) as (w2 & Hs2 & Hc2 & _).
  destruct (store_call_calm _ Hc2) as (w3 & Hs3 & Hc3 & _).
  exists w3. eexists. split; [exact Hc3 |].
  unfold remove_from_group, try_except.
  rewrite (bind_ret _ _ _ _ _ (in_world_calm _ _ _ _ Hg1)).
  unfold bind at 1, to_ObjectId at 1. rewrite Ho. unfold ret at 1.
  unfold bind at 1. rewrite find_one_group_run.
  cbn [world set_world groups_collection]. rewrite Hs2, Hg.
  rewrite bool_decide_eq_true_2 by assumption. cbn [negb].
  assert (Hadmin :
    match truthy admin_id with
    | Some a =>
        if negb (bool_decide (a = Group.created_by g))
        then raise (HTTPException 403 "Only group creator can remove members")
        else ret a
    | None =>
        if bool_decide (user_id = Group.created_by g)
        then raise (HTTPException 400
               "Group creator cannot leave the group. Please delete the group instead.")
        else ret user_id
    end = (ret by_whom : St t string)).
  { destruct Hrule as [(-> & ->) | (-> & -> & Hne)].
    - now rewrite bool_decide_eq_true_2.
    - now rewrite bool_decide_eq_false_2. }
  rewrite Hadmin. unfold bind at 1, ret at 1.
  unfold bind at 1, update_one_pull at 1.
  rewrite (bind_ret _ _ _ _ _
             (in_world_calm _ (set_world w2 (set_world w1 s)) _ _ Hs3)).
  unfold bind at 1, get at 1. cbn [groups_collection set_world]. rewrite Hg.
  rewrite bool_decide_eq_false_2 by (now apply pull_changes).
  unfold bind at 1, modify at 1, ret at 1.
  cbn [Z.eqb]. unfold bind at 1. rewrite server_in_world_run.
  cbn [fst snd World.datetime_now bind get ret].
  rewrite (bind_ret _ _ _ _ _ (for_each_notify _ _ _ _)).
  reflexivity.
Qed.

End GroupRouteFacts.

(** What bson takes for an id: 24 characters that [bytes.fromhex] reads,
    which skips blanks between pairs of digits but not inside a pair. *)
Lemma ObjectId_reads_as_fromhex :
  ObjectId "AAAAAAAAAAAAAAAAAAAAAAAA" = Some team_oid
  /\ ObjectId "aa aa aa aa aa aa aa aa " = Some "aaaaaaaaaaaaaaaa"
  /\ ObjectId "a aaaaaaaaaaaaaaaaaaaaaa" = None
  /\ ObjectId "aaaaaaaaaaaaaaaaaaaaaaa" = None
  /\ ObjectId "aaaaaaaaaaaaaaaaaaaaaaag" = None.
Proof. repeat split. Qed.

(** X18.  [add_user_to_group], with the store answering.  For a stored
    group the user is in [member_ids] afterwards, added at the end if new
    and not added again if already there, so a second request changes
    nothing; the group's other fields and the other groups are unchanged and
    no event is emitted.  For an id that bson accepts and that names no
    stored group (24 characters with blanks between the digits among them)
    the route answers with the same "User added to group" and stores
    nothing.  For an id that bson refuses it answers with status 500. *)
Theorem add_user_to_group_adds_once
    (s : Server.t) (gid oid user_id : string) :
  calm (Server.world s) ->
  (ObjectId gid = None ->
   exists d w',
     GroupRoutes.add_user_to_group gid user_id s
     = (Raise (HTTPException 500 d), Server.set_world w' s))
  /\ (ObjectId gid = Some oid ->
      exists s' s'',
        GroupRoutes.add_user_to_group gid user_id s = (Ret "User added to group", s')
        /\ (Server.groups_collection s !! oid = None ->
            Server.groups_collection s' = Server.groups_collection s)
        /\ (forall g, Server.groups_collection s !! oid = Some g ->
              Server.groups_collection s' !! oid = Some (joined_by user_id g)
              /\ user_id ∈ Group.member_ids (joined_by user_id g)
              /\ (user_id ∈ Group.member_ids g -> joined_by user_id g = g)
              /\ (NoDup (Group.member_ids g) ->
                  NoDup (Group.member_ids (joined_by user_id g))))
        /\ (forall k, k <> oid ->
              Server.groups_collection s' !! k = Server.groups_collection s !! k)
        /\ Server.emitted s' = Server.emitted s
        /\ Server.messages_collection s' = Server.messages_collection s
        /\ GroupRoutes.add_user_to_group gid user_id s'
           = (Ret "User added to group", s'')
        /\ Server.groups_collection s'' = Server.groups_collection s').
Proof.
  intros Hc. split.
  - intros Ho. destruct (get_groups_collection_calm _ Hc) as (w1 & Hg1 & Hc1).
    unfold GroupRoutes.add_user_to_group, try_except.
    rewrite (bind_ret _ _ _ _ _ (in_world_calm _ _ _ _ Hg1)).
    unfold bind at 1, Server.to_ObjectId at 1. rewrite Ho.
    eexists _, _. reflexivity.
  - intros Ho.
    destruct (add_user_to_group_run gid oid user_id s Ho Hc) as (w1 & Hc1 & H1).
    set (s' := Server.mk _ _ _ _ _) in H1.
    destruct (add_user_to_group_run gid oid user_id s' Ho Hc1) as (w2 & Hc2 & H2).
    eexists s', _. split; [exact H1 |].
    split.
    { intros Hn. subst s'. cbn. apply map_eq. intros k.
      destruct (decide (k = oid)) as [->|Hk].
      - now rewrite lookup_alter_eq, Hn.
      - now rewrite lookup_alter_ne. }
    split.
    { intros g Hg. split; [subst s'; cbn; now rewrite lookup_alter_eq, Hg |].
      split; [apply add_to_set_elem |]. split.
      - intros Hin. unfold joined_by, Server.add_to_set.
        rewrite bool_decide_eq_true_2 by assumption. now destruct g.
      - apply add_to_set_NoDup. }
    split; [intros k Hk; subst s'; cbn; now rewrite lookup_alter_ne |].
    split; [reflexivity |]. split; [reflexivity |].
    split; [exact H2 |].
    cbn. subst s'. cbn. apply map_eq. intros k.
    destruct (decide (k = oid)) as [->|Hk].
    + rewrite !lookup_alter_eq.
      destruct (Server.groups_collection s !! oid); cbn; [| reflexivity].
      now rewrite joined_by_idempotent.
    + now rewrite !lookup_alter_ne.
Qed.

Lemma add_user_to_group_adds_once_witness :
  calm (Server.world sample_server)
  /\ (exists s',
        GroupRoutes.add_user_to_group team_oid "dave" sample_server
        = (Ret "User added to group", s')
        /\ Server.groups_collection s' !! team_oid = Some (joined_by "dave" team))
  /\ (exists s',
        GroupRoutes.add_user_to_group "aa aa aa aa aa aa aa aa " "dave"
          sample_server
        = (Ret "User added to group", s')
        /\ Server.groups_collection s' = Server.groups_collection sample_server)
  /\ exists d s',
       GroupRoutes.add_user_to_group "a aaaaaaaaaaaaaaaaaaaaaa" "dave"
         sample_server
       = (Raise (HTTPException 500 d), s').
Proof.
  assert (Hc : calm (Server.world sample_server)) by constructor.
  split; [exact Hc |]. split; [| split].
  - destruct (add_user_to_group_adds_once sample_server team_oid team_oid
                "dave" Hc) as (_ & H).
    destruct (H eq_refl) as (s' & s'' & H1 & _ & H3 & _).
    exists s'. split; [exact H1 |]. apply (H3 team). reflexivity.
  - destruct (add_user_to_group_adds_once sample_server
                "aa aa aa aa aa aa aa aa " "aaaaaaaaaaaaaaaa" "dave" Hc)
      as (_ & H).
    destruct (H eq_refl) as (s' & s'' & H1 & H2 & _).
    exists s'. split; [exact H1 |]. apply H2. reflexivity.
  - destruct (add_user_to_group_adds_once sample_server
                "a aaaaaaaaaaaaaaaaaaaaaa" "" "dave" Hc) as (H & _).
    destruct (H eq_refl) as (d & w' & H1).
    exists d. eexists. exact H1.
Defined.

(** X19.  Membership as the routes show it, with the store answering.
    [get_user_groups] returns exactly the stored groups that have the user
    among their members.  After [add_user_to_group] on a stored group the
    group is in the user's listing.  If the user was not a member before and
    is not the creator, leaving again with [remove_from_group] (no
    [admin_id]) puts the group collection back as it was, and the group is
    no longer in the listing. *)
Theorem group_membership_round_trip
    (s : Server.t) (gid oid user_id : string) (g : Group.t) :
  ObjectId gid = Some oid ->
  Server.groups_collection s !! oid = Some g ->
  calm (Server.world s) ->
  (exists l s0,
     GroupRoutes.get_user_groups user_id s = (Ret l, s0)
     /\ forall k g', (k, g') ∈ l
          <-> Server.groups_collection s !! k = Some g'
              /\ user_id ∈ Group.member_ids g')
  /\ exists s1 l1 s2,
       GroupRoutes.add_user_to_group gid user_id s = (Ret "User added to group", s1)
       /\ GroupRoutes.get_user_groups user_id s1 = (Ret l1, s2)
       /\ (oid, joined_by user_id g) ∈ l1
       /\ (user_id ∉ Group.member_ids g ->
           user_id <> Group.created_by g ->
           exists s3 l3 s4,
             Server.remove_from_group gid user_id None s2
             = (Ret (Server.mk_removal gid user_id user_id), s3)
             /\ Server.groups_collection s3 = Server.groups_collection s
             /\ GroupRoutes.get_user_groups user_id s3 = (Ret l3, s4)
             /\ forall g', (oid, g') ∉ l3).
Proof.
  intros Ho Hg Hc. split.
  - destruct (get_user_groups_run user_id s Hc) as (w0 & _ & H0).
    eexists _, _. split; [exact H0 |]. intros k g'.
    rewrite elem_of_map_to_list, map_lookup_filter_Some. reflexivity.
  - destruct (add_user_to_group_run gid oid user_id s Ho Hc) as (w1 & Hc1 & H1).
    set (s1 := Server.mk _ _ _ _ _) in H1.
    destruct (get_user_groups_run user_id s1 Hc1) as (w2 & Hc2 & H2).
    assert (Hg1 : Server.groups_collection s1 !! oid = Some (joined_by user_id g)).
    { subst s1. cbn. now rewrite lookup_alter_eq, Hg. }
    eexists s1, _, _. split; [exact H1 |]. split; [exact H2 |]. split.
    { rewrite elem_of_map_to_list, map_lookup_filter_Some. split; [exact Hg1 |].
      apply add_to_set_elem. }
    intros Hnot Hcreator.
    destruct (remove_from_group_accepted_calm gid oid (joined_by user_id g)
                user_id None user_id (Server.set_world w2 s1))
      as (w3 & n & Hc3 & H3); try assumption.
    { apply add_to_set_elem. }
    { right. repeat split. exact Hcreator. }
    set (s3 := Server.mk _ _ _ _ _) in H3.
    assert (Hback : Server.groups_collection s3 = Server.groups_collection s).
    { subst s3 s1. cbn. unfold joined_by. cbn.
      fold (Server.pull user_id (Server.add_to_set user_id (Group.member_ids g))).
      rewrite pull_add_to_set by assumption.
      apply map_eq. intros k. destruct (decide (k = oid)) as [->|Hk].
      - rewrite lookup_insert_eq, Hg. now destruct g.
      - rewrite lookup_insert_ne by congruence. now rewrite lookup_alter_ne. }
    destruct (get_user_groups_run user_id s3 Hc3) as (w4 & _ & H4).
    eexists s3, _, _. split; [exact H3 |]. split; [exact Hback |].
    split; [exact H4 |].
    intros g' Hin. apply elem_of_map_to_list, map_lookup_filter_Some in Hin.
    destruct Hin as (Hl & Hmem). rewrite Hback, Hg in Hl. injection Hl as <-.
    cbn in Hmem. contradiction.
Qed.

Lemma group_membership_round_trip_witness :
  calm (Server.world sample_server)
  /\ exists s1 l1 s2 s3,
       GroupRoutes.add_user_to_group team_oid "dave" sample_server
       = (Ret "User added to group", s1)
       /\ GroupRoutes.get_user_groups "dave" s1 = (Ret l1, s2)
       /\ (team_oid, joined_by "dave" team) ∈ l1
       /\ Server.remove_from_group team_oid "dave" None s2
          = (Ret (Server.mk_removal team_oid "dave" "dave"), s3)
       /\ Server.groups_collection s3 = Server.groups_collection sample_server.
Proof.
  assert (Hc : calm (Server.world sample_server)) by constructor.
  split; [exact Hc |].
  destruct (group_membership_round_trip sample_server team_oid team_oid "dave" team
              eq_refl eq_refl Hc) as (_ & s1 & l1 & s2 & H1 & H2 & H3 & H4).
  destruct H4 as (s3 & l3 & s4 & H5 & H6 & _).
  - intros Hin. apply list_elem_of_In in Hin. cbn in Hin.
    repeat (destruct Hin as [Hin|Hin]; [discriminate Hin |]). exact Hin.
  - discriminate.
  - exists s1, l1, s2, s3. auto.
Defined.

(** * Further properties of the breaker and of read receipts *)

(** X20.  In every state the module-level buffer can reach, the breaker
    still has the threshold 3 and the timeout of 60 s, and [can_proceed]
    answers [True] or [False]: the subtraction from a missing
    [last_failure_time] cannot happen, because the breaker is never open
    without a recorded failure time. *)
Theorem reachable_breaker_always_answers (b : MessageBuffer.t) (now : datetime) :
  MessageBuffer.reachable b ->
  CircuitBreaker.failure_threshold (MessageBuffer.circuit_breaker b) = 3
  /\ CircuitBreaker.reset_timeout (MessageBuffer.circuit_breaker b) = 60
  /\ (CircuitBreaker.is_open (MessageBuffer.circuit_breaker b) = true ->
      exists last,
        CircuitBreaker.last_failure_time (MessageBuffer.circuit_breaker b) = Some last)
  /\ exists ok cb',
       CircuitBreaker.can_proceed now (MessageBuffer.circuit_breaker b) = (Ret ok, cb').
Proof.
  intros Hr. destruct (reachable_breaker_ok b Hr) as (Ht & Hto & Hwf).
  split; [exact Ht |]. split; [exact Hto |]. split.
  - intros Ho. specialize (Hwf Ho).
    destruct (CircuitBreaker.last_failure_time _) as [last|]; [eauto | contradiction].
  - destruct (CircuitBreaker.can_proceed now (MessageBuffer.circuit_breaker b))
      as [r cb'] eqn:Hc.
    destruct (can_proceed_wf _ _ _ _ Hwf Hc) as (_ & ok & ->). eauto.
Qed.

Lemma reachable_breaker_always_answers_witness :
  exists ok cb',
    CircuitBreaker.can_proceed 5000000
      (MessageBuffer.circuit_breaker
         (run_calls [(MessageBuffer.Flush, failing_world)]
            (run_calls [(MessageBuffer.AddMessage (sample_message 1), healthy_world)]
               (MessageBuffer.message_buffer 0))))
    = (Ret ok, cb').
Proof.
  refine (proj2 (proj2 (proj2 (reachable_breaker_always_answers _ 5000000 _)))).
  apply reachable_run_calls, reachable_run_calls, MessageBuffer.reachable_init.
Defined.

Section SilentReceipts.
Import Server.

Lemma alter_absent {V} (f : V -> V) (k : string) (m : gmap string V) :
  m !! k = None -> alter f k m = m.
Proof.
  intros Hn. apply map_eq. intros j. destruct (decide (j = k)) as [->|Hj].
  - now rewrite lookup_alter_eq, Hn.
  - now rewrite lookup_alter_ne.
Qed.

End SilentReceipts.

(** X21.  A read receipt that names no stored message is dropped in
    silence: when the session has no user id, the request has no
    "message_id", the id is not an ObjectId or no message is stored under
    it, [mark_read] returns without changing a stored message or group and
    without emitting anything, not even an error to the caller, whatever the
    store answers. *)
Theorem mark_read_unknown_message_is_silent
    (sid : string) (data : gmap string string) (s : Server.t) :
  (forall user_id mid oid,
      default ∅ (Server.sessions s !! sid) !! "user_id" = Some user_id ->
      data !! "message_id" = Some mid ->
      ObjectId mid = Some oid ->
      Server.messages_collection s !! oid = None) ->
  let r := Server.mark_read sid data s in
  fst r = Ret tt
  /\ Server.messages_collection (snd r) = Server.messages_collection s
  /\ Server.groups_collection (snd r) = Server.groups_collection s
  /\ Server.sessions (snd r) = Server.sessions s
  /\ Server.emitted (snd r) = Server.emitted s.
Proof.
  intros Hunknown. cbv zeta.
  destruct (Server.mark_read sid data s) as [res s'] eqn:Hrun.
  cbn [fst snd]. revert Hrun.
  unfold Server.mark_read, try_except.
  unfold bind at 1, Server.get_session at 1, bind at 1, get at 1, ret at 1.
  destruct (default ∅ (Server.sessions s !! sid) !! "user_id") as [user_id|] eqn:Hu.
  2:{ intros [= <- <-]. auto. }
  unfold bind at 1. rewrite server_in_world_run.
  pose proof (get_messages_collection_not_blocked (Server.world s)) as Hnb.
  destruct (World.get_messages_collection (Server.world s)) as [[[]|e|] w1];
    cbn [fst snd] in *; [| | congruence].
  2:{ intros [= <- <-]. auto. }
  unfold bind at 1, Server.getitem at 1.
  destruct (data !! "message_id") as [mid|] eqn:Hd.
  2:{ intros [= <- <-]. auto. }
  unfold ret at 1. unfold bind at 1, Server.to_ObjectId at 1.
  destruct (ObjectId mid) as [oid|] eqn:Ho.
  2:{ intros [= <- <-]. auto. }
  unfold ret at 1.
  assert (Hn : Server.messages_collection s !! oid = None) by eauto.
  unfold bind at 1, Server.update_one_read at 1, bind at 1.
  rewrite server_in_world_run. cbn [Server.world Server.set_world].
  pose proof (store_call_not_blocked w1) as Hnb1.
  destruct (World.store_call w1) as [[[]|e|] w2]; cbn [fst snd] in *;
    [| | congruence].
  2:{ intros [= <- <-]. auto. }
  unfold modify at 1.
  cbn [Server.messages_collection Server.set_world].
  rewrite alter_absent by assumption.
  unfold bind at 1, Server.find_one_message at 1, bind at 1.
  rewrite server_in_world_run.
  cbn [Server.world Server.set_world Server.set_messages_collection].
  pose proof (store_call_not_blocked w2) as Hnb2.
  destruct (World.store_call w2) as [[[]|e|] w3]; cbn [fst snd] in *;
    [| | congruence].
  2:{ intros [= <- <-]. auto. }
  unfold bind at 1, get at 1, ret at 1.
  cbn [Server.messages_collection Server.set_world Server.set_messages_collection].
  rewrite Hn. intros [= <- <-]. auto.
Qed.

Lemma mark_read_unknown_message_is_silent_witness :
  Server.emitted
    (snd (Server.mark_read "sid_bob" {[ "message_id" := team_oid ]} sample_server))
  = Server.emitted sample_server.
Proof.
  refine (proj2 (proj2 (proj2 (proj2
    (mark_read_unknown_message_is_silent "sid_bob" {[ "message_id" := team_oid ]}
       sample_server _))))).
  intros user_id mid oid _ Hd Ho.
  vm_compute in Hd. injection Hd as <-.
  vm_compute in Ho. injection Ho as <-.
  reflexivity.
Defined.
